(* ===== verification/_CoqProject ===== *)
-Q . S2P
Prelude.v
Effects.v
JsValue.v
Config.v
UriCodec.v
Base64.v
Redirect.v
Http.v
Swr.v
AuthHook.v
Runtime.v
Pages.v
Dashboard.v
LoginRuntime.v
LayoutRuntime.v
