(* ===== verification/Prelude.v ===== *)
(** * A verification development of windmill-nextjs-laravel-breeze

    The repository is a Next.js admin dashboard.  Its only stateful logic is
    the authentication hook [useAuth] of [src/hooks/auth.ts].  The hook talks
    to a Laravel Breeze backend through the axios instance of [src/lib/api.ts].
    It keeps the session in an SWR cache keyed by the user endpoint.  It
    exposes the actions [register], [login], [forgotPassword],
    [resetPassword], [resendEmailVerification] and [logout].  A render effect
    redirects according to the page's middleware mode ([auth] or [guest]).
    The pages under [src/pages/example/] and the layout of
    [src/example/containers/Layout.tsx] call the hook and keep their own form
    state: errors, status, submitting and loader flags.

    ** Files, in dependency order

    - [Prelude] (this file) holds the shared string machinery.  JavaScript
      strings are Stdlib [string]s of 8-bit code units.  [indexOf] has its
      JavaScript meaning (-1 when absent) and is written [s @@ p] in
      [js_scope].  The file also holds the prefix and occurrence lemmas, the
      [zdivmod] and [decide_chars] tactics, the [forall_range] lemma for
      enumerations over small integer ranges, and the [webauth] hint
      databases.
    - [Effects] ([Module Effects]) is React's [useEffect] with a dependency
      list: [deps_changed] decides whether an effect runs at a commit, and
      [flag_effect] is the loader effect with its cleanup that the login
      page and [Layout] share, with the invariant [flag_inv] it keeps.
    - [JsValue] holds the values the code reads from responses ([jsval],
      with decidable equality).  It models [ToBoolean] ([truthy]), property
      access with the [TypeError] of [undefined.x] ([get_prop] returns
      [None]), and [Object.values] in the ECMAScript own-key order (integer
      keys first, ascending).  It also has [flat], [ToString] and object
      spread.  [validation_errors] is line 63 of auth.ts, and
      [validation_errors_bag] computes it on a Laravel error bag.
    - [Config] ([Module Config]) holds the ten [process.env.X || default]
      constants of auth.ts lines 21-31, over a [gmap] environment, and the
      middleware configuration of lines 7-12 and 35-36.
    - [UriCodec] ([Module UriCodec]) models [encodeURIComponent] and
      [decodeURIComponent], with their round trip
      [decode_encode_uri_component].  It also models [querystring.stringify]
      and the query parsing of the Next.js router ([router_query]: ['+'] is a
      space, repeated keys become arrays).  These are library semantics,
      modelled from the standards.
    - [Base64] ([Module Base64]) models [btoa] and the forgiving-base64
      [atob] of the HTML standard, with bit operations on [Z]
      ([Z.shiftr], [Z.land]).  [atob_btoa] proves the round trip for every
      string of code units.
    - [Redirect] ([Module Redirect]) holds the URLs the hook navigates to:
      the 409 target (line 48), the guest target with its [logged=1] marker
      (lines 141-144), and the logout target with [next_to] (lines
      130-137).
    - [Http] ([Module Http]) models the axios instance and [csrf()] of
      [src/lib/api.ts].  It also models where a request goes ([buildFullPath]
      of axios) and how a response settles (2xx fulfils).
    - [Swr] ([Module Swr]) gives the session cache as the class
      [SessionCache] with its laws [SessionCacheLaws]: the latest fetch
      wins, and stale results are dropped.  SWR's timestamp check is the
      instance [swr_laws].
    - [AuthHook] ([Module AuthHook], [Section Hook]) models [useAuth] as
      functions on a [world]: the caller's [errors] (with the identity of
      the array, [w_errors_ref]) and [status], [loading],
      the cache, the navigations, the requests in flight and the unhandled
      rejections.  Each action runs its synchronous part and stops at its
      first request.  The code after an [await] or [.then] is a
      continuation ([cont]) stored with the request.  [resume] runs it when
      [settle_request] answers that request.  [auth_effect] is the effect of
      lines 140-153.  [logout] takes the fetch [error] of the render that
      created it, as its [useCallback] closure does.  The section is stated against [SessionCacheLaws], so
      its theorems hold for every lawful cache.
    - [Runtime] ([Module Runtime], [Section Run]) interleaves the steps:
      calls of actions, settlements in any order, and renders whose effect
      dependencies changed.  [step] is the step relation and [reachable]
      its reflexive-transitive closure from the mount.  The invariant
      [wf_world] (fresh distinct request ids, fetches stamped with their id)
      holds on every reachable state, by rule induction ([reachable_wf]);
      the flows take it as their hypothesis.  Whole flows (a login answered
      422, a successful login, a failing CSRF request) are computed with
      the lemma [settle_issued].
    - [Pages] ([Module Pages] and one module per page) models the state,
      effects, submit and input handlers, and views of the login,
      forgot-password and verify-email pages.  A view is a record of what
      the page shows: picture, error line, status line, inputs, disabled
      buttons; [None] is the loader.
    - [Dashboard] ([Module Dashboard]) models the authenticated pages:
      [Layout] (its hook configuration, loader effect, shell class and
      view), the static blocks of [cards.tsx], the modal's state and events
      in [modals.tsx], and what [CTA.tsx] shows.
    - [LoginRuntime] ([Module LoginRuntime], [Section LoginMachine])
      composes the login page with the hook into one step relation
      [lstep]: typing and submitting while the form is shown, backend
      answers, and React commits ([commit]).  A commit reads the render's
      snapshot, runs the cleanups, then the hook's effect, the status effect
      and the loader effect of login.tsx in declaration order, each only if
      its dependencies changed by identity.  An exception of [atob] in the
      status effect is a crash ([crashes]).
    - [LayoutRuntime] ([Module LayoutRuntime], [Section LayoutMachine])
      composes [Layout] with the hook the same way: backend answers, and
      commits of the hook's effect and the layout's loader effect.

    ** What the theorems show

    - Flows of the hook: 422 bags reach [errors] in order; other failures
      are unhandled; a 409 redirects to verify-email; a failed fetch keeps
      the user; logout waits for its post; the redirect effect does what
      the middleware mode asks.
    - Refinement: the render effect performs exactly the decision of the
      specification's pure redirect policy [decide_redirect].
    - Safety: once the latest fetch has settled, no older request can
      replace the user.
    - Equivalence: the modal's state after any events equals the reference
      [open_spec] (the last open or close event decides it).
    - Safety of the mounted pages: once React is idle, the login form is on
      screen exactly when loading is over and no user is logged in, and
      the dashboard shell exactly when loading is over and a user is.
      After any commit, one more commit leaves nothing to commit.  In any
      idle state, a reset message survives the [setStatus(null)] of a
      login's CSRF step, because the new [errors] array reruns the page's
      status effect; a [reset] that [atob] rejects crashes the page.
    - Errors of the encodings: for every status whose base64 text has a
      ['+'], the login page never shows that status ([atob] of the text
      with a space in place of the ['+'] fails or is shorter, by the length
      lemmas [atob_length] and [atob_plus_to_space_btoa] of [Base64]); for
      every backend URL that is a path [b], the CSRF request goes to [b]
      twice followed by [/sanctum/csrf-cookie]; for every target [t], the
      login page with [next_to] set to [t] pushes a URL starting with [t].
    - Termination: without new calls, answers and renders cannot go on
      forever.  The measure is the pending work, [pending_weight].
    - Round trips: after a forced logout, the login page sends the user
      back to the path and query they left.  The reset status shown on the login page is the one the
      backend sent, when its base64 text has no ['+'].
    - Departures from the specification:
      - the logout path is read from the login variable;
      - the login page follows any [next_to], an open redirect;
      - a redirect URL starting with [logged=1] gets a second marker;
      - ['+'] in the base64 status is read back as a space;
      - the submit buttons are enabled again while their requests are in
        flight;
      - errors stay on screen when the CSRF request fails;
      - a relative backend URL gives the wrong CSRF URL.

    ** Bounds and choices

    There is no fuel: every definition is structural.  Integers are [Z]: the
    HTTP statuses, the bytes and sextets of base64 (with [Z.land] masks),
    and the [indexOf] results.  Strings are 8-bit code units.  Text outside
    Latin-1 (UTF-16 surrogates, multi-byte UTF-8) is not modelled.
    [encodeURIComponent] encodes a code unit as its UTF-8 octets, so the
    round trips hold on the whole modelled range.  [btoa] throws on code
    units above 255, and none exist in this model.

    ** Not modelled

    - CSS classes, fixed labels and paragraph text of the pages.  The views
      keep what depends on state, and the cards page keeps its block
      structure, titles and values.
    - Sidebar, Header, Main, Loader and the other imported components.  They
      are not under [src/] and only display their props.
    - The backend, which is any sequence of responses.
    - SWR's focus and interval revalidation, deduplication window and
      retries.
    - React's batching beyond "a handler's updates apply together".
    - Unmounting, including the unmount that follows a navigation: a page
      keeps running in the model after it pushes another route.
    - The first render of a statically optimised Next.js page, with an
      empty [router.query] before hydration; the model takes the query as
      ready at mount.
    - SWR compares [data] by value but may hand out a new [error] object on
      every failure; the hook's effect dependencies compare [error] by
      value here.

    The libraries are the Standard Library and stdpp (lists, options,
    [gmap] for the environment, [rtc], decidable equality).  The login and
    layout machines take the hook's configuration as a section variable:
    their theorems hold for every configuration, the one the page computes
    ([LoginPage.auth_config], [Layout.auth_config]) included.  *)

From Stdlib Require Import ZArith String Ascii.
From stdpp Require Export base list strings gmap.

(** ** Notations *)

Declare Scope js_scope.
Delimit Scope js_scope with js.
Open Scope stdpp_scope.

(** stdpp makes [String.append] opaque to [simpl]; the models compute with
    it, so it unfolds again when its first argument is a constructor. *)
Global Arguments String.append : simpl nomatch.

(** ** JavaScript strings

    A JavaScript string is modelled as a Stdlib [string]: a sequence of
    8-bit code units, i.e. the Latin-1 range of UTF-16.  The default URLs,
    the backend's English messages and the paths of the pages lie in that
    range. *)

(** [starts_with p s] is [s.startsWith(p)]. *)
Fixpoint starts_with (p s : string) : bool :=
  match p, s with
  | EmptyString, _ => true
  | String c p', String d s' => bool_decide (c = d) && starts_with p' s'
  | String _ _, EmptyString => false
  end.

(** The first position at or after the head of [s] where [p] occurs,
    counting from [i]. *)
Fixpoint find_from (p s : string) (i : nat) : option nat :=
  if starts_with p s then Some i
  else match s with
       | EmptyString => None
       | String _ s' => find_from p s' (S i)
       end.

(** [indexOf s p] is [s.indexOf(p)]: the first position of [p] in [s], or
    [-1]. *)
Definition indexOf (s p : string) : Z :=
  match find_from p s 0 with
  | Some i => Z.of_nat i
  | None => (-1)%Z
  end.

Notation "s '@@' p" := (indexOf s p) (at level 40, no associativity) : js_scope.

(** [drop n s]: the suffix of [s] after its first [n] code units. *)
Fixpoint drop (n : nat) (s : string) : string :=
  match n, s with
  | O, _ => s
  | S _, EmptyString => EmptyString
  | S n', String _ s' => drop n' s'
  end.

(** [p] occurs in [s] at position [k]. *)
Definition occurs_at (p s : string) (k : nat) : Prop :=
  k <= String.length s /\ starts_with p (drop k s) = true.

(** [char_in c s]: the code unit [c] occurs in [s]. *)
Fixpoint char_in (c : ascii) (s : string) : bool :=
  match s with
  | EmptyString => false
  | String d s' => bool_decide (c = d) || char_in c s'
  end.

(** ** Tactics and hints *)

Create HintDb webauth discriminated.
Create Rewrite HintDb webauth_rw.

(** Arithmetic on [Z] with division and modulo by constants. *)
Ltac zdivmod := Z.div_mod_to_equations; lia.

(** Case analysis on the [bool_decide] tests left by [simpl]. *)
Ltac decide_chars :=
  repeat match goal with
  | |- context [bool_decide ?P] => case_bool_decide; subst; simpl in *
  | H : context [bool_decide ?P] |- _ => case_bool_decide; subst; simpl in *
  end.

(** ** Generic lemmas on strings *)

Lemma append_nil_r (s : string) : s +:+ "" = s.
Proof. induction s; simpl; congruence. Qed.

Lemma append_assoc (s t u : string) : s +:+ (t +:+ u) = (s +:+ t) +:+ u.
Proof. induction s; simpl; congruence. Qed.

Lemma length_append (s t : string) :
  String.length (s +:+ t) = String.length s + String.length t.
Proof. induction s; simpl; lia. Qed.

Lemma length_string_of_list_ascii (l : list ascii) :
  String.length (string_of_list_ascii l) = List.length l.
Proof. induction l as [|c l IH]; simpl; [done|]. by rewrite IH. Qed.

Lemma length_list_ascii_of_string (s : string) :
  List.length (list_ascii_of_string s) = String.length s.
Proof. induction s as [|c s IH]; simpl; [done|]. by rewrite IH. Qed.

Lemma starts_with_nil (s : string) : starts_with "" s = true.
Proof. destruct s; reflexivity. Qed.

Lemma starts_with_refl (s : string) : starts_with s s = true.
Proof. induction s; simpl; [done|]. rewrite bool_decide_eq_true_2; auto. Qed.

Lemma starts_with_app (p s t : string) :
  starts_with p s = true -> starts_with p (s +:+ t) = true.
Proof.
  revert s; induction p as [|c p IH]; intros [|d s] H; simpl in *;
    try done.
  apply andb_true_iff in H as [H1 H2]. rewrite H1, (IH _ H2). done.
Qed.

Lemma starts_with_app_l (p t : string) : starts_with p (p +:+ t) = true.
Proof. apply starts_with_app, starts_with_refl. Qed.

Lemma starts_with_length (p s : string) :
  starts_with p s = true -> String.length p <= String.length s.
Proof.
  revert s; induction p as [|c p IH]; intros [|d s] H; simpl in *; try lia.
  apply andb_true_iff in H as [_ H]. apply IH in H. lia.
Qed.

(** A prefix of [u ++ t] that is longer than [u] extends [u] into [t]. *)
Lemma starts_with_app_inv (p u t : string) :
  starts_with p (u +:+ t) = true ->
  starts_with p u = true \/
  exists r, p = u +:+ r /\ r <> EmptyString /\ starts_with r t = true.
Proof.
  revert p; induction u as [|d u IH]; intros p H; simpl in *.
  - destruct p as [|c p]; [by left|]. right. exists (String c p). done.
  - destruct p as [|c p]; [by left|]. simpl in H.
    apply andb_true_iff in H as [Hc H]. apply bool_decide_eq_true in Hc. subst.
    destruct (IH _ H) as [Hl | (r & -> & Hr & Ht)].
    + left. simpl. rewrite bool_decide_eq_true_2; auto.
    + right. exists r. done.
Qed.

Lemma drop_length (k : nat) (s : string) :
  String.length (drop k s) = String.length s - k.
Proof. revert s; induction k; intros [|c s]; simpl; auto. Qed.

Lemma drop_app (s t : string) : drop (String.length s) (s +:+ t) = t.
Proof. induction s; simpl; auto. Qed.

Lemma find_from_shift (p s : string) (i : nat) :
  find_from p s i = (λ j, i + j) <$> find_from p s 0.
Proof.
  revert i; induction s as [|c s IH]; intros i; simpl.
  - destruct (starts_with p ""); simpl; [f_equal; lia|done].
  - destruct (starts_with p (String c s)); simpl; [f_equal; lia|].
    rewrite (IH (S i)), (IH 1).
    destruct (find_from p s 0); simpl; [f_equal; lia|done].
Qed.

(** [find_from] finds an occurrence no later than any given one. *)
Lemma find_from_complete (p s : string) (k : nat) :
  occurs_at p s k -> exists j, find_from p s 0 = Some j /\ j <= k.
Proof.
  revert k; induction s as [|c s IH]; intros k [Hk Hs]; simpl.
  - destruct k; simpl in *; [|lia]. rewrite Hs. eauto.
  - destruct (starts_with p (String c s)) eqn:E; [exists 0; split; auto; lia|].
    destruct k as [|k]; simpl in *; [congruence|].
    destruct (IH k) as (j & Hj & Hle); [split; auto; lia|].
    rewrite find_from_shift, Hj. exists (S j). split; [done|lia].
Qed.

(** What [find_from] returns is an occurrence. *)
Lemma find_from_sound (p s : string) (j : nat) :
  find_from p s 0 = Some j -> occurs_at p s j.
Proof.
  revert j; induction s as [|c s IH]; intros j H; simpl in H.
  - destruct (starts_with p "") eqn:E; simplify_eq. split; simpl; auto.
  - destruct (starts_with p (String c s)) eqn:E; simplify_eq.
    + split; simpl; auto. lia.
    + rewrite find_from_shift in H.
      destruct (find_from p s 0) as [j'|] eqn:Ej; simplify_eq/=.
      destruct (IH j' eq_refl) as [Hk Hs]. split; simpl; auto. lia.
Qed.

#[export] Hint Resolve starts_with_refl starts_with_app starts_with_app_l : webauth.
#[export] Hint Rewrite append_nil_r length_append drop_app length_string_of_list_ascii
  length_list_ascii_of_string : webauth_rw.

(** ** Checking a property of a small integer range by computation *)

(** A decidable property of every integer in [lo, lo + len) follows from its
    boolean check on the enumerated range, which [vm_compute] evaluates. *)
Lemma forall_range (P : Z -> Prop) `{!∀ n, Decision (P n)} (lo len : Z) :
  forallb (λ n, bool_decide (P n)) (seqZ lo len) = true ->
  forall n, (lo <= n < lo + len)%Z -> P n.
Proof.
  intros Hall n Hn. apply Is_true_eq_left, forallb_True in Hall.
  rewrite Forall_forall in Hall. specialize (Hall n).
  rewrite elem_of_seqZ in Hall. apply (bool_decide_unpack _), Hall. lia.
Qed.

(** ** Lists by groups of three *)

(** Induction following a recursion that consumes three elements at a time. *)
Lemma list_triple_ind {A} (P : list A -> Prop) :
  P [] -> (forall a, P [a]) -> (forall a b, P [a; b]) ->
  (forall a b c l, P l -> P (a :: b :: c :: l)) -> forall l, P l.
Proof.
  intros H0 H1 H2 H3 l. remember (length l) as n eqn:Hn. revert l Hn.
  induction n as [n IH] using lt_wf_ind.
  intros [|a [|b [|c l]]] Hn; auto. apply H3, (IH (length l)); simpl in *; lia.
Qed.

Lemma list_quad_ind {A} (P : list A -> Prop) :
  P [] -> (forall a, P [a]) -> (forall a b, P [a; b]) -> (forall a b c, P [a; b; c]) ->
  (forall a b c d l, P l -> P (a :: b :: c :: d :: l)) -> forall l, P l.
Proof.
  intros H0 H1 H2 H3 H4 l. remember (length l) as n eqn:Hn. revert l Hn.
  induction n as [n IH] using lt_wf_ind.
  intros [|a [|b [|c [|d l]]]] Hn; auto. apply H4, (IH (length l)); simpl in *; lia.
Qed.

(** ** Lemmas on [indexOf] *)

Lemma indexOf_range (s p : string) :
  (-1 <= s @@ p <= Z.of_nat (String.length s))%js%Z.
Proof.
  unfold indexOf. destruct (find_from p s 0) eqn:E; [|lia].
  apply find_from_sound in E as [Hk _]. lia.
Qed.

Lemma indexOf_zero_iff (s p : string) :
  (s @@ p)%js = 0%Z <-> starts_with p s = true.
Proof.
  unfold indexOf. destruct s as [|c s]; simpl.
  - destruct (starts_with p ""); simpl; split; intros; (done || lia).
  - destruct (starts_with p (String c s)); [split; intros; (done || lia)|].
    rewrite find_from_shift.
    destruct (find_from p s 0); simpl; split; intros; (done || lia).
Qed.

Lemma indexOf_found (s p : string) (k : nat) :
  occurs_at p s k -> (0 <= s @@ p <= Z.of_nat k)%js%Z.
Proof.
  intros Hk. unfold indexOf.
  destruct (find_from_complete p s k Hk) as (j & -> & Hj). lia.
Qed.

Lemma indexOf_absent (s p : string) :
  (s @@ p)%js = (-1)%Z <-> forall k, ~ occurs_at p s k.
Proof.
  unfold indexOf. split.
  - intros H k Hk. destruct (find_from_complete p s k Hk) as (j & Hj & _).
    rewrite Hj in H. lia.
  - intros H. destruct (find_from p s 0) eqn:E; [|done].
    apply find_from_sound in E. destruct (H _ E).
Qed.

(** The pattern occurs at the end of [s ++ p]. *)
Lemma occurs_at_end (s p : string) : occurs_at p (s +:+ p) (String.length s).
Proof.
  split; [rewrite length_append; lia|]. rewrite drop_app. apply starts_with_refl.
Qed.

(** A code unit of [u] occurs in [u ++ r]. *)
Lemma char_in_app_r (c : ascii) (u r : string) :
  char_in c r = true -> char_in c (u +:+ r) = true.
Proof. induction u; simpl; auto. intros H. rewrite (IHu H). apply orb_true_r. Qed.

(** A pattern [p] none of whose code units is [c] is a prefix of
    [u ++ String c t] only when it is a prefix of [u]. *)
Lemma starts_with_app_sep (p u t : string) (c : ascii) :
  char_in c p = false ->
  starts_with p (u +:+ String c t) = true -> starts_with p u = true.
Proof.
  intros Hc H. destruct (starts_with_app_inv p u (String c t) H)
    as [Hu | (r & -> & Hr & Ht)]; [done|].
  destruct r as [|d r]; [done|]. simpl in Ht.
  apply andb_true_iff in Ht as [Hd _]. apply bool_decide_eq_true in Hd. subst.
  rewrite (char_in_app_r c u (String c r)) in Hc; [done|].
  simpl. rewrite bool_decide_eq_true_2; auto.
Qed.
