(* ===== verification/Effects.v ===== *)
(** * React's [useEffect] with a dependency list

    A component's effect runs after a commit when one of its dependencies
    differs from the values of its last run; before running, React runs the
    cleanup the last run returned.  [deps_changed] is that test (the
    dependencies are compared as a whole, [None] before the first run).

    The login page (login.tsx lines 38-46) and the dashboard layout
    (Layout.tsx lines 19-27) both keep a loader flag, [useState(true)], with
    the effect
    [useEffect(() => { if (cond) setFlag(false); return () => setFlag(true) }, deps)].
    [flag_effect] is one commit of that effect.  [flag_inv] is what it keeps:
    after a run on dependencies [d] the flag is [negb (cond d)], and before
    the first run it is [true].  Both machines that compose a page with the
    hook ([LoginRuntime], [LayoutRuntime]) use these lemmas. *)

From S2P Require Import Prelude.

Module Effects.

Section Deps.

Context {D : Type} `{EqDecision D}.

Definition deps_changed (old : option D) (cur : D) : bool := bool_decide (old <> Some cur).

(** One commit of the flag effect: the cleanup of the previous run sets the
    flag, then the effect clears it when [cond] holds of the render's
    dependencies [cur].  Nothing runs when the dependencies are unchanged. *)
Definition flag_effect (cond : D -> bool) (old : option D) (cur : D) (flag : bool) : bool :=
  if deps_changed old cur then
    let flag1 := match old with None => flag | Some _ => true end in
    if cond cur then false else flag1
  else flag.

Definition flag_inv (cond : D -> bool) (old : option D) (flag : bool) : Prop :=
  flag = match old with None => true | Some d => negb (cond d) end.

Lemma deps_unchanged old cur : deps_changed old cur = false -> old = Some cur.
Proof.
  unfold deps_changed. case_bool_decide as Hd; [done|]. intros _.
  destruct (decide (old = Some cur)); [done|]. by destruct Hd.
Qed.

Lemma deps_changed_after cur : deps_changed (Some cur) cur = false.
Proof. unfold deps_changed. by rewrite bool_decide_eq_false_2 by (intros []; done). Qed.

Lemma flag_effect_inv cond old cur flag :
  flag_inv cond old flag -> flag_inv cond (Some cur) (flag_effect cond old cur flag).
Proof.
  unfold flag_inv, flag_effect. intros ->.
  destruct (deps_changed old cur) eqn:Hc.
  - destruct (cond cur), old; done.
  - apply deps_unchanged in Hc as ->. done.
Qed.

End Deps.

End Effects.
