(* ===== verification/JsValue.v ===== *)
(** * JavaScript values read by the hook

    The hook reads backend responses as JSON values: [response.data],
    [error.response.data.errors], [response.data.status].  This file
    models those values, their truthiness, property access,
    [Object.values] with the ECMAScript own-property order, and
    [Array.prototype.flat] of depth one.  With them, the expression
    [Object.values(error.response.data.errors).flat()] of
    [src/hooks/auth.ts] (lines 63, 79, 95, 111) is [validation_errors], and
    the body [{ token: router.query.token, ...props }] of line 106 is
    [object_spread].  The rest are library semantics, not code of the
    repository. *)

From S2P Require Import Prelude.
From Stdlib Require Import ZArith String Ascii Sorted Permutation DecimalString.

Local Set Warnings "-register-all".

(** ** Values

    Numbers are integers: the values the code inspects are HTTP status codes.
    An object is its list of own properties in creation order, the order
    [JSON.parse] gives them. *)
Inductive jsval :=
| JUndefined
| JNull
| JBool (b : bool)
| JNum (n : Z)
| JStr (s : string)
| JArr (l : list jsval)
| JObj (props : list (string * jsval)).

(** ** Access and conversions *)

(** Truthiness, as [if (v)], [v && ...] and [! v] test it. *)
Definition truthy (v : jsval) : bool :=
  match v with
  | JUndefined | JNull => false
  | JBool b => b
  | JNum n => negb (Z.eqb n 0)
  | JStr s => negb (String.eqb s "")
  | JArr _ | JObj _ => true
  end.

(** Property access [v.k].  [None] is the [TypeError] raised when [v] is
    [undefined] or [null].  Primitives and arrays have no own property named
    like the keys the code reads ([errors], [status], [token]), so they give
    [undefined]. *)
Definition get_prop (v : jsval) (k : string) : option jsval :=
  match v with
  | JUndefined | JNull => None
  | JObj ps =>
      Some (match list_find (λ kv, kv.1 = k) ps with
            | Some (_, (_, x)) => x
            | None => JUndefined
            end)
  | _ => Some JUndefined
  end.

(** ** Own-property order

    Keys that are array indices (canonical decimal numerals below
    [2^32 - 1]) come first in ascending numeric order, then the other keys in
    creation order (ECMAScript OrdinaryOwnPropertyKeys). *)

Definition digit_value (c : ascii) : option N :=
  let n := N_of_ascii c in
  if bool_decide (48 <= n <= 57)%N then Some (n - 48)%N else None.

Fixpoint digits_value (s : string) (acc : N) : option N :=
  match s with
  | EmptyString => Some acc
  | String c s' =>
      match digit_value c with
      | Some d => digits_value s' (acc * 10 + d)%N
      | None => None
      end
  end.

(** [array_index k] is the index denoted by the key [k], if any. *)
Definition array_index (k : string) : option N :=
  match k with
  | EmptyString => None
  | String c rest =>
      if bool_decide (c = "0"%char) && negb (String.eqb rest "") then None
      else match digits_value k 0 with
           | Some n => if bool_decide (n < 4294967295)%N then Some n else None
           | None => None
           end
  end.

Definition is_index_key (kv : string * jsval) : bool :=
  bool_decide (is_Some (array_index kv.1)).

Definition index_of_key (kv : string * jsval) : N :=
  default 0%N (array_index kv.1).

(** Insertion into a list sorted by index. *)
Fixpoint insert_by_index (kv : string * jsval) (l : list (string * jsval)) :=
  match l with
  | [] => [kv]
  | kv' :: l' =>
      if bool_decide (index_of_key kv <= index_of_key kv')%N then kv :: l
      else kv' :: insert_by_index kv l'
  end.

Definition sort_by_index (l : list (string * jsval)) : list (string * jsval) :=
  foldr insert_by_index [] l.

(** The own properties of an object in ECMAScript order. *)
Definition own_property_order (ps : list (string * jsval)) :=
  sort_by_index (List.filter is_index_key ps) ++
  List.filter (λ kv, negb (is_index_key kv)) ps.

(** [Object.values(v)]; [None] is the [TypeError] of [undefined]/[null]. *)
Definition object_values (v : jsval) : option (list jsval) :=
  match v with
  | JUndefined | JNull => None
  | JObj ps => Some (snd <$> own_property_order ps)
  | JArr l => Some l
  | JStr s => Some ((λ c, JStr (String c EmptyString)) <$> list_ascii_of_string s)
  | JBool _ | JNum _ => Some []
  end.

(** [Array.prototype.flat()] with its default depth one. *)
Definition flat (l : list jsval) : list jsval :=
  l ≫= (λ v, match v with JArr xs => xs | _ => [v] end).

(** [Object.values(data.errors).flat()], the error list written into the
    caller's state on a 422 response; [None] is a [TypeError]. *)
Definition validation_errors (data : jsval) : option (list jsval) :=
  errs ← get_prop data "errors";
  vs ← object_values errs;
  Some (flat vs).

(** [String(v)], as [btoa] converts its argument (ECMAScript ToString;
    array elements that are [undefined] or [null] print as empty). *)
Fixpoint js_to_string (v : jsval) : string :=
  match v with
  | JUndefined => "undefined"
  | JNull => "null"
  | JBool b => if b then "true" else "false"
  | JNum n => NilEmpty.string_of_int (Z.to_int n)
  | JStr s => s
  | JArr l =>
      String.concat ","
        (map (λ x, match x with JUndefined | JNull => "" | _ => js_to_string x end) l)
  | JObj _ => "[object Object]"
  end.

(** [{ ...base, ...src }] for an object [src]: each own property of [src],
    in order, overwrites the same key in place or is appended. *)
Definition set_prop (ps : list (string * jsval)) (kv : string * jsval) :=
  match list_find (λ p, p.1 = kv.1) ps with
  | Some (i, _) => <[i := kv]> ps
  | None => ps ++ [kv]
  end.

Definition object_spread (base : list (string * jsval)) (src : jsval) : jsval :=
  match src with
  | JObj ps => JObj (foldl set_prop base (own_property_order ps))
  | _ => JObj base
  end.

(** A Laravel validation bag: every field is a non-index key whose value is a
    list of messages. *)
Definition laravel_bag (ps : list (string * jsval)) : Prop :=
  Forall (λ kv, array_index kv.1 = None) ps.

(** ** Induction and equality

    Values nest in arrays and objects, so their induction principle carries
    the hypothesis for every element. *)
Fixpoint jsval_nested_ind (P : jsval -> Prop)
    (Hu : P JUndefined) (Hn : P JNull) (Hb : forall b, P (JBool b))
    (Hz : forall n, P (JNum n)) (Hs : forall s, P (JStr s))
    (Ha : forall l, Forall P l -> P (JArr l))
    (Ho : forall ps, Forall (λ kv, P kv.2) ps -> P (JObj ps)) (v : jsval) : P v :=
  let IH := jsval_nested_ind P Hu Hn Hb Hz Hs Ha Ho in
  match v with
  | JUndefined => Hu
  | JNull => Hn
  | JBool b => Hb b
  | JNum n => Hz n
  | JStr s => Hs s
  | JArr l =>
      Ha l ((fix go l : Forall P l :=
               match l with
               | [] => @List.Forall_nil _ P
               | x :: l' => @List.Forall_cons _ P x l' (IH x) (go l')
               end) l)
  | JObj ps =>
      Ho ps ((fix go ps : Forall (λ kv, P kv.2) ps :=
                match ps with
                | [] => @List.Forall_nil _ (λ kv, P kv.2)
                | kv :: ps' => @List.Forall_cons _ (λ kv, P kv.2) kv ps' (IH kv.2) (go ps')
                end) ps)
  end.

(** Strict equality [===] on values that are compared structurally (the
    code compares strings and [null]). *)
Fixpoint jsval_eqb (x y : jsval) : bool :=
  match x, y with
  | JUndefined, JUndefined | JNull, JNull => true
  | JBool a, JBool b => Bool.eqb a b
  | JNum a, JNum b => Z.eqb a b
  | JStr a, JStr b => String.eqb a b
  | JArr l1, JArr l2 =>
      (fix go l1 l2 :=
         match l1, l2 with
         | [], [] => true
         | a :: l1', b :: l2' => jsval_eqb a b && go l1' l2'
         | _, _ => false
         end) l1 l2
  | JObj p1, JObj p2 =>
      (fix go p1 p2 :=
         match p1, p2 with
         | [], [] => true
         | (k1, a) :: p1', (k2, b) :: p2' => String.eqb k1 k2 && jsval_eqb a b && go p1' p2'
         | _, _ => false
         end) p1 p2
  | _, _ => false
  end.

Lemma jsval_eqb_spec x y : jsval_eqb x y = true <-> x = y.
Proof.
  revert y. induction x as [| | b | n | s | l IH | ps IH] using jsval_nested_ind;
    intros [| | b' | n' | s' | l' | ps']; simpl; try (split; congruence).
  - rewrite Bool.eqb_true_iff. naive_solver.
  - rewrite Z.eqb_eq. naive_solver.
  - rewrite String.eqb_eq. naive_solver.
  - revert l'. induction IH as [|x l Hx _ IHl]; intros [|y l']; try (split; congruence).
    rewrite andb_true_iff, Hx, IHl. naive_solver.
  - revert ps'. induction IH as [|[k x] ps Hx _ IHps]; intros [|[k' y] ps'];
      try (split; congruence).
    rewrite !andb_true_iff, String.eqb_eq, Hx, IHps. naive_solver.
Qed.

#[export] Instance jsval_eq_dec : EqDecision jsval.
Proof.
  intros x y. destruct (jsval_eqb x y) eqn:E.
  - left. by apply jsval_eqb_spec.
  - right. intros Heq%jsval_eqb_spec. congruence.
Defined.

(** ** Lemmas *)

Lemma insert_by_index_perm kv l : insert_by_index kv l ≡ₚ kv :: l.
Proof.
  induction l as [|kv' l IH]; simpl; [done|].
  case_bool_decide; [done|]. rewrite IH. apply Permutation_swap.
Qed.

Lemma sort_by_index_perm l : sort_by_index l ≡ₚ l.
Proof.
  induction l as [|kv l IH]; simpl; [done|].
  rewrite insert_by_index_perm, IH. done.
Qed.

Lemma insert_by_index_sorted kv l :
  Sorted (λ a b, index_of_key a <= index_of_key b)%N l ->
  Sorted (λ a b, index_of_key a <= index_of_key b)%N (insert_by_index kv l).
Proof.
  induction 1 as [|kv' l Hs IH Hhd]; simpl; [repeat constructor|].
  case_bool_decide; [by repeat constructor|].
  constructor; [done|]. destruct l as [|kv'' l]; simpl in *.
  - constructor. lia.
  - case_bool_decide; constructor; [lia|]. inversion Hhd; done.
Qed.

Lemma sort_by_index_sorted l :
  Sorted (λ a b, index_of_key a <= index_of_key b)%N (sort_by_index l).
Proof. induction l; simpl; [constructor|]. by apply insert_by_index_sorted. Qed.

Lemma filter_index_key_bag ps : laravel_bag ps -> List.filter is_index_key ps = [].
Proof.
  induction 1 as [|kv ps Hkv _ IH]; simpl; [done|].
  unfold is_index_key at 1. rewrite Hkv. done.
Qed.

Lemma filter_non_index_key_bag ps :
  laravel_bag ps -> List.filter (λ kv, negb (is_index_key kv)) ps = ps.
Proof.
  induction 1 as [|kv ps Hkv _ IH]; simpl; [done|].
  unfold is_index_key at 1. rewrite Hkv. simpl. by rewrite IH.
Qed.

(** A bag has no integer-like field names, so [Object.values] keeps its
    order. *)
Lemma own_property_order_bag ps : laravel_bag ps -> own_property_order ps = ps.
Proof.
  intros Hbag. unfold own_property_order.
  by rewrite filter_index_key_bag, filter_non_index_key_bag.
Qed.

(** The error list of a Laravel bag: the messages of each field, field
    after field in the order the backend sent them. *)
Lemma validation_errors_bag (data : jsval) (bag : list (string * jsval)) :
  laravel_bag bag -> get_prop data "errors" = Some (JObj bag) ->
  validation_errors data = Some (flat (snd <$> bag)).
Proof.
  intros Hbag Hdata. unfold validation_errors. rewrite Hdata. simpl.
  by rewrite own_property_order_bag.
Qed.

#[export] Hint Resolve sort_by_index_sorted : webauth.
