(* ===== verification/Config.v ===== *)
(** * The configuration constants of [useAuth]

    [src/hooks/auth.ts] lines 21-36 read ten URLs from [process.env] with
    a default each ([process.env.X || '/default']), and choose the page to
    redirect an authenticated visitor to.  Next.js inlines the
    [NEXT_PUBLIC_*] variables at build time; the build environment is a
    finite map from variable names to strings. *)

From S2P Require Import Prelude.
From Stdlib Require Import String.

Module Config.

(** The build environment. *)
Abbreviation env := (gmap string string).

(** [process.env[k] || d]: an unset or empty variable gives the default. *)
Definition env_or (e : env) (k d : string) : string :=
  match e !! k with
  | Some v => if bool_decide (v = "") then d else v
  | None => d
  end.

(** [declare type AuthMiddleware = 'auth' | 'guest'] (line 7). *)
Inductive middleware := MwAuth | MwGuest.

#[export] Instance middleware_eq_dec : EqDecision middleware.
Proof. solve_decision. Defined.

(** The constants the hook returns (lines 21-31 and 156-165). *)
Record auth_urls := {
  loginUrl : string;
  verifyEmailUrl : string;
  redirectedUrl : string;
  apiPathUser : string;
  apiPathLogin : string;
  apiPathRegister : string;
  apiPathForgotPassword : string;
  apiPathResetPassword : string;
  apiPathVerifyEmail : string;
  apiPathLogout : string
}.

(** Lines 21-31, each variable as the source names it. *)
Definition use_auth_urls (e : env) : auth_urls := {|
  loginUrl := env_or e "NEXT_PUBLIC_AUTH_PAGE_LOGIN" "/example/login";
  verifyEmailUrl := env_or e "NEXT_PUBLIC_AUTH_LOGIN" "/example/verify-email";
  redirectedUrl := env_or e "NEXT_PUBLIC_AUTH_REDIRECTED" "/example";
  apiPathUser := env_or e "NEXT_PUBLIC_API_PATH_USER" "/api/user";
  apiPathLogin := env_or e "NEXT_PUBLIC_API_PATH_LOGIN" "/login";
  apiPathRegister := env_or e "NEXT_PUBLIC_API_PATH_REGISTER" "/register";
  apiPathForgotPassword :=
    env_or e "NEXT_PUBLIC_API_PATH_FORGOT_PASSWORD" "/forgot-password";
  apiPathResetPassword :=
    env_or e "NEXT_PUBLIC_API_PATH_RESET_PASSWORD" "/reset-password";
  apiPathVerifyEmail :=
    env_or e "NEXT_PUBLIC_API_PATH_VERIFY_EMAIL" "/email/verification-notification";
  apiPathLogout := env_or e "NEXT_PUBLIC_API_PATH_LOGIN" "/logout"
|}.

(** [config] of [useAuth] (lines 9-12 and 35). *)
Record use_auth_config := {
  cfg_middleware : middleware;
  cfg_redirectIfAuthenticated : option string
}.

(** Line 36: [redirectIfAuthenticated || redirectedUrl]. *)
Definition redirect_if_authenticated_url (u : auth_urls) (c : use_auth_config) : string :=
  match c.(cfg_redirectIfAuthenticated) with
  | Some r => if bool_decide (r = "") then u.(redirectedUrl) else r
  | None => u.(redirectedUrl)
  end.

(** ** Lemmas *)

Lemma env_or_set (e : env) k d v :
  e !! k = Some v -> v <> "" -> env_or e k d = v.
Proof. intros Hk Hv. unfold env_or. rewrite Hk. by case_bool_decide. Qed.

Lemma env_or_unset (e : env) k d : e !! k = None -> env_or e k d = d.
Proof. intros Hk. unfold env_or. by rewrite Hk. Qed.

Lemma env_or_insert_ne (e : env) k k' v d :
  k <> k' -> env_or (<[k' := v]> e) k d = env_or e k d.
Proof. intros Hne. unfold env_or. by rewrite lookup_insert_ne. Qed.

(** C6: the logout endpoint is read from [NEXT_PUBLIC_API_PATH_LOGIN]
    (line 31): once that variable is set, the hook posts its logout to the
    login path, whatever [NEXT_PUBLIC_API_PATH_LOGOUT] says. *)
Theorem logout_path_reads_login_variable (e : env) (p q : string) :
  p <> "" ->
  let u := use_auth_urls (<["NEXT_PUBLIC_API_PATH_LOGOUT" := q]>
                            (<["NEXT_PUBLIC_API_PATH_LOGIN" := p]> e)) in
  u.(apiPathLogout) = p /\ u.(apiPathLogin) = p.
Proof.
  intros Hp. simpl. split; apply env_or_set; try done; by simplify_map_eq.
Qed.

Lemma logout_path_reads_login_variable_witness :
  (use_auth_urls (<["NEXT_PUBLIC_API_PATH_LOGOUT" := "/api/logout"]>
                    (<["NEXT_PUBLIC_API_PATH_LOGIN" := "/api/login"]> ∅))).(apiPathLogout) =
  "/api/login".
Proof.
  pose proof (logout_path_reads_login_variable ∅ "/api/login" "/api/logout" ltac:(discriminate))
    as Hc.
  cbv zeta in Hc. apply Hc.
Defined.

End Config.

#[export] Hint Resolve Config.env_or_set Config.env_or_unset : webauth.
