(* ===== verification/UriCodec.v ===== *)
(** * URI component encoding and query strings

    [logout] (src/hooks/auth.ts lines 130-137) builds its [next_to]
    parameter with [querystring.stringify] and [encodeURIComponent].  The
    router then gives the login page its query with [next_to] decoded.  This
    file models these library functions from their standards:
    - [encodeURIComponent] and [decodeURIComponent] (ECMA-262 Encode and
      Decode, UTF-8 with the unreserved set of [encodeURIComponent]);
    - [querystring.stringify] of the [querystring-es3] package that Next.js
      bundles for the browser;
    - the [application/x-www-form-urlencoded] parser of [URLSearchParams]
      that the Next.js router applies to the search part of a URL.

    Strings are 8-bit code units (see [Prelude]): a code unit [c] is the code
    point [c], so UTF-8 gives one octet below 128 and two octets from 128 to
    255.  Decoding that meets a valid UTF-8 sequence for a code point above
    U+00FF returns [None], as malformed input does: such a code point has no
    8-bit string. *)

From S2P Require Import Prelude JsValue.
From Stdlib Require Import ZArith String Ascii DecimalString.

Module UriCodec.

Local Open Scope Z_scope.

(** ** Octets *)

Definition code (c : ascii) : Z := Z.of_N (N_of_ascii c).
Definition of_code (n : Z) : ascii := ascii_of_N (Z.to_N n).

(** The unreserved code units of [encodeURIComponent]. *)
Definition is_unreserved (c : ascii) : bool :=
  let n := code c in
  bool_decide (65 <= n <= 90) || bool_decide (97 <= n <= 122) ||
  bool_decide (48 <= n <= 57) || char_in c "-_.!~*'()".

(** Upper-case hexadecimal digit of [0 <= d < 16]. *)
Definition hex_digit (d : Z) : ascii :=
  of_code (if bool_decide (d < 10) then 48 + d else 55 + d).

Definition hex_value (c : ascii) : option Z :=
  let n := code c in
  if bool_decide (48 <= n <= 57) then Some (n - 48)
  else if bool_decide (65 <= n <= 70) then Some (n - 55)
  else if bool_decide (97 <= n <= 102) then Some (n - 87)
  else None.

(** ["%XY"] for the octet [b]. *)
Definition percent (b : Z) : string :=
  String "%" (String (hex_digit (b / 16)) (String (hex_digit (b mod 16)) "")).

(** The UTF-8 octets of the code point of an 8-bit code unit. *)
Definition utf8_octets (c : ascii) : list Z :=
  let n := code c in
  if bool_decide (n < 128) then [n] else [192 + n / 64; 128 + n mod 64].

(** ** encodeURIComponent *)

Fixpoint encodeURIComponent (s : string) : string :=
  match s with
  | EmptyString => ""
  | String c s' =>
      (if is_unreserved c then String c ""
       else foldr (λ b acc, percent b +:+ acc) "" (utf8_octets c))
      +:+ encodeURIComponent s'
  end.

(** ** decodeURIComponent

    First the escapes: a literal code unit or an octet ["%XY"]; a ['%']
    not followed by two hexadecimal digits is a [URIError]. *)
Inductive unit_tok := Lit (c : ascii) | Octet (b : Z).

Fixpoint tokenize (s : string) : option (list unit_tok) :=
  match s with
  | EmptyString => Some []
  | String c rest =>
      if bool_decide (c = "%"%char) then
        match rest with
        | String h1 (String h2 rest') =>
            match hex_value h1, hex_value h2 with
            | Some a, Some b => (λ l, Octet (a * 16 + b) :: l) <$> tokenize rest'
            | _, _ => None
            end
        | _ => None
        end
      else (λ l, Lit c :: l) <$> tokenize rest
  end.

(** Then UTF-8: an octet below 128 is a code unit; a lead octet [C2] or
    [C3] and a continuation octet give a code point up to U+00FF. *)
Fixpoint decode_tokens (l : list unit_tok) : option string :=
  match l with
  | [] => Some ""
  | Lit c :: r => String c <$> decode_tokens r
  | Octet b :: r =>
      if bool_decide (b < 128) then String (of_code b) <$> decode_tokens r
      else match r with
           | Octet b2 :: r' =>
               if bool_decide (194 <= b <= 195) && bool_decide (128 <= b2 <= 191)
               then String (of_code ((b - 192) * 64 + (b2 - 128))) <$> decode_tokens r'
               else None
           | _ => None
           end
  end.

Definition decodeURIComponent (s : string) : option string :=
  tokenize s ≫= decode_tokens.

(** ** Helpers of the proofs *)

(** The escapes of a code unit. *)
Definition encode_unit (c : ascii) : string :=
  if is_unreserved c then String c ""
  else foldr (λ b acc, percent b +:+ acc) "" (utf8_octets c).

Definition unit_tokens (c : ascii) : list unit_tok :=
  if is_unreserved c then [Lit c] else Octet <$> utf8_octets c.

(** Every code unit of an encoded string is unreserved or ['%']. *)
Definition uri_safe (c : ascii) : bool := is_unreserved c || bool_decide (c = "%"%char).

Fixpoint all_chars (P : ascii -> bool) (s : string) : bool :=
  match s with
  | EmptyString => true
  | String c s' => P c && all_chars P s'
  end.

(** ** querystring.stringify (querystring-es3) *)

Definition Z_to_decimal (n : Z) : string := NilEmpty.string_of_int (Z.to_int n).

(** [stringifyPrimitive]. *)
Definition stringify_primitive (v : jsval) : string :=
  match v with
  | JStr s => s
  | JBool b => if b then "true" else "false"
  | JNum n => Z_to_decimal n
  | _ => ""
  end.

(** One key: [ks + encodeURIComponent(v)], once per element of an array. *)
Definition qs_pair (kv : string * jsval) : string :=
  let ks := encodeURIComponent kv.1 +:+ "=" in
  match kv.2 with
  | JArr vs => String.concat "&" ((λ x, ks +:+ encodeURIComponent (stringify_primitive x)) <$> vs)
  | v => ks +:+ encodeURIComponent (stringify_primitive v)
  end.

(** [stringify(obj)] with no [sep], [eq] or [name]: an object gives its keys
    in [Object.keys] order; anything else gives [""]. *)
Definition qs_stringify (obj : jsval) : string :=
  match obj with
  | JObj ps => String.concat "&" (qs_pair <$> own_property_order ps)
  | _ => ""
  end.

(** ** The router's query: URLSearchParams and searchParamsToUrlQuery *)

(** [break_at c s]: the part of [s] before the first [c], and the part after
    it when [c] occurs. *)
Fixpoint break_at (c : ascii) (s : string) : string * option string :=
  match s with
  | EmptyString => ("", None)
  | String d s' =>
      if bool_decide (d = c) then ("", Some s')
      else let '(a, b) := break_at c s' in (String d a, b)
  end.

Fixpoint split_on (c : ascii) (s : string) : list string :=
  match s with
  | EmptyString => [""]
  | String d s' =>
      if bool_decide (d = c) then "" :: split_on c s'
      else match split_on c s' with
           | x :: xs => String d x :: xs
           | [] => [String d ""]
           end
  end.

Fixpoint plus_to_space (s : string) : string :=
  match s with
  | EmptyString => ""
  | String d s' =>
      String (if bool_decide (d = "+"%char) then " "%char else d) (plus_to_space s')
  end.

(** Percent-decoding of the URL standard: a ['%'] not followed by two
    hexadecimal digits stays a literal. *)
Fixpoint tokenize_lenient (s : string) : list unit_tok :=
  match s with
  | EmptyString => []
  | String c rest =>
      match bool_decide (c = "%"%char), rest with
      | true, String h1 (String h2 rest') =>
          match hex_value h1, hex_value h2 with
          | Some a, Some b => Octet (a * 16 + b) :: tokenize_lenient rest'
          | _, _ => Lit c :: tokenize_lenient rest
          end
      | _, _ => Lit c :: tokenize_lenient rest
      end
  end.

(** [+] to space, percent-decode, UTF-8 decode. *)
Definition form_decode (s : string) : option string :=
  decode_tokens (tokenize_lenient (plus_to_space s)).

(** The name and value of one [&]-separated sequence. *)
Definition form_pair (seq : string) : option (string * string) :=
  let '(n, v) := break_at "=" seq in
  k ← form_decode n; x ← form_decode (default "" v); Some (k, x).

(** The [application/x-www-form-urlencoded] parser: empty sequences are
    skipped. *)
Definition form_parse (q : string) : option (list (string * string)) :=
  mapM form_pair (List.filter (λ x, negb (String.eqb x "")) (split_on "&" q)).

(** [searchParamsToUrlQuery]: a repeated key collects its values in an
    array. *)
Definition add_query_param (q : list (string * jsval)) (kv : string * string) :=
  match list_find (λ p, p.1 = kv.1) q with
  | None => q ++ [(kv.1, JStr kv.2)]
  | Some (i, (k, JArr xs)) => <[i := (k, JArr (xs ++ [JStr kv.2]))]> q
  | Some (i, (k, x)) => <[i := (k, JArr [x; JStr kv.2])]> q
  end.

Definition url_query_of (params : list (string * string)) : jsval :=
  JObj (foldl add_query_param [] params).

(** The search part of a URL: after the first ['?'] and before the
    fragment. *)
Definition search_of_url (u : string) : string :=
  default "" (break_at "?" (break_at "#" u).1).2.

(** [router.query] of the page the router opens at [u]. *)
Definition router_query (u : string) : option jsval :=
  url_query_of <$> form_parse (search_of_url u).

(** ** Lemmas on octets *)

Lemma code_range c : 0 <= code c < 256.
Proof. unfold code. pose proof (N_ascii_bounded c). lia. Qed.

Lemma of_code_code c : of_code (code c) = c.
Proof. unfold of_code, code. rewrite N2Z.id. apply ascii_N_embedding. Qed.

Lemma code_of_code n : 0 <= n < 256 -> code (of_code n) = n.
Proof.
  intros H. unfold of_code, code. rewrite N_ascii_embedding; [lia|].
  apply N2Z.inj_lt. rewrite Z2N.id; lia.
Qed.

Lemma hex_value_digit d : 0 <= d < 16 -> hex_value (hex_digit d) = Some d.
Proof.
  intros H. unfold hex_value, hex_digit.
  destruct (decide (d < 10)).
  - rewrite (bool_decide_eq_true_2 (d < 10)), code_of_code by lia.
    repeat case_bool_decide; f_equal; lia.
  - rewrite (bool_decide_eq_false_2 (d < 10)), code_of_code by lia.
    repeat case_bool_decide; f_equal; lia.
Qed.

Lemma percent_not_unreserved : is_unreserved "%" = false.
Proof. reflexivity. Qed.

Lemma tokenize_percent b rest :
  0 <= b < 256 ->
  tokenize (percent b +:+ rest) = (λ l, Octet b :: l) <$> tokenize rest.
Proof.
  intros Hb. unfold percent. simpl.
  rewrite !hex_value_digit by zdivmod.
  do 3 f_equal. zdivmod.
Qed.

Lemma tokenize_lit c rest :
  c <> "%"%char -> tokenize (String c rest) = (λ l, Lit c :: l) <$> tokenize rest.
Proof. intros Hc. simpl. by rewrite bool_decide_eq_false_2. Qed.

Lemma encodeURIComponent_cons c s :
  encodeURIComponent (String c s) = encode_unit c +:+ encodeURIComponent s.
Proof. reflexivity. Qed.

Lemma utf8_octets_range c : Forall (λ b, 0 <= b < 256) (utf8_octets c).
Proof.
  pose proof (code_range c). unfold utf8_octets.
  case_bool_decide; repeat constructor; zdivmod.
Qed.

Lemma tokenize_percents bs rest :
  Forall (λ b, 0 <= b < 256) bs ->
  tokenize (foldr (λ b acc, percent b +:+ acc) "" bs +:+ rest) =
  (λ l, (Octet <$> bs) ++ l) <$> tokenize rest.
Proof.
  induction 1 as [|b bs Hb _ IH]; cbn [foldr fmap list_fmap].
  - simpl. by destruct (tokenize rest).
  - rewrite <- append_assoc, tokenize_percent, IH by done.
    by destruct (tokenize rest).
Qed.

Lemma tokenize_encode_unit c rest :
  tokenize (encode_unit c +:+ rest) = (λ l, unit_tokens c ++ l) <$> tokenize rest.
Proof.
  unfold encode_unit, unit_tokens. destruct (is_unreserved c) eqn:Hu.
  - change (String c "" +:+ rest) with (String c rest).
    rewrite tokenize_lit; [by destruct (tokenize rest)|].
    intros ->. by rewrite percent_not_unreserved in Hu.
  - apply tokenize_percents, utf8_octets_range.
Qed.

Lemma decode_unit_tokens c l :
  decode_tokens (unit_tokens c ++ l) = String c <$> decode_tokens l.
Proof.
  pose proof (code_range c) as Hc.
  unfold unit_tokens, utf8_octets. destruct (is_unreserved c); [done|].
  case_bool_decide; simpl.
  - rewrite bool_decide_eq_true_2 by done. by rewrite of_code_code.
  - rewrite bool_decide_eq_false_2 by zdivmod.
    rewrite !bool_decide_eq_true_2 by zdivmod. simpl.
    replace ((192 + code c / 64 - 192) * 64 + (128 + code c `mod` 64 - 128))
      with (code c) by zdivmod.
    by rewrite of_code_code.
Qed.

(** ** Round trip of encodeURIComponent *)

(** decodeURIComponent inverts encodeURIComponent on every string. *)
Lemma decode_encode_uri_component (s : string) :
  decodeURIComponent (encodeURIComponent s) = Some s.
Proof.
  unfold decodeURIComponent. induction s as [|c s IH]; [done|].
  rewrite encodeURIComponent_cons, tokenize_encode_unit.
  destruct (tokenize (encodeURIComponent s)) as [l|]; simpl in *; [|done].
  by rewrite decode_unit_tokens, IH.
Qed.

(** ** What the encoded form contains *)

Lemma all_chars_app P s t : all_chars P (s +:+ t) = all_chars P s && all_chars P t.
Proof. induction s; simpl; [done|]. by rewrite IHs, andb_assoc. Qed.

Lemma hex_digit_unreserved d : 0 <= d < 16 -> is_unreserved (hex_digit d) = true.
Proof. revert d. apply (forall_range (λ d, is_unreserved (hex_digit d) = true) 0 16). by vm_compute. Qed.

Lemma encode_uri_safe s : all_chars uri_safe (encodeURIComponent s) = true.
Proof.
  induction s as [|c s IH]; [done|]. rewrite encodeURIComponent_cons.
  fold (encode_unit c). rewrite all_chars_app, IH, andb_true_r.
  unfold encode_unit. destruct (is_unreserved c) eqn:Hu.
  { cbn [all_chars]. unfold uri_safe. by rewrite Hu. }
  pose proof (utf8_octets_range c) as Hr. induction Hr as [|b bs Hb _ IHr]; [done|].
  cbn [foldr]. rewrite all_chars_app, IHr, andb_true_r. unfold percent. simpl.
  unfold uri_safe. rewrite !hex_digit_unreserved by zdivmod. done.
Qed.

(** A code unit [c] with [uri_safe c = false] never occurs in an encoded
    string. *)
Lemma all_chars_not_in P c s : P c = false -> all_chars P s = true -> char_in c s = false.
Proof.
  intros Hc. induction s as [|d s IH]; simpl; [done|].
  intros [Hd Hs]%andb_true_iff. rewrite IH by done.
  case_bool_decide; subst; [congruence|done].
Qed.

Lemma encode_no_char c s : uri_safe c = false -> char_in c (encodeURIComponent s) = false.
Proof. intros Hc. eapply all_chars_not_in; [exact Hc|apply encode_uri_safe]. Qed.

(** ** Parsing strings without the separators *)

Lemma char_in_app c s t : char_in c (s +:+ t) = char_in c s || char_in c t.
Proof. induction s; simpl; [done|]. by rewrite IHs, orb_assoc. Qed.

Lemma break_at_absent c s : char_in c s = false -> break_at c s = (s, None).
Proof.
  induction s as [|d s IH]; simpl; [done|].
  intros [Hd Hs]%orb_false_iff. rewrite bool_decide_eq_false_2 by (intros ->;
    by rewrite bool_decide_eq_true_2 in Hd). by rewrite IH.
Qed.

Lemma break_at_app c s t :
  char_in c s = false -> break_at c (s +:+ String c t) = (s, Some t).
Proof.
  induction s as [|d s IH]; simpl.
  - by rewrite bool_decide_eq_true_2.
  - intros [Hd Hs]%orb_false_iff. rewrite bool_decide_eq_false_2 by (intros ->;
      by rewrite bool_decide_eq_true_2 in Hd). by rewrite IH.
Qed.

Lemma split_on_absent c s : char_in c s = false -> split_on c s = [s].
Proof.
  induction s as [|d s IH]; simpl; [done|].
  intros [Hd Hs]%orb_false_iff. rewrite bool_decide_eq_false_2 by (intros ->;
    by rewrite bool_decide_eq_true_2 in Hd). by rewrite IH.
Qed.

Lemma plus_to_space_absent s : char_in "+" s = false -> plus_to_space s = s.
Proof.
  induction s as [|d s IH]; simpl; [done|].
  intros [Hd Hs]%orb_false_iff. rewrite IH by done.
  rewrite bool_decide_eq_false_2; [done|]. intros ->. by rewrite bool_decide_eq_true_2 in Hd.
Qed.

(** Strict and lenient percent-decoding agree where the strict one
    succeeds. *)
Lemma tokenize_lenient_strict s l : tokenize s = Some l -> tokenize_lenient s = l.
Proof.
  revert l. induction s as [s IH] using (induction_ltof1 _ String.length).
  unfold ltof in IH. intros l. destruct s as [|c s]; simpl; [congruence|].
  case_bool_decide as Hc.
  - destruct s as [|h1 [|h2 s']]; try done.
    destruct (hex_value h1), (hex_value h2); try done.
    destruct (tokenize s') eqn:E; simpl; intros; simplify_eq.
    f_equal. apply IH; [simpl; lia|done].
  - destruct (tokenize s) eqn:E; simpl; intros; simplify_eq.
    f_equal. apply IH; [simpl; lia|done].
Qed.

(** The form decoding of an encoded component is its decoding. *)
Lemma form_decode_encoded s : form_decode (encodeURIComponent s) = Some s.
Proof.
  unfold form_decode. rewrite plus_to_space_absent by (apply encode_no_char; done).
  pose proof (decode_encode_uri_component s) as H. unfold decodeURIComponent in H.
  destruct (tokenize (encodeURIComponent s)) eqn:E; [|done].
  by rewrite (tokenize_lenient_strict _ _ E).
Qed.

(** A search part with one [name=value] pair. *)
Lemma form_parse_one k v :
  char_in "&" k = false -> char_in "&" v = false -> char_in "=" k = false ->
  form_parse (k +:+ String "=" v) =
  (x ← form_decode k; y ← form_decode v; Some [(x, y)]).
Proof.
  intros Hk Hv He. unfold form_parse.
  rewrite split_on_absent by (rewrite char_in_app; simpl; by rewrite Hk, Hv).
  cbn [List.filter].
  assert (String.eqb (k +:+ String "=" v) "" = false) as ->.
  { apply String.eqb_neq. intros H. apply (f_equal String.length) in H.
    rewrite length_append in H. simpl in H. lia. }
  cbn [negb mapM]. unfold form_pair. rewrite break_at_app by done.
  simpl. destruct (form_decode k), (form_decode v); done.
Qed.

Lemma char_in_plus_to_space c s :
  c <> " "%char -> char_in c s = false -> char_in c (plus_to_space s) = false.
Proof.
  intros Hc. induction s as [|d s IH]; simpl; [done|].
  intros [Hd Hs]%orb_false_iff. rewrite IH by done. rewrite orb_false_r.
  destruct (bool_decide (d = "+"%char)); [by apply bool_decide_eq_false_2|exact Hd].
Qed.

Lemma decode_lenient_plain t : char_in "%" t = false -> decode_tokens (tokenize_lenient t) = Some t.
Proof.
  induction t as [|c t IH]; [done|]. simpl.
  intros [Hc Ht]%orb_false_iff.
  assert (c <> "%"%char) as Hne by (intros ->; by rewrite bool_decide_eq_true_2 in Hc).
  rewrite bool_decide_eq_false_2 by done. simpl. by rewrite IH.
Qed.

(** A value with no ['%'] decodes to itself with every ['+'] read as a
    space. *)
Lemma form_decode_no_pct s : char_in "%" s = false -> form_decode s = Some (plus_to_space s).
Proof.
  intros Hp. unfold form_decode. apply decode_lenient_plain.
  by apply char_in_plus_to_space.
Qed.

(** A value with no ['%'] and no ['+'] decodes to itself. *)
Lemma form_decode_plain s :
  char_in "%" s = false -> char_in "+" s = false -> form_decode s = Some s.
Proof. intros Hp Hplus. rewrite form_decode_no_pct by done. by rewrite plus_to_space_absent. Qed.

End UriCodec.
