(* ===== verification/Base64.v ===== *)
(** * btoa and atob

    [resetPassword] (src/hooks/auth.ts line 107) sends the reset status to
    the login page as [btoa(response.data.status)]; the login page
    (src/pages/example/login.tsx line 32) reads it back with [atob].  This
    file models both from the HTML standard: [btoa] is the base64 encoding of
    RFC 4648 with padding, [atob] is the forgiving-base64 decode.  Strings are
    8-bit code units (see [Prelude]), so [btoa] never raises its
    [InvalidCharacterError]; the failure of [atob] is [None].

    The lemmas: [atob_btoa] is the round trip.  [atob_length] bounds what
    [atob] returns by three bytes for every four data characters, and
    [atob_plus_to_space_btoa] follows: when the base64 text has a ['+'] and
    the ['+'] is read as a space, [atob] never gives the text back. *)

From S2P Require Import Prelude UriCodec.
From Stdlib Require Import ZArith String Ascii.

Module Base64.

Import UriCodec.
Local Open Scope Z_scope.

(** ** The alphabet of RFC 4648, table 1 *)

Definition b64_char (n : Z) : ascii :=
  of_code (if bool_decide (n < 26) then 65 + n
           else if bool_decide (n < 52) then 71 + n
           else if bool_decide (n < 62) then n - 4
           else if bool_decide (n = 62) then 43 else 47).

Definition b64_value (c : ascii) : option Z :=
  let n := code c in
  if bool_decide (65 <= n <= 90) then Some (n - 65)
  else if bool_decide (97 <= n <= 122) then Some (n - 71)
  else if bool_decide (48 <= n <= 57) then Some (n + 4)
  else if bool_decide (n = 43) then Some 62
  else if bool_decide (n = 47) then Some 63
  else None.

(** Bits [6k .. 6k+5] of [n]. *)
Definition sextet (n : Z) (k : Z) : Z := Z.land (Z.shiftr n (6 * k)) 63.

(** ** btoa *)

Fixpoint encode_bytes (l : list Z) : list ascii :=
  match l with
  | a :: b :: c :: rest =>
      let n := a * 65536 + b * 256 + c in
      b64_char (sextet n 3) :: b64_char (sextet n 2) :: b64_char (sextet n 1)
        :: b64_char (sextet n 0) :: encode_bytes rest
  | [a; b] =>
      let n := a * 65536 + b * 256 in
      [b64_char (sextet n 3); b64_char (sextet n 2); b64_char (sextet n 1); "="%char]
  | [a] =>
      let n := a * 65536 in
      [b64_char (sextet n 3); b64_char (sextet n 2); "="%char; "="%char]
  | [] => []
  end.

Definition btoa (s : string) : string :=
  string_of_list_ascii (encode_bytes (code <$> list_ascii_of_string s)).

(** ** atob: forgiving-base64 decode *)

Definition is_ascii_whitespace (c : ascii) : bool :=
  bool_decide (code c ∈ [9; 10; 12; 13; 32]).

(** Step 2: when the length is a multiple of 4, remove one or two final
    ['=']. *)
Definition strip_padding (l : list ascii) : list ascii :=
  if bool_decide (List.length l `mod` 4 = 0)%nat then
    match rev l with
    | c1 :: c2 :: r =>
        if bool_decide (c1 = "="%char /\ c2 = "="%char) then rev r
        else if bool_decide (c1 = "="%char) then rev (c2 :: r) else l
    | [c1] => if bool_decide (c1 = "="%char) then [] else l
    | [] => l
    end
  else l.

(** Steps 5-8: 24 bits per four sextets; a final 18 or 12 bits lose their
    2 or 4 low bits. *)
Fixpoint decode_sextets (l : list Z) : option (list Z) :=
  match l with
  | a :: b :: c :: d :: rest =>
      let n := a * 262144 + b * 4096 + c * 64 + d in
      (λ r, Z.shiftr n 16 :: Z.land (Z.shiftr n 8) 255 :: Z.land n 255 :: r)
        <$> decode_sextets rest
  | [a; b; c] =>
      let n := Z.shiftr (a * 4096 + b * 64 + c) 2 in
      Some [Z.shiftr n 8; Z.land n 255]
  | [a; b] => Some [Z.shiftr (a * 64 + b) 4]
  | [_] => None
  | [] => Some []
  end.

Definition forgiving_base64_decode (s : string) : option (list Z) :=
  let l := strip_padding (List.filter (λ c, negb (is_ascii_whitespace c))
                                      (list_ascii_of_string s)) in
  if bool_decide (List.length l `mod` 4 = 1)%nat then None
  else mapM b64_value l ≫= decode_sextets.

Definition atob (s : string) : option string :=
  (λ bs, string_of_list_ascii (of_code <$> bs)) <$> forgiving_base64_decode s.

(** ** Helpers of the proofs *)

(** The sextets [btoa] emits, before the padding. *)
Fixpoint enc_sextets (l : list Z) : list Z :=
  match l with
  | a :: b :: c :: rest =>
      let n := a * 65536 + b * 256 + c in
      sextet n 3 :: sextet n 2 :: sextet n 1 :: sextet n 0 :: enc_sextets rest
  | [a; b] => let n := a * 65536 + b * 256 in [sextet n 3; sextet n 2; sextet n 1]
  | [a] => let n := a * 65536 in [sextet n 3; sextet n 2]
  | [] => []
  end.

Definition padding (l : list Z) : list ascii :=
  match (List.length l `mod` 3)%nat with
  | 1%nat => ["="%char; "="%char]
  | 2%nat => ["="%char]
  | _ => []
  end.

Definition bytes (l : list Z) : Prop := Forall (λ b, 0 <= b < 256) l.

(** The alphabet and the padding character. *)
Definition b64_output_char (c : ascii) : bool :=
  is_unreserved c && negb (char_in c "-_.!~*'()") || char_in c "+/=".

(** ** Lemmas *)

Lemma sextet_spec n k : 0 <= k -> sextet n k = (n / 2 ^ (6 * k)) mod 64.
Proof.
  intros Hk. unfold sextet. rewrite Z.shiftr_div_pow2 by lia.
  change 63 with (Z.ones 6). rewrite Z.land_ones by lia. done.
Qed.

Lemma b64_value_char n : 0 <= n < 64 -> b64_value (b64_char n) = Some n.
Proof.
  revert n. apply (forall_range (λ n, b64_value (b64_char n) = Some n) 0 64).
  by vm_compute.
Qed.

(** Bit operations as arithmetic. *)
Lemma land_pow2_minus1 x k : 0 <= k -> Z.land x (2 ^ k - 1) = x mod 2 ^ k.
Proof. intros Hk. rewrite <- Z.land_ones by lia. f_equal. by rewrite Z.ones_equiv. Qed.

Lemma land_63 x : Z.land x 63 = x mod 64.
Proof. apply (land_pow2_minus1 x 6). lia. Qed.

Lemma land_255 x : Z.land x 255 = x mod 256.
Proof. apply (land_pow2_minus1 x 8). lia. Qed.

(** Shifts and masks by constants become division and modulo by
    constants. *)
Ltac bits_to_arith :=
  unfold sextet; rewrite ?Z.shiftr_div_pow2 by lia; rewrite ?land_63, ?land_255;
  repeat match goal with
  | |- context [2 ^ ?k] =>
      let v := eval vm_compute in (2 ^ k) in change (2 ^ k) with v
  end.

Lemma mod3_SSS n : (S (S (S n)) `mod` 3 = n `mod` 3)%nat.
Proof. replace (S (S (S n))) with (n + 1 * 3)%nat by lia. apply Nat.Div0.mod_add. Qed.

Lemma mod4_SSSS n : (S (S (S (S n))) `mod` 4 = n `mod` 4)%nat.
Proof. replace (S (S (S (S n)))) with (n + 1 * 4)%nat by lia. apply Nat.Div0.mod_add. Qed.

Lemma encode_bytes_sextets l :
  encode_bytes l = (b64_char <$> enc_sextets l) ++ padding l.
Proof.
  induction l as [|a|a b|a b c l IH] using list_triple_ind; try done.
  cbn [encode_bytes enc_sextets]. rewrite IH. unfold padding.
  cbn [List.length]. by rewrite mod3_SSS.
Qed.

Lemma enc_sextets_range l : bytes l -> Forall (λ n, 0 <= n < 64) (enc_sextets l).
Proof.
  induction l as [|a|a b|a b c l IH] using list_triple_ind; intros Hl;
    inversion_clear Hl; repeat match goal with H : Forall _ (_ :: _) |- _ =>
      inversion_clear H end;
    cbn [enc_sextets]; rewrite ?sextet_spec by lia; repeat constructor; auto;
    zdivmod.
Qed.

Lemma length_enc_sextets l :
  ((List.length (enc_sextets l) + List.length (padding l)) `mod` 4 = 0)%nat /\
  (List.length (enc_sextets l) `mod` 4 <> 1)%nat /\
  (padding l <> [] -> enc_sextets l <> []).
Proof.
  induction l as [|a|a b|a b c l IH] using list_triple_ind;
    try (vm_compute; repeat split; intros; (lia || congruence)).
  unfold padding in *. cbn [enc_sextets List.length Nat.add]. rewrite ?mod3_SSS.
  destruct IH as (H1 & H2 & H3). rewrite !mod4_SSSS. done.
Qed.

Lemma b64_char_not_pad n : 0 <= n < 64 -> b64_char n <> "="%char.
Proof. revert n. apply (forall_range (λ n, b64_char n <> "="%char) 0 64). by vm_compute. Qed.

Lemma b64_char_not_space n : 0 <= n < 64 -> is_ascii_whitespace (b64_char n) = false.
Proof.
  revert n. apply (forall_range (λ n, is_ascii_whitespace (b64_char n) = false) 0 64).
  by vm_compute.
Qed.

Lemma mapM_b64_value sx :
  Forall (λ n, 0 <= n < 64) sx -> mapM b64_value (b64_char <$> sx) = Some sx.
Proof.
  induction 1 as [|n sx Hn _ IH]; [done|]. rewrite fmap_cons. cbn [mapM].
  rewrite b64_value_char by done. simpl. by rewrite IH.
Qed.

Lemma decode_enc_sextets l : bytes l -> decode_sextets (enc_sextets l) = Some l.
Proof.
  induction l as [|a|a b|a b c l IH] using list_triple_ind; intros Hl;
    unfold bytes in *; repeat match goal with H : Forall _ (_ :: _) |- _ =>
      inversion_clear H end; try done;
    cbn [enc_sextets decode_sextets]; [| | rewrite IH by done];
    bits_to_arith; simpl; repeat f_equal; zdivmod.
Qed.

Lemma strip_padding_app cs pad :
  Forall (λ c, c <> "="%char) cs -> pad ∈ [[]; ["="%char]; ["="%char; "="%char]] ->
  (pad <> [] -> cs <> []) -> ((List.length cs + List.length pad) `mod` 4 = 0)%nat ->
  strip_padding (cs ++ pad) = cs.
Proof.
  intros Hcs Hpad Hne Hlen. unfold strip_padding.
  rewrite length_app, bool_decide_eq_true_2 by done. rewrite rev_app_distr.
  apply Forall_rev in Hcs. apply list_elem_of_In in Hpad. simpl in Hpad.
  destruct Hpad as [<-|[<-|[<-|[]]]]; simpl; rewrite ?app_nil_r.
  - destruct (rev cs) as [|c1 [|c2 r]] eqn:E; [done| |];
      apply Forall_cons_1 in Hcs as [Hc1 _]; repeat case_bool_decide; naive_solver.
  - destruct (rev cs) as [|c2 r] eqn:E.
    + assert (cs = []) by (rewrite <- (rev_involutive cs), E; done). naive_solver.
    + apply Forall_cons_1 in Hcs as [Hc2 _].
      rewrite bool_decide_eq_false_2 by naive_solver.
      by rewrite <- (rev_involutive cs), E.
  - apply rev_involutive.
Qed.

Lemma filter_not_space l :
  Forall (λ c, is_ascii_whitespace c = false) l ->
  List.filter (λ c, negb (is_ascii_whitespace c)) l = l.
Proof. induction 1 as [|c l Hc _ IH]; simpl; [done|]. by rewrite Hc, IH. Qed.

Lemma code_bytes s : bytes (code <$> list_ascii_of_string s).
Proof. apply Forall_fmap, Forall_forall. intros c _. apply code_range. Qed.

(** The forgiving decode inverts [btoa] on every string. *)
Lemma atob_btoa s : atob (btoa s) = Some s.
Proof.
  unfold atob, btoa, forgiving_base64_decode.
  rewrite list_ascii_of_string_of_list_ascii, encode_bytes_sextets.
  set (l := code <$> list_ascii_of_string s).
  pose proof (code_bytes s) as Hb. fold l in Hb.
  pose proof (enc_sextets_range l Hb) as Hr.
  destruct (length_enc_sextets l) as (Hlen & Hmod & Hne).
  rewrite filter_not_space.
  2:{ apply Forall_app; split.
      - apply Forall_fmap. eapply Forall_impl; [done|]. intros n Hn.
        by apply b64_char_not_space.
      - unfold padding. by destruct (List.length l `mod` 3)%nat as [|[|[|]]];
          repeat constructor. }
  rewrite strip_padding_app.
  - rewrite length_fmap, bool_decide_eq_false_2 by done.
    rewrite mapM_b64_value by done. simpl. rewrite decode_enc_sextets by done.
    simpl. f_equal. rewrite <- (string_of_list_ascii_of_string s). f_equal.
    unfold l. rewrite <- list_fmap_compose.
    transitivity (id <$> list_ascii_of_string s); [|apply list_fmap_id].
    apply list_fmap_ext. intros i c _. apply of_code_code.
  - apply Forall_fmap. eapply Forall_impl; [done|]. intros n Hn.
    by apply b64_char_not_pad.
  - unfold padding. destruct (List.length l `mod` 3)%nat as [|[|[|]]]; set_solver.
  - intros Hp. apply Hne in Hp. by destruct (enc_sextets l).
  - by rewrite length_fmap.
Qed.

(** ** The characters of [btoa]'s output *)

Lemma b64_char_output n : 0 <= n < 64 -> b64_output_char (b64_char n) = true.
Proof.
  revert n. apply (forall_range (λ n, b64_output_char (b64_char n) = true) 0 64).
  by vm_compute.
Qed.

Lemma btoa_output_chars s : all_chars b64_output_char (btoa s) = true.
Proof.
  unfold btoa. rewrite encode_bytes_sextets.
  pose proof (enc_sextets_range _ (code_bytes s)) as Hr.
  set (l := code <$> list_ascii_of_string s) in *.
  assert (Forall (λ c, b64_output_char c = true)
            ((b64_char <$> enc_sextets l) ++ padding l)) as Hall.
  { apply Forall_app. split.
    - apply Forall_fmap. eapply Forall_impl; [exact Hr|]. apply b64_char_output.
    - unfold padding. by destruct (List.length l `mod` 3)%nat as [|[|[|]]];
        repeat constructor. }
  induction Hall as [|c cs Hc _ IH]; [done|]. simpl. by rewrite Hc, IH.
Qed.

(** A code unit outside the alphabet never occurs in [btoa]'s output. *)
Lemma btoa_no_char c s : b64_output_char c = false -> char_in c (btoa s) = false.
Proof. intros Hc. eapply all_chars_not_in; [exact Hc|apply btoa_output_chars]. Qed.

Lemma btoa_nonempty s : s <> "" -> btoa s <> "".
Proof.
  destruct s as [|c s]; [done|]. intros _. unfold btoa. simpl.
  destruct (list_ascii_of_string s) as [|c1 [|c2 l]]; simpl; done.
Qed.

(** ** The length of [btoa]'s output *)

Lemma length_encode_bytes l :
  List.length (encode_bytes l) = (4 * ((List.length l + 2) / 3))%nat.
Proof.
  induction l as [|a|a b|a b c l IH] using list_triple_ind; try done.
  cbn [encode_bytes List.length]. rewrite IH.
  replace (S (S (S (List.length l))) + 2)%nat with ((List.length l + 2) + 1 * 3)%nat by lia.
  rewrite Nat.div_add by lia. lia.
Qed.

(** Four characters for every three code units, the last group padded. *)
Lemma length_btoa s : String.length (btoa s) = (4 * ((String.length s + 2) / 3))%nat.
Proof.
  unfold btoa. rewrite length_string_of_list_ascii, length_encode_bytes, length_fmap.
  by rewrite length_list_ascii_of_string.
Qed.

(** ** How much [atob] can return *)

(** Four sextets give three bytes, a final three give two, a final two
    give one. *)
Lemma length_decode_sextets l out :
  decode_sextets l = Some out -> List.length out = (3 * List.length l / 4)%nat.
Proof.
  revert out. induction l as [| | | |a b c d l IH] using list_quad_ind;
    intros out Hd; cbn [decode_sextets] in Hd; try (simplify_eq; reflexivity).
  destruct (decode_sextets l) as [r|] eqn:Hl; [|discriminate Hd].
  injection Hd as <-. cbn [List.length]. rewrite (IH r) by done.
  replace (3 * S (S (S (S (List.length l)))))%nat with (3 * List.length l + 3 * 4)%nat by lia.
  rewrite Nat.div_add by lia. lia.
Qed.

(** Step 2 only removes characters from the end. *)
Lemma strip_padding_prefix l : exists k, l = strip_padding l ++ k.
Proof.
  unfold strip_padding. case_bool_decide; [|exists []; by rewrite app_nil_r].
  destruct (rev l) as [|c1 [|c2 r]] eqn:E; [by exists []; rewrite app_nil_r| |].
  - case_bool_decide; [exists l; done|exists []; by rewrite app_nil_r].
  - assert (l = rev r ++ [c2] ++ [c1]) as Hl
      by (rewrite <- (rev_involutive l), E; simpl; by rewrite <- app_assoc).
    repeat case_bool_decide.
    + exists [c2; c1]. done.
    + exists [c1]. simpl. by rewrite Hl, app_assoc.
    + exists []. by rewrite app_nil_r.
Qed.

Definition not_space (c : ascii) : bool := negb (is_ascii_whitespace c).

(** The non-padding characters of a list. *)
Definition data_chars (l : list ascii) : list ascii :=
  List.filter (λ c, negb (bool_decide (c = "="%char))) l.

(** A prefix without ['='] is no longer than the data characters. *)
Lemma length_prefix_data_chars l2 k :
  Forall (λ c, c <> "="%char) l2 -> (List.length l2 <= List.length (data_chars (l2 ++ k)))%nat.
Proof.
  intros Hl. unfold data_chars. rewrite List.filter_app, length_app.
  rewrite (List.forallb_filter_id _ l2); [lia|].
  apply forallb_forall. intros c Hc%list_elem_of_In. rewrite Forall_forall in Hl.
  apply negb_true_iff, bool_decide_eq_false_2, Hl, Hc.
Qed.

(** The forgiving decode returns three bytes for every four data
    characters left after dropping whitespace. *)
Lemma atob_length x s' :
  atob x = Some s' ->
  (String.length s' <=
   3 * List.length (data_chars (List.filter not_space (list_ascii_of_string x))) / 4)%nat.
Proof.
  unfold atob, forgiving_base64_decode, not_space.
  set (l1 := List.filter _ (list_ascii_of_string x)).
  destruct (strip_padding_prefix l1) as [k Hk]. set (l2 := strip_padding l1) in *.
  case_bool_decide; [done|].
  destruct (mapM b64_value l2) as [vs|] eqn:Hm; [|done]. cbn -[Nat.div].
  destruct (decode_sextets vs) as [out|] eqn:Hd; [|done]. cbn -[Nat.div]. intros [= <-].
  rewrite length_string_of_list_ascii, length_fmap, (length_decode_sextets vs out Hd).
  rewrite <- (length_mapM _ _ _ Hm). apply Nat.Div0.div_le_mono.
  enough (List.length l2 <= List.length (data_chars l1))%nat by lia.
  rewrite Hk. apply length_prefix_data_chars.
  assert (is_Some (mapM b64_value l2)) as Hs%mapM_is_Some_1 by (rewrite Hm; by eexists).
  eapply Forall_impl; [exact Hs|]. intros c [v Hc] ->. vm_compute in Hc. discriminate Hc.
Qed.

(** ** A ['+'] read as a space *)

Definition plus_space_char (c : ascii) : ascii :=
  if bool_decide (c = "+"%char) then " "%char else c.

Lemma list_plus_to_space t :
  list_ascii_of_string (plus_to_space t) = plus_space_char <$> list_ascii_of_string t.
Proof. induction t as [|c t IH]; [done|]. simpl. by rewrite IH. Qed.

Lemma char_in_list c t : char_in c t = true -> c ∈ list_ascii_of_string t.
Proof.
  induction t as [|d t IH]; simpl; [done|]. rewrite elem_of_cons.
  intros [Hd%bool_decide_eq_true_1|Ht]%orb_true_iff; auto.
Qed.

(** Reading ['+'] as a space and dropping whitespace never adds a data
    character to a text without whitespace, and removes one for every
    ['+']. *)
Lemma data_chars_plus_space_le L :
  Forall (λ c, is_ascii_whitespace c = false) L ->
  (List.length (data_chars (List.filter not_space (plus_space_char <$> L))) <=
   List.length (data_chars L))%nat.
Proof.
  induction 1 as [|c L Hc _ IH]; [done|]. unfold plus_space_char, not_space in *.
  rewrite fmap_cons. cbn [List.filter]. case_bool_decide as Hp; subst; simpl; [lia|].
  rewrite Hc. simpl. destruct (bool_decide (c = "="%char)); simpl; lia.
Qed.

Lemma data_chars_plus_space_lt L :
  Forall (λ c, is_ascii_whitespace c = false) L -> "+"%char ∈ L ->
  (List.length (data_chars (List.filter not_space (plus_space_char <$> L))) <
   List.length (data_chars L))%nat.
Proof.
  induction 1 as [|c L Hc HL IH]; [by intros ?%elem_of_nil|].
  rewrite elem_of_cons. intros Hin. pose proof (data_chars_plus_space_le L HL) as Hle.
  unfold plus_space_char, not_space in *.
  rewrite fmap_cons. cbn [List.filter]. case_bool_decide as Hp; subst; simpl; [lia|].
  destruct Hin as [Hin|Hin]; [congruence|]. specialize (IH Hin).
  rewrite Hc. simpl. destruct (bool_decide (c = "="%char)); simpl; lia.
Qed.

Lemma data_chars_btoa_parts sx l :
  Forall (λ n, 0 <= n < 64) sx -> data_chars ((b64_char <$> sx) ++ padding l) = b64_char <$> sx.
Proof.
  intros Hs. unfold data_chars. rewrite List.filter_app.
  replace (List.filter _ (padding l)) with (@nil ascii)
    by (unfold padding; by destruct (List.length l `mod` 3)%nat as [|[|[|]]]).
  rewrite app_nil_r. apply List.forallb_filter_id, forallb_forall.
  intros c (n & <- & Hn%list_elem_of_In)%List.in_map_iff.
  apply negb_true_iff, bool_decide_eq_false_2, b64_char_not_pad.
  rewrite Forall_forall in Hs. by apply Hs.
Qed.

(** The number of bytes [atob] returns for [btoa]'s sextets. *)
Lemma length_enc_sextets_bytes s :
  String.length s = (3 * List.length (enc_sextets (code <$> list_ascii_of_string s)) / 4)%nat.
Proof.
  rewrite <- (length_decode_sextets _ (code <$> list_ascii_of_string s)) by apply decode_enc_sextets, code_bytes.
  by rewrite length_fmap, length_list_ascii_of_string.
Qed.

Lemma div34_lt e n : (e `mod` 4 <> 1)%nat -> (n < e)%nat -> (3 * n / 4 < 3 * e / 4)%nat.
Proof.
  intros H1 H2.
  pose proof (Nat.div_mod (3 * n) 4 ltac:(lia)). pose proof (Nat.mod_upper_bound (3 * n) 4 ltac:(lia)).
  pose proof (Nat.div_mod (3 * e) 4 ltac:(lia)). pose proof (Nat.mod_upper_bound (3 * e) 4 ltac:(lia)).
  pose proof (Nat.div_mod e 4 ltac:(lia)). pose proof (Nat.mod_upper_bound e 4 ltac:(lia)).
  lia.
Qed.

(** A text whose base64 contains a ['+'] does not survive a ['+'] read as
    a space: [atob] either rejects the result or returns fewer code units
    than the text had. *)
Lemma atob_plus_to_space_btoa s :
  char_in "+" (btoa s) = true -> atob (plus_to_space (btoa s)) <> Some s.
Proof.
  intros Hp Ha%atob_length. revert Ha Hp.
  rewrite list_plus_to_space. unfold btoa.
  rewrite list_ascii_of_string_of_list_ascii, encode_bytes_sextets.
  pose proof (length_enc_sextets_bytes s) as Hs.
  set (l := code <$> list_ascii_of_string s) in *.
  pose proof (enc_sextets_range l (code_bytes s)) as Hr.
  destruct (length_enc_sextets l) as (_ & Hmod & _).
  intros Ha Hp%char_in_list. rewrite list_ascii_of_string_of_list_ascii in Hp.
  assert (Forall (λ c, is_ascii_whitespace c = false) ((b64_char <$> enc_sextets l) ++ padding l))
    as Hw.
  { apply Forall_app; split.
    - apply Forall_fmap. eapply Forall_impl; [done|]. intros n Hn. by apply b64_char_not_space.
    - unfold padding. by destruct (List.length l `mod` 3)%nat as [|[|[|]]]; repeat constructor. }
  pose proof (data_chars_plus_space_lt _ Hw Hp) as Hlt.
  rewrite data_chars_btoa_parts, length_fmap in Hlt by done.
  pose proof (div34_lt _ _ Hmod Hlt). lia.
Qed.

End Base64.
