(* ===== verification/Redirect.v ===== *)
(** * The URLs the hook navigates to

    Three pure computations of [src/hooks/auth.ts]:
    - [verify_redirect_target]: where the session fetcher sends a user whose
      email is not verified (line 48);
    - [guest_redirect_target]: where a guest page sends an authenticated
      user, with the [logged=1] marker (lines 142-144);
    - [logout_target]: where [logout] sends the browser, with the [next_to]
      return parameter (lines 130-137).
    The theorems state what each target is on every branch, that the marker
    is appended at most once, and that the login page reads [next_to] back
    as the exact value it was given ([next_to_query]), in particular the
    path and query the user left. *)

From S2P Require Import Prelude JsValue Config UriCodec.
From Stdlib Require Import ZArith String Ascii.

Module Redirect.

Import Config UriCodec.
Local Open Scope js_scope.

(** Line 48: [redirectIfAuthenticatedUrl.indexOf('verify-email') < 0 ?
    verifyEmailUrl : redirectIfAuthenticatedUrl]. *)
Definition verify_redirect_target (u : auth_urls) (redirect_url : string) : string :=
  if bool_decide (redirect_url @@ "verify-email" < 0)%Z then u.(verifyEmailUrl)
  else redirect_url.

(** Lines 142-144: the target of [router.push] on a guest page. *)
Definition guest_redirect_target (redirect_url : string) : string :=
  redirect_url +:+
    (if bool_decide (redirect_url @@ "logged=1" > 0)%Z then ""
     else (if bool_decide (redirect_url @@ "?" > 0)%Z then "&" else "?") +:+ "logged=1").

(** Lines 130-135: [wrapNextUrl]. *)
Definition wrap_next_url (u : auth_urls) (next_url : option string) (next_query : jsval) :=
  match next_url with
  | Some n =>
      if truthy (JStr n) then
        let qs := qs_stringify next_query in
        encodeURIComponent (n +:+ (if truthy (JStr qs) then "?" +:+ qs else ""))
      else u.(loginUrl)
  | None => u.(loginUrl)
  end.

(** Line 137: the argument of [window.location.assign]. *)
Definition logout_target (u : auth_urls) (next_url : option string) (next_query : jsval) :=
  u.(loginUrl) +:+
    match next_url with
    | Some n =>
        if truthy (JStr n) && bool_decide (n @@ u.(loginUrl) < 0)%Z
           && bool_decide (n @@ u.(verifyEmailUrl) < 0)%Z
        then "?next_to=" +:+ wrap_next_url u next_url next_query
        else ""
    | None => ""
    end.

(** The path and query the login page should send the user back to. *)
Definition return_path (n : string) (next_query : jsval) : string :=
  let qs := qs_stringify next_query in
  n +:+ (if truthy (JStr qs) then "?" +:+ qs else "").

(** ** Lemmas *)

Lemma truthy_str s : truthy (JStr s) = negb (String.eqb s "").
Proof. done. Qed.

Lemma logged_no_sep_q : char_in "?" "logged=1" = false.
Proof. done. Qed.

Lemma logged_no_sep_amp : char_in "&" "logged=1" = false.
Proof. done. Qed.

(** The marker is found after the separator the target appends. *)
Lemma indexOf_marker_appended (u sep : string) (c : ascii) :
  sep = String c "" -> char_in c "logged=1" = false ->
  (u @@ "logged=1")%js <> 0%Z ->
  ((u +:+ sep +:+ "logged=1") @@ "logged=1" > 0)%Z.
Proof.
  intros -> Hc Hu. set (s := u +:+ String c "").
  replace (u +:+ String c "" +:+ "logged=1") with (s +:+ "logged=1")
    by (unfold s; symmetry; apply append_assoc).
  pose proof (indexOf_found _ _ _ (occurs_at_end s "logged=1")) as Hf.
  assert ((s +:+ "logged=1") @@ "logged=1" <> 0)%Z; [|lia].
  intros Hz%indexOf_zero_iff. apply Hu, indexOf_zero_iff.
  eapply starts_with_app_sep; [exact Hc|].
  unfold s in Hz. rewrite <- append_assoc in Hz. exact Hz.
Qed.

Lemma guest_target_keep u :
  (u @@ "logged=1" > 0)%Z -> guest_redirect_target u = u.
Proof.
  intros H. unfold guest_redirect_target. rewrite bool_decide_eq_true_2 by lia.
  apply append_nil_r.
Qed.

Lemma guest_target_append u :
  ~ (u @@ "logged=1" > 0)%Z ->
  exists c, guest_redirect_target u = u +:+ String c "" +:+ "logged=1" /\
            char_in c "logged=1" = false.
Proof.
  intros H. unfold guest_redirect_target. rewrite bool_decide_eq_false_2 by done.
  case_bool_decide; eexists; split; try reflexivity; done.
Qed.

Lemma append_eq_self_l s t : s +:+ t = s -> t = "".
Proof.
  intros H. apply (f_equal String.length) in H. rewrite length_append in H.
  destruct t; simpl in *; [done|lia].
Qed.

(** ** Properties of the guest redirect *)

(** On a guest page, the target of the redirect of an authenticated user
    always carries the [logged=1] marker. *)
Theorem guest_redirect_has_marker (u : string) :
  (guest_redirect_target u @@ "logged=1" >= 0)%Z.
Proof.
  destruct (decide (u @@ "logged=1" > 0)%Z) as [Hp|Hp].
  - rewrite guest_target_keep by done. lia.
  - destruct (guest_target_append u Hp) as (c & -> & _).
    rewrite append_assoc. pose proof (indexOf_found _ _ _ (occurs_at_end
      (u +:+ String c "") "logged=1")). lia.
Qed.

(** C3: the marker is appended at most once: redirecting again from the
    target changes nothing, exactly when the configured URL does not start
    with [logged=1] ([indexOf(...) > 0] misses a marker at position 0). *)
Theorem guest_redirect_idempotent_iff (u : string) :
  guest_redirect_target (guest_redirect_target u) = guest_redirect_target u <->
  (u @@ "logged=1")%js <> 0%Z.
Proof.
  destruct (decide (u @@ "logged=1" > 0)%Z) as [Hp|Hp].
  - rewrite !(guest_target_keep u Hp). split; intros; [lia|done].
  - destruct (guest_target_append u Hp) as (c & Ht & Hc). rewrite Ht.
    destruct (decide (u @@ "logged=1" = 0)%Z) as [Hz|Hnz].
    + split; [|done]. intros H. exfalso.
      destruct (guest_target_append (u +:+ String c "" +:+ "logged=1"))
        as (c' & Ht' & _).
      { apply indexOf_zero_iff in Hz.
        rewrite (proj2 (indexOf_zero_iff _ _)); [lia|]. by apply starts_with_app. }
      rewrite Ht' in H. by apply append_eq_self_l in H.
    + split; [done|]. intros _. apply guest_target_keep.
      by apply (indexOf_marker_appended u (String c "") c).
Qed.

(** ** The logout target and the login page's [next_to] *)

Lemma search_of_login_url (login rest : string) :
  char_in "?" login = false -> char_in "#" login = false -> char_in "#" rest = false ->
  search_of_url (login +:+ String "?" rest) = rest.
Proof.
  intros Hq Hh Hr. unfold search_of_url.
  rewrite (break_at_absent "#") by (rewrite char_in_app; simpl; by rewrite Hh, Hr).
  simpl. by rewrite break_at_app.
Qed.

(** The router query of a login page opened with one [next_to] parameter
    written by [encodeURIComponent]: that parameter, decoded. *)
Lemma next_to_query (lp t : string) :
  char_in "?" lp = false -> char_in "#" lp = false ->
  router_query (lp +:+ "?next_to=" +:+ encodeURIComponent t) = Some (JObj [("next_to", JStr t)]).
Proof.
  intros Hq Hh. set (e := encodeURIComponent t).
  unfold router_query. change ("?next_to=" +:+ e) with (String "?" ("next_to=" +:+ e)).
  rewrite search_of_login_url
    by (done || (unfold e; rewrite char_in_app; by rewrite encode_no_char)).
  change ("next_to=" +:+ e) with ("next_to" +:+ String "=" e).
  rewrite form_parse_one by (done || (unfold e; by rewrite encode_no_char)).
  unfold e. rewrite form_decode_encoded. done.
Qed.

(** The router query of the login page the logout navigation opens, for a
    page other than the login and verify-email pages: one parameter
    [next_to], equal to the path and query the user left. *)
Lemma logout_target_query (u : auth_urls) (n : string) (q : jsval) :
  char_in "?" u.(loginUrl) = false -> char_in "#" u.(loginUrl) = false ->
  n <> "" -> (n @@ u.(loginUrl) < 0)%Z -> (n @@ u.(verifyEmailUrl) < 0)%Z ->
  router_query (logout_target u (Some n) q) =
  Some (JObj [("next_to", JStr (return_path n q))]).
Proof.
  intros Hq Hh Hn Hl Hv. unfold logout_target, wrap_next_url.
  assert (truthy (JStr n) = true) as Ht by (simpl; by destruct (String.eqb_spec n "")).
  rewrite Ht, !bool_decide_eq_true_2 by done. simpl andb. cbn iota.
  fold (return_path n q). by apply next_to_query.
Qed.

End Redirect.
