(* ===== verification/Http.v ===== *)
(** * The HTTP client of [src/lib/api.ts]

    [api.ts] creates one axios instance with credentials, the
    [X-Requested-With] header and [baseURL = NEXT_PUBLIC_BACKEND_URL], and
    exports [csrf()], a GET of [baseURL + '/sanctum/csrf-cookie'].  This file
    models the instance, the CSRF request, the URL axios sends a request to
    ([buildFullPath] with [isAbsoluteURL] and [combineURLs] of axios 0.x),
    and how axios settles a response ([validateStatus]: 2xx fulfils, anything
    else rejects with [error.response]; no response rejects without it).
    The theorems give the URL of an API request and of [csrf()] for an
    absolute backend URL, and the doubled URL of [csrf()] for a backend URL
    that is a path. *)

From S2P Require Import Prelude JsValue.
From Stdlib Require Import ZArith String Ascii.

Module Http.

(** ** Requests and responses *)

Record response := mk_response { res_status : Z; res_data : jsval }.

Inductive request :=
| Get (url : string)
| Post (url : string) (body : jsval).

(** [error.response] is [undefined] when no response arrived. *)
Inductive axios_error := HttpError (r : response) | NoResponse.

Inductive outcome := Fulfilled (r : response) | Rejected (e : axios_error).

#[export] Instance response_eq_dec : EqDecision response.
Proof. solve_decision. Defined.
#[export] Instance axios_error_eq_dec : EqDecision axios_error.
Proof. solve_decision. Defined.

(** axios's default [validateStatus]. *)
Definition settle (r : option response) : outcome :=
  match r with
  | Some r => if bool_decide (200 <= r.(res_status) < 300)%Z then Fulfilled r
              else Rejected (HttpError r)
  | None => Rejected NoResponse
  end.

(** ** The instance of api.ts *)

Record axios_config := {
  withCredentials : bool;
  headers : list (string * string);
  baseURL : option string
}.

(** Lines 3-11: [NEXT_PUBLIC_BACKEND_URL] may be unset ([None]). *)
Definition instance (backend_url : option string) : axios_config := {|
  withCredentials := true;
  headers := [("X-Requested-With", "XMLHttpRequest")];
  baseURL := backend_url
|}.

(** [String(baseURL)]: an unset variable concatenates as ["undefined"]. *)
Definition js_string_of_opt (o : option string) : string :=
  match o with Some s => s | None => "undefined" end.

(** Line 13: the URL [csrf()] passes to [instance.get]. *)
Definition csrf_url (backend_url : option string) : string :=
  js_string_of_opt backend_url +:+ "/sanctum/csrf-cookie".

(** ** Where axios sends a request *)

Definition is_ascii_letter (c : ascii) : bool :=
  let n := N_of_ascii c in bool_decide (65 <= n <= 90)%N || bool_decide (97 <= n <= 122)%N.

Definition is_scheme_char (c : ascii) : bool :=
  is_ascii_letter c || bool_decide (48 <= N_of_ascii c <= 57)%N || char_in c "+-.".

(** The rest of a scheme, then [://]. *)
Fixpoint scheme_rest_then_slashes (s : string) : bool :=
  match s with
  | EmptyString => false
  | String c s' =>
      (bool_decide (c = ":"%char) && starts_with "//" s') ||
      (is_scheme_char c && scheme_rest_then_slashes s')
  end.

(** [isAbsoluteURL]: [/^([a-z][a-z\d+\-.]*:)?\/\//i]. *)
Definition is_absolute_url (u : string) : bool :=
  starts_with "//" u ||
  match u with
  | String c s => is_ascii_letter c && scheme_rest_then_slashes s
  | EmptyString => false
  end.

(** [relativeURL.replace(/^\/+/, '')]. *)
Fixpoint strip_leading_slashes (s : string) : string :=
  match s with
  | String c s' => if bool_decide (c = "/"%char) then strip_leading_slashes s' else s
  | EmptyString => EmptyString
  end.

Fixpoint drop_slashes (l : list ascii) : list ascii :=
  match l with
  | c :: l' => if bool_decide (c = "/"%char) then drop_slashes l' else l
  | [] => []
  end.

(** [baseURL.replace(/\/+$/, '')]. *)
Definition strip_trailing_slashes (s : string) : string :=
  string_of_list_ascii (rev (drop_slashes (rev (list_ascii_of_string s)))).

(** [combineURLs(baseURL, relativeURL)]. *)
Definition combine_urls (base rel : string) : string :=
  if String.eqb rel "" then base
  else strip_trailing_slashes base +:+ "/" +:+ strip_leading_slashes rel.

(** [buildFullPath(baseURL, requestedURL)]. *)
Definition full_path (base : option string) (u : string) : string :=
  match base with
  | Some b => if negb (String.eqb b "") && negb (is_absolute_url u) then combine_urls b u else u
  | None => u
  end.

(** The URL a request made through the instance reaches. *)
Definition request_url (backend_url : option string) (rq : request) : string :=
  match rq with
  | Get u | Post u _ => full_path (instance backend_url).(baseURL) u
  end.

(** ** Lemmas *)

Lemma scheme_rest_app s t :
  scheme_rest_then_slashes s = true -> scheme_rest_then_slashes (s +:+ t) = true.
Proof.
  induction s as [|c s IH]; cbn [scheme_rest_then_slashes String.append]; [done|].
  intros [[Hc Hs]%andb_true_iff | [Hc Hs]%andb_true_iff]%orb_true_iff.
  - by rewrite Hc, starts_with_app.
  - by rewrite Hc, IH, orb_true_r.
Qed.

Lemma is_absolute_url_app s t :
  is_absolute_url s = true -> is_absolute_url (s +:+ t) = true.
Proof.
  unfold is_absolute_url. intros [H | H]%orb_true_iff.
  - by rewrite starts_with_app.
  - destruct s as [|c s]; [done|]. apply andb_true_iff in H as [Hc Hs].
    cbn [String.append]. by rewrite Hc, scheme_rest_app, orb_true_r.
Qed.

Lemma list_ascii_of_string_app s t :
  list_ascii_of_string (s +:+ t) = list_ascii_of_string s ++ list_ascii_of_string t.
Proof. induction s as [|c s IH]; simpl; [done|]. by rewrite IH. Qed.

Lemma strip_trailing_slashes_keep b c :
  c <> "/"%char -> strip_trailing_slashes (b +:+ String c "") = b +:+ String c "".
Proof.
  intros Hc. unfold strip_trailing_slashes.
  rewrite list_ascii_of_string_app, rev_app_distr. simpl.
  rewrite bool_decide_eq_false_2 by done. simpl.
  rewrite rev_involutive. change [c] with (list_ascii_of_string (String c "")).
  rewrite <- list_ascii_of_string_app. apply string_of_list_ascii_of_string.
Qed.

Lemma strip_leading_slashes_none p :
  starts_with "/" p = false -> strip_leading_slashes p = p.
Proof.
  intros Hp. destruct p as [|c p]; [done|]. simpl in *.
  rewrite bool_decide_eq_false_2; [done|]. intros ->. by rewrite bool_decide_eq_true_2 in Hp.
Qed.

Lemma is_absolute_url_path p :
  starts_with "/" p = false -> is_absolute_url (String "/" p) = false.
Proof.
  intros Hp. unfold is_absolute_url. simpl. rewrite orb_false_r.
  destruct p as [|c p]; [done|]. simpl in *. done.
Qed.

(** With an absolute backend URL that does not end in ['/'], a request
    for an API path (one leading ['/']) goes to the backend URL followed by
    the path. *)
Theorem request_url_path (b0 : string) (c : ascii) (p : string) (rq : request) :
  c <> "/"%char -> starts_with "/" p = false ->
  (rq = Get (String "/" p) \/ exists body, rq = Post (String "/" p) body) ->
  request_url (Some (b0 +:+ String c "")) rq = b0 +:+ String c "" +:+ String "/" p.
Proof.
  intros Hc Hp Hrq.
  assert (request_url (Some (b0 +:+ String c "")) rq =
          full_path (Some (b0 +:+ String c "")) (String "/" p)) as ->
    by (destruct Hrq as [->|[body ->]]; done).
  unfold full_path. rewrite is_absolute_url_path by done.
  rewrite (proj2 (String.eqb_neq _ _)).
  2:{ destruct b0; discriminate. }
  unfold combine_urls. simpl. rewrite strip_trailing_slashes_keep by done.
  rewrite strip_leading_slashes_none by done. by rewrite <- append_assoc.
Qed.

(** With an absolute backend URL, [csrf()] asks the backend itself for
    its CSRF cookie: axios leaves the already absolute URL alone. *)
Theorem csrf_request_url_absolute (b : string) :
  is_absolute_url b = true ->
  request_url (Some b) (Get (csrf_url (Some b))) = b +:+ "/sanctum/csrf-cookie".
Proof.
  intros Hb. unfold request_url, csrf_url, full_path. simpl.
  rewrite is_absolute_url_app by done. by rewrite andb_false_r.
Qed.

Lemma starts_with_slash_app s t :
  starts_with "/" s = false -> s <> "" -> starts_with "/" (s +:+ t) = false.
Proof. destruct s; [done|]. simpl. intros H _. exact H. Qed.

(** C29: [csrf()] prefixes the base URL itself, and axios prefixes it again
    when it is not absolute: for every backend URL that is a path [b] (one
    leading ['/'], no trailing ['/']), the CSRF request goes to [b], then
    [b] again, then [/sanctum/csrf-cookie]. *)
Theorem csrf_request_url_relative (p0 : string) (c : ascii) :
  c <> "/"%char -> starts_with "/" (p0 +:+ String c "") = false ->
  let b := String "/" (p0 +:+ String c "") in
  request_url (Some b) (Get (csrf_url (Some b))) = b +:+ b +:+ "/sanctum/csrf-cookie".
Proof.
  intros Hc Hp b. set (r := p0 +:+ String c "") in *.
  assert (r <> "") as Hr by (unfold r; destruct p0; discriminate).
  unfold request_url, csrf_url, full_path. simpl.
  rewrite is_absolute_url_path by (by apply starts_with_slash_app). simpl.
  unfold combine_urls. simpl.
  change b with (String "/" p0 +:+ String c "").
  rewrite strip_trailing_slashes_keep by done.
  rewrite strip_leading_slashes_none by (by apply starts_with_slash_app).
  unfold r. simpl. by rewrite <- !append_assoc.
Qed.

Lemma request_url_path_witness :
  request_url (Some "https://api.example.com") (Post "/login" JNull) = "https://api.example.com/login".
Proof.
  apply (request_url_path "https://api.example.co" "m" "login" (Post "/login" JNull)).
  - discriminate.
  - reflexivity.
  - right. by exists JNull.
Defined.

Lemma csrf_request_url_absolute_witness :
  request_url (Some "https://api.example.com") (Get (csrf_url (Some "https://api.example.com"))) =
  "https://api.example.com/sanctum/csrf-cookie".
Proof. apply csrf_request_url_absolute. reflexivity. Defined.

Lemma csrf_request_url_relative_witness :
  request_url (Some "/api") (Get (csrf_url (Some "/api"))) = "/api/api/sanctum/csrf-cookie".
Proof. apply (csrf_request_url_relative "ap" "i"); [discriminate|reflexivity]. Defined.

End Http.
