(* ===== verification/Swr.v ===== *)
(** * The session cache

    [useAuth] keeps the session in [useSWR(apiPathUser, fetcher)] (src/hooks/
    auth.ts lines 41-50): [data] is the user, [error] the rejection of the
    last fetch, and [mutate()] starts a revalidation.  The hook relies on a
    contract, stated here as the class [SessionCache] with its laws
    [SessionCacheLaws]:
    - starting a revalidation keeps the data and the error and makes the new
      fetch the latest;
    - a fetch that is the latest when it settles writes its result: the data
      and no error on success, the error (data kept) on failure;
    - a fetch that is no longer the latest changes nothing.
    [swr] is the SWR implementation (its [FETCH[key]] timestamp check:
    results of superseded requests are dropped) and [swr_laws] shows it
    meets the contract.  SWR is a library: this is modelled from its
    documentation, not from code of the repository. *)

From S2P Require Import Prelude JsValue Http.

Module Swr.

Import Http.

(** Why a promise rejected: an axios error, or a [TypeError] raised by the
    handler code itself ([error.response.status] with no response,
    [Object.values(undefined)], [response.data.status] on [null]). *)
Inductive reason := RAxios (e : axios_error) | RTypeError.

#[export] Instance reason_eq_dec : EqDecision reason.
Proof. solve_decision. Defined.

Inductive fetch_result := FetchOk (v : jsval) | FetchErr (r : reason).

(** ** The contract *)

Class SessionCache (C : Type) := {
  cache_init : C;
  cache_data : C -> jsval;
  cache_error : C -> option reason;
  cache_latest : C -> option nat;
  cache_start : nat -> C -> C;
  cache_settle : nat -> fetch_result -> C -> C
}.

Class SessionCacheLaws (C : Type) `{SessionCache C} := {
  cache_init_data : cache_data cache_init = JUndefined;
  cache_init_error : cache_error cache_init = None;
  cache_init_latest : cache_latest cache_init = None;
  cache_start_data n c : cache_data (cache_start n c) = cache_data c;
  cache_start_error n c : cache_error (cache_start n c) = cache_error c;
  cache_start_latest n c : cache_latest (cache_start n c) = Some n;
  cache_settle_ok n v c :
    cache_latest c = Some n ->
    cache_data (cache_settle n (FetchOk v) c) = v /\
    cache_error (cache_settle n (FetchOk v) c) = None;
  cache_settle_err n r c :
    cache_latest c = Some n ->
    cache_data (cache_settle n (FetchErr r) c) = cache_data c /\
    cache_error (cache_settle n (FetchErr r) c) = Some r;
  cache_settle_latest n fr c : cache_latest (cache_settle n fr c) = cache_latest c;
  cache_settle_stale n fr c : cache_latest c <> Some n -> cache_settle n fr c = c
}.

(** ** SWR *)

Record swr := mk_swr {
  swr_data : jsval;
  swr_error : option reason;
  swr_latest : option nat
}.

Definition swr_settle (n : nat) (fr : fetch_result) (c : swr) : swr :=
  if bool_decide (c.(swr_latest) = Some n) then
    match fr with
    | FetchOk v => mk_swr v None c.(swr_latest)
    | FetchErr r => mk_swr c.(swr_data) (Some r) c.(swr_latest)
    end
  else c.

#[export] Instance swr_cache : SessionCache swr := {|
  cache_init := mk_swr JUndefined None None;
  cache_data := swr_data;
  cache_error := swr_error;
  cache_latest := swr_latest;
  cache_start n c := mk_swr c.(swr_data) c.(swr_error) (Some n);
  cache_settle := swr_settle
|}.

#[export] Instance swr_laws : SessionCacheLaws swr.
Proof.
  split; try done; intros *; simpl; unfold swr_settle; try intros H;
    repeat case_bool_decide; try done;
    match goal with fr : fetch_result |- _ => by destruct fr end.
Qed.

End Swr.
