(* ===== verification/AuthHook.v ===== *)
(** * The authentication hook [useAuth]

    [src/hooks/auth.ts] as a state transformer.  The state the hook reads
    and writes is a [world]:
    - the caller's [errors] and [status] states, which the actions write
      through the [setErrors] and [setStatus] the caller passes, and the
      identity of the [errors] array, which every [setErrors] renews;
    - the hook's own [loading] state;
    - the session cache, through the [SessionCache] interface of [Swr];
    - the navigations performed ([router.push], [window.location.assign]);
    - the requests in flight, each with the continuation that runs when it
      settles;
    - the promise rejections nobody handles.

    Every action is an [async] function or a promise chain.  Its synchronous
    part runs when it is called and stops at its first request; what follows
    an [await] or a [.then]/[.catch] is a continuation ([cont]) stored with
    the request and run by [resume] when the request settles.  [Runtime]
    interleaves calls, renders and settlements.

    The whole section is stated against [SessionCacheLaws], so its theorems
    hold for any cache that meets the contract, SWR among them. *)

From S2P Require Import Prelude JsValue Config UriCodec Base64 Redirect Http Swr.
From Stdlib Require Import ZArith String.

Module AuthHook.

Import Config Redirect Http Swr Base64.

(** ** State *)

Inductive nav :=
| RouterPush (url : string) (as_url : option string)
| LocationAssign (url : string).

(** The actions whose body continues after [await csrf()]. *)
Inductive action :=
| ARegister (props : jsval)
| ALogin (props : jsval)
| AForgot (email : jsval)
| AReset (props : jsval).

(** The [.then]/[.catch] handlers of an [api.post]. *)
Inductive post_handler := HMutate | HForgot | HReset | HResend.

Inductive cont :=
| KUserFetch (stamp : nat)
| KCsrf (a : action)
| KPost (h : post_handler)
| KLogoutPost (next_url : option string) (next_query : jsval).

Record pending := mk_pending { p_id : nat; p_req : request; p_cont : cont }.

(** The world the hook acts on.  [w_errors] and [w_status] are the state
    of the calling page, written through [setErrors] and [setStatus].
    [w_errors_ref] is the identity of the [errors] array: every call of
    [setErrors] passes a fresh array ([[]] or the result of [flat()]), and
    React compares effect dependencies by identity ([Object.is]), so a page
    effect that depends on [errors] runs again after any [setErrors], even
    with equal contents. *)
Record world (C : Type) := mk_world {
  w_errors : list jsval;
  w_status : jsval;
  w_loading : bool;
  w_cache : C;
  w_nav : list nav;
  w_pending : list pending;
  w_unhandled : list reason;
  w_next : nat;
  w_errors_ref : nat
}.
Arguments mk_world {C} _ _ _ _ _ _ _ _ _.
Arguments w_errors {C} _.
Arguments w_status {C} _.
Arguments w_loading {C} _.
Arguments w_cache {C} _.
Arguments w_nav {C} _.
Arguments w_pending {C} _.
Arguments w_unhandled {C} _.
Arguments w_next {C} _.
Arguments w_errors_ref {C} _.

Section Hook.

Context {C : Type} `{SessionCacheLaws C}.

(** The hook's configuration: its URLs, its [config] argument, the backend
    URL of [api.ts], and the router's [pathname] and [query] at the time. *)
Variable u : auth_urls.
Variable cfg : use_auth_config.
Variable backend : option string.
Variable pathname : string.
Variable query : jsval.

Implicit Types w : world C.

(** *** Elementary updates *)

Definition set_errors (e : list jsval) w : world C :=
  mk_world e w.(w_status) w.(w_loading) w.(w_cache) w.(w_nav) w.(w_pending)
    w.(w_unhandled) w.(w_next) (S w.(w_errors_ref)).

Definition set_status (s : jsval) w : world C :=
  mk_world w.(w_errors) s w.(w_loading) w.(w_cache) w.(w_nav) w.(w_pending)
    w.(w_unhandled) w.(w_next) w.(w_errors_ref).

Definition set_loading (b : bool) w : world C :=
  mk_world w.(w_errors) w.(w_status) b w.(w_cache) w.(w_nav) w.(w_pending)
    w.(w_unhandled) w.(w_next) w.(w_errors_ref).

Definition set_cache (c : C) w : world C :=
  mk_world w.(w_errors) w.(w_status) w.(w_loading) c w.(w_nav) w.(w_pending)
    w.(w_unhandled) w.(w_next) w.(w_errors_ref).

Definition navigate (n : nav) w : world C :=
  mk_world w.(w_errors) w.(w_status) w.(w_loading) w.(w_cache) (w.(w_nav) ++ [n])
    w.(w_pending) w.(w_unhandled) w.(w_next) w.(w_errors_ref).

(** A rejection that no caller handles. *)
Definition reject (r : reason) w : world C :=
  mk_world w.(w_errors) w.(w_status) w.(w_loading) w.(w_cache) w.(w_nav)
    w.(w_pending) (w.(w_unhandled) ++ [r]) w.(w_next) w.(w_errors_ref).

(** A request goes out; [k] runs when it settles. *)
Definition issue (rq : request) (k : cont) w : world C :=
  mk_world w.(w_errors) w.(w_status) w.(w_loading) w.(w_cache) w.(w_nav)
    (w.(w_pending) ++ [mk_pending w.(w_next) rq k]) w.(w_unhandled) (S w.(w_next))
    w.(w_errors_ref).

(** *** The session fetch (lines 41-50) *)

(** Line 36. *)
Definition redirect_url : string := redirect_if_authenticated_url u cfg.

(** A revalidation ([mutate()], or the fetch on mount) runs the fetcher:
    [api.get(apiPathUser)]. *)
Definition revalidate w : world C :=
  issue (Get u.(apiPathUser)) (KUserFetch w.(w_next))
    (set_cache (cache_start w.(w_next) w.(w_cache)) w).

(** What the fetcher's promise settles to, and the navigation its [.catch]
    performs: a 409 pushes the verify-email page and resolves with
    [undefined]; any other status rethrows; no response makes
    [error.response.status] a [TypeError]. *)
Definition fetcher_result (o : outcome) : fetch_result * list nav :=
  match o with
  | Fulfilled r => (FetchOk r.(res_data), [])
  | Rejected (HttpError r) =>
      if bool_decide (r.(res_status) = 409%Z)
      then (FetchOk JUndefined, [RouterPush (verify_redirect_target u redirect_url) None])
      else (FetchErr (RAxios (HttpError r)), [])
  | Rejected NoResponse => (FetchErr RTypeError, [])
  end.

Definition settle_user_fetch (stamp : nat) (o : outcome) w : world C :=
  let '(fr, navs) := fetcher_result o in
  set_cache (cache_settle stamp fr w.(w_cache)) (foldl (λ w' n, navigate n w') w navs).

(** *** The actions: their synchronous part *)

(** Lines 52-54, 67-69, 83-85, 99-101: [await csrf()]. *)
Definition register (props : jsval) w : world C :=
  issue (Get (csrf_url backend)) (KCsrf (ARegister props)) w.
Definition login (props : jsval) w : world C :=
  issue (Get (csrf_url backend)) (KCsrf (ALogin props)) w.
Definition forgotPassword (email : jsval) w : world C :=
  issue (Get (csrf_url backend)) (KCsrf (AForgot email)) w.
Definition resetPassword (props : jsval) w : world C :=
  issue (Get (csrf_url backend)) (KCsrf (AReset props)) w.

(** Lines 115-121: no CSRF request, no [.catch]. *)
Definition resendEmailVerification w : world C :=
  issue (Post u.(apiPathVerifyEmail) JUndefined) (KPost HResend) w.

(** Lines 123-138: with no fetch error, [await api.post(apiPathLogout)];
    with one, navigate at once.  [logout] is a [useCallback] closure with
    [error] among its dependencies (line 138): [error] is the session
    fetch error of the render that created it, not the cache's at call
    time. *)
Definition logout (error : option reason) (next_url : option string) (next_query : jsval) w
  : world C :=
  match error with
  | None => issue (Post u.(apiPathLogout) JUndefined) (KLogoutPost next_url next_query) w
  | Some _ => navigate (LocationAssign (logout_target u next_url next_query)) w
  end.

(** *** The continuations *)

(** After [await csrf()]: clear the caller's state, post the form. *)
Definition after_csrf (a : action) w : world C :=
  match a with
  | ARegister props =>
      issue (Post u.(apiPathRegister) props) (KPost HMutate) (set_errors [] w)
  | ALogin props =>
      issue (Post u.(apiPathLogin) props) (KPost HMutate) (set_status JNull (set_errors [] w))
  | AForgot email =>
      issue (Post u.(apiPathForgotPassword) (JObj [("email", email)])) (KPost HForgot)
        (set_status JNull (set_errors [] w))
  | AReset props =>
      let token := default JUndefined (get_prop query "token") in
      issue (Post u.(apiPathResetPassword) (object_spread [("token", token)] props))
        (KPost HReset) (set_status JNull (set_errors [] w))
  end.

(** The [.catch] of lines 60-64, 76-80, 92-96 and 108-112: a 422 writes
    the flattened validation messages; anything else is rethrown, and
    reading [error.response.status] of an error without a response is
    itself a [TypeError]. *)
Definition catch_validation (e : reason) w : world C :=
  match e with
  | RAxios (HttpError r) =>
      if bool_decide (r.(res_status) = 422%Z) then
        match validation_errors r.(res_data) with
        | Some errs => set_errors errs w
        | None => reject RTypeError w
        end
      else reject e w
  | RAxios NoResponse | RTypeError => reject RTypeError w
  end.

(** The [.then] handlers, and where their failures go. *)
Definition on_post (h : post_handler) (o : outcome) w : world C :=
  match h, o with
  | HMutate, Fulfilled _ => revalidate w
  | HForgot, Fulfilled r =>
      match get_prop r.(res_data) "status" with
      | Some s => set_status s w
      | None => catch_validation RTypeError w
      end
  | HReset, Fulfilled r =>
      match get_prop r.(res_data) "status" with
      | Some s => navigate (RouterPush (u.(loginUrl) +:+ "?reset=" +:+ btoa (js_to_string s)) None) w
      | None => catch_validation RTypeError w
      end
  | HResend, Fulfilled r =>
      match get_prop r.(res_data) "status" with
      | Some s => set_status s w
      | None => reject RTypeError w
      end
  | HResend, Rejected e => reject (RAxios e) w
  | _, Rejected e => catch_validation (RAxios e) w
  end.

(** The continuation of a settled request. *)
Definition resume (k : cont) (o : outcome) w : world C :=
  match k with
  | KUserFetch n => settle_user_fetch n o w
  | KCsrf a =>
      match o with
      | Fulfilled _ => after_csrf a w
      | Rejected e => reject (RAxios e) w
      end
  | KPost h => on_post h o w
  | KLogoutPost nu nq =>
      match o with
      | Fulfilled _ => navigate (LocationAssign (logout_target u nu nq)) (revalidate w)
      | Rejected e => reject (RAxios e) w
      end
  end.

(** The backend answers request [id] (or the network fails, [None]). *)
Definition settle_request (id : nat) (r : option response) w : option (world C) :=
  match list_find (λ p, p.(p_id) = id) w.(w_pending) with
  | Some (i, p) =>
      Some (resume p.(p_cont) (settle r)
        (mk_world w.(w_errors) w.(w_status) w.(w_loading) w.(w_cache) w.(w_nav)
           (delete i w.(w_pending)) w.(w_unhandled) w.(w_next) w.(w_errors_ref)))
  | None => None
  end.

(** *** The render effect (lines 140-153) *)

Definition auth_effect w : world C :=
  let user := cache_data w.(w_cache) in
  let w1 :=
    if bool_decide (cfg.(cfg_middleware) = MwGuest) && truthy user
    then navigate (RouterPush (guest_redirect_target redirect_url) (Some redirect_url)) w
    else w in
  let w2 :=
    if bool_decide (cfg.(cfg_middleware) = MwAuth) && bool_decide (is_Some (cache_error w1.(w_cache)))
    then logout (cache_error w.(w_cache)) (Some pathname) query w1
    else w1 in
  set_loading false w2.

(** The cleanup of the effect. *)
Definition auth_effect_cleanup w : world C := set_loading true w.

(** The hook on mount: [loading] is [true] and SWR starts the fetch. *)
Definition init_world : world C :=
  revalidate (mk_world [] JNull true cache_init [] [] [] 0 0).

(** *** The redirect policy of the specification

    Section 9 of the specification asks for the redirect decision as a pure
    function of the mode and the session.  [decide_redirect] is that
    function; [auth_effect_refines_decide_redirect] shows the effect
    performs exactly its decision and touches nothing else but [loading]. *)
Definition decide_redirect (user : jsval) (err : option reason) : option nav :=
  match cfg.(cfg_middleware) with
  | MwGuest =>
      if truthy user then Some (RouterPush (guest_redirect_target redirect_url) (Some redirect_url))
      else None
  | MwAuth =>
      if bool_decide (is_Some err) then Some (LocationAssign (logout_target u (Some pathname) query))
      else None
  end.

(** ** Behaviour of the handlers *)

Lemma foldl_navigate navs w :
  foldl (λ w' n, navigate n w') w navs =
  mk_world w.(w_errors) w.(w_status) w.(w_loading) w.(w_cache) (w.(w_nav) ++ navs)
    w.(w_pending) w.(w_unhandled) w.(w_next) w.(w_errors_ref).
Proof.
  induction navs as [|n navs IH] in w |- *; simpl.
  - rewrite app_nil_r. by destruct w.
  - rewrite IH. simpl. by rewrite <- app_assoc.
Qed.


(** C17: a 422 answer to register, login, forgot-password or reset-password
    writes the validation messages of a Laravel error bag, field after field
    in the order the backend sent them, into the caller's [errors], and
    changes nothing else. *)
Theorem validation_failure_sets_errors (h : post_handler) (bag : list (string * jsval))
    (data : jsval) w :
  h <> HResend -> laravel_bag bag -> get_prop data "errors" = Some (JObj bag) ->
  on_post h (Rejected (HttpError (mk_response 422 data))) w = set_errors (flat (snd <$> bag)) w.
Proof.
  intros Hh Hbag Hdata. pose proof (validation_errors_bag data bag Hbag Hdata) as Hv.
  destruct h; try done; simpl; by rewrite Hv.
Qed.

(** C20: any other failure of a form post is rethrown from the [.catch], so
    it is an unhandled rejection: the caller's state, the navigation and the
    cache are untouched; a failure without a response rejects with the
    [TypeError] of reading [error.response.status]. *)
Theorem non_validation_failure_rethrown (h : post_handler) (e : axios_error) w :
  h <> HResend ->
  (forall r, e = HttpError r -> r.(res_status) <> 422%Z) ->
  on_post h (Rejected e) w =
  reject (match e with HttpError _ => RAxios e | NoResponse => RTypeError end) w.
Proof.
  intros Hh Hne. destruct h; try done; destruct e as [r|]; simpl; try done;
    rewrite bool_decide_eq_false_2; auto.
Qed.

(** C24: a 409 on the user endpoint sends the user to the verify-email page
    (or to the configured redirect when it already names [verify-email]),
    and the fetch resolves with [undefined]: when it is the latest fetch the
    session becomes logged out without an error. *)
Theorem user_fetch_409_verify (n : nat) (data : jsval) w :
  cache_latest w.(w_cache) = Some n ->
  let w' := settle_user_fetch n (Rejected (HttpError (mk_response 409 data))) w in
  w'.(w_nav) = w.(w_nav) ++ [RouterPush (verify_redirect_target u redirect_url) None] /\
  cache_data w'.(w_cache) = JUndefined /\ cache_error w'.(w_cache) = None /\
  w'.(w_pending) = w.(w_pending).
Proof.
  intros Hn. unfold settle_user_fetch, fetcher_result. simpl.
  destruct (cache_settle_ok n JUndefined w.(w_cache) Hn). done.
Qed.

(** C25: any other failure of the latest user fetch keeps the last user and
    records the error, without navigating. *)
Theorem user_fetch_error_keeps_user (n : nat) (e : axios_error) w :
  cache_latest w.(w_cache) = Some n ->
  (forall r, e = HttpError r -> r.(res_status) <> 409%Z) ->
  let w' := settle_user_fetch n (Rejected e) w in
  w'.(w_nav) = w.(w_nav) /\ cache_data w'.(w_cache) = cache_data w.(w_cache) /\
  cache_error w'.(w_cache) =
    Some (match e with HttpError _ => RAxios e | NoResponse => RTypeError end).
Proof.
  intros Hn Hne. unfold settle_user_fetch, fetcher_result.
  destruct e as [r|]; [rewrite bool_decide_eq_false_2 by auto|]; simpl.
  - destruct (cache_settle_err n (RAxios (HttpError r)) w.(w_cache) Hn).
    done.
  - destruct (cache_settle_err n RTypeError w.(w_cache) Hn). done.
Qed.

(** C21: [logout] created by a render with no fetch error posts to the
    logout endpoint first;
    the browser navigates only if that request succeeds, after starting a
    revalidation.  If it fails, the rejection is unhandled and the browser
    stays where it is. *)
Theorem logout_waits_for_post (nu : option string) (nq : jsval) (o : outcome) w :
  let w1 := logout None nu nq w in
  w1.(w_pending) = w.(w_pending) ++
    [mk_pending w.(w_next) (Post u.(apiPathLogout) JUndefined) (KLogoutPost nu nq)] /\
  w1.(w_nav) = w.(w_nav) /\
  (resume (KLogoutPost nu nq) o w1).(w_nav) =
    match o with
    | Fulfilled _ => w.(w_nav) ++ [LocationAssign (logout_target u nu nq)]
    | Rejected _ => w.(w_nav)
    end.
Proof.
  unfold logout. simpl. destruct o; done.
Qed.

(** C8: the render effect refines the specification's redirect policy: it
    appends exactly the navigation [decide_redirect] chooses from the
    session's user and error, leaves the caller's state, the cache and the
    requests in flight alone, and ends the loading state. *)
Theorem auth_effect_refines_decide_redirect w :
  let w' := auth_effect w in
  w'.(w_nav) = w.(w_nav) ++ option_list
                 (decide_redirect (cache_data w.(w_cache)) (cache_error w.(w_cache))) /\
  w'.(w_cache) = w.(w_cache) /\ w'.(w_pending) = w.(w_pending) /\
  w'.(w_errors) = w.(w_errors) /\ w'.(w_status) = w.(w_status) /\
  w'.(w_loading) = false.
Proof.
  unfold auth_effect, decide_redirect, logout.
  destruct (cfg_middleware cfg); simpl.
  - destruct (cache_error (w_cache w)); simpl; rewrite ?app_nil_r; done.
  - destruct (truthy _); simpl; rewrite ?app_nil_r; done.
Qed.

End Hook.

(** ** Witnesses: the theorems at the initial world of SWR, default URLs *)

Lemma validation_failure_sets_errors_witness :
  on_post (use_auth_urls ∅) HMutate
    (Rejected (HttpError (mk_response 422
       (JObj [("errors", JObj [("email", JArr [JStr "The email field is required."])])]))))
    (init_world (C:=swr) (use_auth_urls ∅)) =
  set_errors [JStr "The email field is required."] (init_world (use_auth_urls ∅)).
Proof.
  apply (validation_failure_sets_errors (use_auth_urls ∅) HMutate
           [("email", JArr [JStr "The email field is required."])]).
  - discriminate.
  - by repeat constructor.
  - reflexivity.
Defined.

Lemma non_validation_failure_rethrown_witness :
  on_post (use_auth_urls ∅) HReset (Rejected (HttpError (mk_response 500 JNull)))
    (init_world (C:=swr) (use_auth_urls ∅)) =
  reject (RAxios (HttpError (mk_response 500 JNull))) (init_world (use_auth_urls ∅)).
Proof.
  apply (non_validation_failure_rethrown (use_auth_urls ∅) HReset
           (HttpError (mk_response 500 JNull))).
  - discriminate.
  - intros r [= <-]. simpl. lia.
Defined.

Lemma user_fetch_409_verify_witness :
  (settle_user_fetch (use_auth_urls ∅) (Build_use_auth_config MwAuth None) 0
     (Rejected (HttpError (mk_response 409 JNull))) (init_world (C:=swr) (use_auth_urls ∅))).(w_nav) =
  [RouterPush "/example/verify-email" None].
Proof.
  pose proof (user_fetch_409_verify (use_auth_urls ∅) (Build_use_auth_config MwAuth None) 0 JNull
                (init_world (C:=swr) (use_auth_urls ∅)) eq_refl) as Hc.
  cbv zeta in Hc. destruct Hc as [-> _]. reflexivity.
Defined.

Lemma user_fetch_error_keeps_user_witness :
  cache_error (settle_user_fetch (use_auth_urls ∅) (Build_use_auth_config MwAuth None) 0
    (Rejected (HttpError (mk_response 500 JNull))) (init_world (C:=swr) (use_auth_urls ∅))).(w_cache) =
  Some (RAxios (HttpError (mk_response 500 JNull))).
Proof.
  assert (forall r, HttpError (mk_response 500 JNull) = HttpError r -> r.(res_status) <> 409%Z)
    as Hne by (intros r [= <-]; simpl; lia).
  pose proof (user_fetch_error_keeps_user (use_auth_urls ∅) (Build_use_auth_config MwAuth None) 0
                (HttpError (mk_response 500 JNull)) (init_world (C:=swr) (use_auth_urls ∅)) eq_refl
                Hne) as Hc.
  cbv zeta in Hc. destruct Hc as (_ & _ & ->). reflexivity.
Defined.

Lemma logout_waits_for_post_witness :
  (resume (use_auth_urls ∅) (Build_use_auth_config MwAuth None) JNull (KLogoutPost None JNull)
     (Rejected NoResponse)
     (logout (use_auth_urls ∅) None None JNull (init_world (C:=swr) (use_auth_urls ∅)))).(w_nav) = [].
Proof.
  pose proof (logout_waits_for_post (use_auth_urls ∅) (Build_use_auth_config MwAuth None) JNull
                None JNull (Rejected NoResponse) (init_world (C:=swr) (use_auth_urls ∅)))
    as Hc.
  cbv zeta in Hc. destruct Hc as (_ & _ & ->). reflexivity.
Defined.

End AuthHook.
