(* ===== verification/Runtime.v ===== *)
(** * Interleaving: calls, settlements and renders

    The browser runs the hook on one event loop.  Three kinds of event
    change its state:
    - a page calls one of the hook's actions ([run_call]);
    - the backend answers a request in flight, in any order
      ([settle_request]);
    - React renders, and runs the effect of lines 140-153 when its
      dependencies [user] and [error] changed since its last run ([render]).
    [step] is the step relation of this machine and [reachable] its states
    from the mount of the hook.  [reachable_wf] is the invariant every
    reachable state keeps (fresh request ids, the latest fetch stamp
    issued); the flows assume it.  The theorems give the observable result
    of whole flows: a login answered by 422, a successful login followed by
    the session fetch, a CSRF failure, an answer to an older request after
    the latest session fetch settled.
    [env_step] is the part of [step] the environment takes alone (answers
    and renders).  [env_steps_terminate] shows it is well founded: with no
    new call, the hook always settles down.  React re-renders for reasons
    other than [user] and [error] (a new [router] object, a new [logout]
    callback) are not modelled. *)

From S2P Require Import Prelude JsValue Config Redirect Http Swr AuthHook.
From Stdlib Require Import ZArith String.

Module Runtime.

Import Config Redirect Http Swr AuthHook.

Inductive call :=
| CRegister (props : jsval)
| CLogin (props : jsval)
| CForgot (email : jsval)
| CReset (props : jsval)
| CResend
| CLogout (next_url : option string) (next_query : jsval).

Section Run.

Context {C : Type} `{SessionCacheLaws C}.
Variable u : auth_urls.
Variable cfg : use_auth_config.
Variable backend : option string.
Variable pathname : string.
Variable query : jsval.

Implicit Types w : world C.

(** [error] is the session fetch error of the render whose callbacks the
    page holds; [logout] closes over it. *)
Definition run_call (error : option reason) (c : call) w : world C :=
  match c with
  | CRegister p => register backend p w
  | CLogin p => login backend p w
  | CForgot e => forgotPassword backend e w
  | CReset p => resetPassword backend p w
  | CResend => resendEmailVerification u w
  | CLogout nu nq => logout u error nu nq w
  end.

(** The machine's state: the world and the dependencies of the effect's
    last run ([None] before the first render). *)
Record rstate := mk_rstate { rs_world : world C; rs_deps : option (jsval * option reason) }.

Definition deps_of w : jsval * option reason := (cache_data w.(w_cache), cache_error w.(w_cache)).

(** The [error] of the last render: the hook's effect runs at every render
    where [error] changed, and SWR starts with none. *)
Definition render_error (s : rstate) : option reason :=
  match s.(rs_deps) with Some (_, e) => e | None => None end.

(** A render whose dependencies changed: the cleanup of the previous run,
    then the effect. *)
Definition render (s : rstate) : rstate :=
  let w := s.(rs_world) in
  let w' := match s.(rs_deps) with None => w | Some _ => auth_effect_cleanup w end in
  mk_rstate (auth_effect u cfg pathname query w') (Some (deps_of w)).

(** The [loading] and [user] the hook returns (lines 167-168). *)
Definition loading_user w : bool * jsval := (w.(w_loading), cache_data w.(w_cache)).

(** A commit of the hook's effect: it runs only when its dependencies
    changed. *)
Definition render_if_changed (s : rstate) : rstate :=
  if bool_decide (s.(rs_deps) <> Some (deps_of s.(rs_world))) then render s else s.

Inductive step : rstate -> rstate -> Prop :=
| step_call c s : step s (mk_rstate (run_call (render_error s) c s.(rs_world)) s.(rs_deps))
| step_settle id r s w' :
    settle_request u cfg query id r s.(rs_world) = Some w' ->
    step s (mk_rstate w' s.(rs_deps))
| step_render s :
    s.(rs_deps) <> Some (deps_of s.(rs_world)) -> step s (render s).

Definition init_state : rstate := mk_rstate (init_world u) None.

Definition reachable (s : rstate) : Prop := rtc step init_state s.

(** The steps the environment takes on its own, with no new call from a
    page: the backend answers a request, or React renders. *)
Inductive env_step : rstate -> rstate -> Prop :=
| env_settle id r s w' :
    settle_request u cfg query id r s.(rs_world) = Some w' ->
    env_step s (mk_rstate w' s.(rs_deps))
| env_render s :
    s.(rs_deps) <> Some (deps_of s.(rs_world)) -> env_step s (render s).

(** The requests a continuation can still cause, itself included: a CSRF
    request is followed by a post, a successful [register] or [login] post
    and a successful logout by a session fetch. *)
Definition cont_weight (k : cont) : nat :=
  match k with
  | KCsrf _ => 3
  | KPost HMutate | KLogoutPost _ _ => 2
  | KPost _ | KUserFetch _ => 1
  end.

Definition pending_weight w : nat := sum_list_with (λ p, cont_weight p.(p_cont)) w.(w_pending).

(** The counter of a world moves past the request just issued. *)
Definition bump w : world C :=
  mk_world w.(w_errors) w.(w_status) w.(w_loading) w.(w_cache) w.(w_nav) w.(w_pending)
    w.(w_unhandled) (S w.(w_next)) w.(w_errors_ref).

(** ** The invariant *)

(** A session fetch carries its request id as its SWR stamp. *)
Definition cont_ok (k : cont) (id : nat) : Prop :=
  match k with KUserFetch m => m = id | _ => True end.

(** Request ids are below the counter and distinct, session fetches are
    stamped with their id, and the latest fetch stamp was issued. *)
Definition wf_world w : Prop :=
  Forall (λ p, p.(p_id) < w.(w_next)) w.(w_pending) /\
  NoDup (p_id <$> w.(w_pending)) /\
  Forall (λ p, cont_ok p.(p_cont) p.(p_id)) w.(w_pending) /\
  (forall n, cache_latest w.(w_cache) = Some n -> n < w.(w_next)).

Lemma wf_frame w w' :
  w'.(w_pending) = w.(w_pending) -> w'.(w_next) = w.(w_next) ->
  cache_latest w'.(w_cache) = cache_latest w.(w_cache) -> wf_world w -> wf_world w'.
Proof. intros Hp Hn Hl (H1 & H2 & H3 & H4). unfold wf_world. rewrite Hp, Hn, Hl. done. Qed.

Lemma wf_set_errors e w : wf_world w -> wf_world (set_errors e w).
Proof. by apply wf_frame. Qed.
Lemma wf_set_status s w : wf_world w -> wf_world (set_status s w).
Proof. by apply wf_frame. Qed.
Lemma wf_set_loading b w : wf_world w -> wf_world (set_loading b w).
Proof. by apply wf_frame. Qed.
Lemma wf_navigate n w : wf_world w -> wf_world (navigate n w).
Proof. by apply wf_frame. Qed.
Lemma wf_reject r w : wf_world w -> wf_world (reject r w).
Proof. by apply wf_frame. Qed.

Lemma wf_issue rq k w : cont_ok k w.(w_next) -> wf_world w -> wf_world (issue rq k w).
Proof.
  intros Hk (H1 & H2 & H4 & H3). unfold wf_world, issue; simpl. split_and!.
  - apply Forall_app. split; [|constructor; [simpl; lia|done]].
    eapply Forall_impl; [exact H1|]. simpl. intros; lia.
  - rewrite fmap_app. simpl. apply NoDup_app. split_and!; [done| |apply NoDup_singleton].
    intros x Hx Hin%list_elem_of_singleton. subst x.
    apply list_elem_of_fmap in Hx as (p & Hpx & Hp).
    rewrite Forall_forall in H1. specialize (H1 p Hp). rewrite Hpx in H1. lia.
  - apply Forall_app. split; [done|]. by constructor.
  - intros n Hn. specialize (H3 n Hn). lia.
Qed.

Lemma wf_revalidate w : wf_world w -> wf_world (revalidate u w).
Proof.
  intros Hw.
  destruct (wf_issue (Get u.(apiPathUser)) (KUserFetch w.(w_next)) w eq_refl Hw)
    as (H1 & H2 & H4 & _).
  unfold revalidate, wf_world, issue, set_cache in *; simpl in *.
  split_and!; [done|done|done|]. rewrite cache_start_latest. intros n [= ->]. lia.
Qed.

Lemma wf_settle_cache n fr w :
  wf_world w -> wf_world (set_cache (cache_settle n fr w.(w_cache)) w).
Proof. apply wf_frame; [done|done|]. simpl. apply cache_settle_latest. Qed.

Create HintDb wf discriminated.
#[local] Hint Extern 1 (cont_ok _ _) => exact I : wf.
#[local] Hint Resolve wf_set_errors wf_set_status wf_set_loading wf_navigate wf_reject
  wf_issue wf_revalidate : wf.

Lemma wf_settle_user_fetch n o w : wf_world w -> wf_world (settle_user_fetch u cfg n o w).
Proof.
  intros Hw. unfold settle_user_fetch. destruct (fetcher_result u cfg o) as [fr navs].
  rewrite foldl_navigate. apply wf_frame with w; simpl; [done|done| |done].
  apply cache_settle_latest.
Qed.

Lemma wf_resume k o w : wf_world w -> wf_world (resume u cfg query k o w).
Proof.
  intros Hw. destruct k as [n|a|h|nu nq]; simpl.
  - by apply wf_settle_user_fetch.
  - destruct o; [destruct a; simpl; eauto with wf | eauto with wf].
  - unfold on_post, catch_validation.
    destruct h, o as [r|[r|]]; repeat case_match; eauto with wf.
  - destruct o; eauto with wf.
Qed.

Lemma wf_settle_request id r w w' :
  wf_world w -> settle_request u cfg query id r w = Some w' -> wf_world w'.
Proof.
  unfold settle_request. intros (H1 & H2 & H4 & H3) Hs.
  destruct (list_find _ _) as [[i p]|]; simplify_eq. apply wf_resume.
  unfold wf_world; simpl. split_and!.
  - by apply Forall_delete.
  - rewrite list_fmap_delete. eapply sublist_NoDup; [|apply sublist_delete]; done.
  - by apply Forall_delete.
  - done.
Qed.

Lemma wf_auth_effect w : wf_world w -> wf_world (auth_effect u cfg pathname query w).
Proof.
  intros Hw. unfold auth_effect, logout. repeat case_match; simpl; eauto with wf.
Qed.

Lemma wf_init : wf_world (init_world u).
Proof.
  apply wf_revalidate. unfold wf_world; simpl. rewrite cache_init_latest.
  split_and!; [constructor|constructor|constructor|done].
Qed.

Lemma wf_step s s' : step s s' -> wf_world s.(rs_world) -> wf_world s'.(rs_world).
Proof.
  destruct 1 as [c s|id r s w' Hs|s Hd]; simpl; intros Hw.
  - destruct c; simpl; eauto with wf; unfold logout; case_match; eauto with wf.
  - eauto using wf_settle_request.
  - apply wf_auth_effect. destruct (rs_deps s); eauto with wf.
Qed.

(** A commit of the hook's effect leaves its dependencies up to date: the
    effect changes neither the cache nor the [errors] array. *)
Lemma render_if_changed_settled s :
  (render_if_changed s).(rs_deps) = Some (deps_of s.(rs_world)) /\
  deps_of (render_if_changed s).(rs_world) = deps_of s.(rs_world) /\
  (render_if_changed s).(rs_world).(w_errors_ref) = s.(rs_world).(w_errors_ref).
Proof.
  unfold render_if_changed. case_bool_decide as Hd.
  - unfold render, auth_effect, auth_effect_cleanup, logout, deps_of.
    destruct (rs_deps s); simpl; repeat case_match; simpl; split_and!; congruence.
  - destruct (decide (rs_deps s = Some (deps_of (rs_world s)))); [done|]. by destruct Hd.
Qed.

(** ** Settling the request just issued *)

(** The backend answers a request [p] in flight: [p] leaves the list and its
    continuation runs. *)
Lemma settle_at id r pre p post w :
  w.(w_pending) = pre ++ p :: post -> Forall (λ q, q.(p_id) <> id) pre -> p.(p_id) = id ->
  settle_request u cfg query id r w =
  Some (resume u cfg query p.(p_cont) (settle r)
    (mk_world w.(w_errors) w.(w_status) w.(w_loading) w.(w_cache) w.(w_nav)
       (pre ++ post) w.(w_unhandled) w.(w_next) w.(w_errors_ref))).
Proof.
  intros Hw Hpre Hp. unfold settle_request. rewrite Hw, list_find_app_r.
  2:{ apply list_find_None. done. }
  simpl. rewrite decide_True by done. simpl.
  replace (0 + List.length pre) with (List.length pre) by lia.
  by rewrite delete_middle.
Qed.

Lemma settle_issued id rq k r w :
  Forall (λ p, p.(p_id) < w.(w_next)) w.(w_pending) -> id = w.(w_next) ->
  settle_request u cfg query id r (issue rq k w) =
  Some (resume u cfg query k (settle r) (bump w)).
Proof.
  intros H1 ->. rewrite (settle_at _ r w.(w_pending) (mk_pending w.(w_next) rq k) []); try done.
  - simpl. by rewrite app_nil_r.
  - eapply Forall_impl; [exact H1|]. simpl. lia.
Qed.

Lemma wf_bump w : wf_world w -> wf_world (bump w).
Proof.
  intros (H1 & H2 & H4 & H3). unfold wf_world, bump; simpl. split_and!; [|done|done|].
  - eapply Forall_impl; [exact H1|]. simpl. lia.
  - intros n Hn. specialize (H3 n Hn). lia.
Qed.

(** ** The invariant of reachable states *)

Lemma wf_rtc s s' : rtc step s s' -> wf_world s.(rs_world) -> wf_world s'.(rs_world).
Proof. induction 1; eauto using wf_step. Qed.

(** In every state reachable from the mount of the hook the requests in
    flight have distinct ids below the counter and the latest session fetch
    was issued: the hypothesis [wf_world] of the flows below holds. *)
Lemma reachable_wf (s : rstate) : reachable s -> wf_world s.(rs_world).
Proof. intros Hs. eapply wf_rtc; [exact Hs|apply wf_init]. Qed.

(** ** Whole flows *)

(** The requests in flight of [w] are below the counter of a later world
    that kept them. *)
Ltac ids_below Hw :=
  first [ done
        | destruct Hw as (Hids & _); simpl; eapply Forall_impl; [exact Hids|]; simpl; lia ].

Lemma wf_revalidate_settled w :
  wf_world w -> wf_world (bump (set_cache (cache_start w.(w_next) w.(w_cache)) w)).
Proof.
  intros (H1 & H2 & H4 & H3). unfold wf_world; simpl. split_and!; [|done|done|].
  - eapply Forall_impl; [exact H1|]. simpl. lia.
  - rewrite cache_start_latest. intros n [= ->]. lia.
Qed.

(** Settling anything but the latest session fetch keeps the user. *)
Lemma resume_keeps_data k o w :
  (forall m, k = KUserFetch m -> cache_latest w.(w_cache) <> Some m) ->
  cache_data (resume u cfg query k o w).(w_cache) = cache_data w.(w_cache).
Proof.
  intros Hk. destruct k as [m|a|h|nu nq]; simpl.
  - unfold settle_user_fetch. destruct (fetcher_result u cfg o) as [fr navs].
    rewrite foldl_navigate. simpl. rewrite cache_settle_stale; [done|].
    by apply Hk.
  - destruct o; [destruct a|]; done.
  - unfold on_post, catch_validation, revalidate.
    destruct h, o as [r|[r|]]; repeat case_match; simpl; rewrite ?cache_start_data; done.
  - unfold revalidate. destruct o; simpl; rewrite ?cache_start_data; done.
Qed.

(** C22: once the latest session fetch has settled, no other request in
    flight can change the user when it settles: a superseded fetch is
    ignored by the cache, and the other continuations only start new
    fetches. *)
Theorem settled_session_is_stable w id r w' (l : nat) :
  wf_world w -> cache_latest w.(w_cache) = Some l ->
  Forall (λ p, p.(p_id) <> l) w.(w_pending) ->
  settle_request u cfg query id r w = Some w' ->
  cache_data w'.(w_cache) = cache_data w.(w_cache).
Proof.
  intros (_ & _ & Hok & _) Hl Hne. unfold settle_request.
  destruct (list_find _ _) as [[i p]|] eqn:Hf; intros; simplify_eq.
  apply list_find_Some in Hf as (Hp & _ & _). rewrite resume_keeps_data; [done|].
  simpl. intros m Hm. rewrite Hl. intros [= <-].
  rewrite Forall_lookup in Hok, Hne. specialize (Hok _ _ Hp). specialize (Hne _ _ Hp).
  rewrite Hm in Hok. simpl in Hok. done.
Qed.

Lemma settle_ok (r : response) :
  (200 <= r.(res_status) < 300)%Z -> settle (Some r) = Fulfilled r.
Proof. intros Hr. simpl. by rewrite bool_decide_eq_true_2. Qed.

Lemma settle_fail (r : response) :
  ~ (200 <= r.(res_status) < 300)%Z -> settle (Some r) = Rejected (HttpError r).
Proof. intros Hr. simpl. by rewrite bool_decide_eq_false_2. Qed.

(** C1: a login whose CSRF request succeeds and whose post is answered 422
    with a Laravel error bag ends with the bag's messages, in order, in the
    caller's [errors], the status cleared, and no navigation, no new
    request, no change of the session and no unhandled rejection. *)
Theorem login_validation_flow (props data : jsval) (bag : list (string * jsval))
    (rc : response) w :
  wf_world w -> (200 <= rc.(res_status) < 300)%Z ->
  laravel_bag bag -> get_prop data "errors" = Some (JObj bag) ->
  exists w',
    (settle_request u cfg query w.(w_next) (Some rc) (login backend props w)
       ≫= settle_request u cfg query (S w.(w_next)) (Some (mk_response 422 data))) = Some w' /\
    w'.(w_errors) = flat (snd <$> bag) /\ w'.(w_status) = JNull /\ w'.(w_nav) = w.(w_nav) /\
    w'.(w_cache) = w.(w_cache) /\ w'.(w_pending) = w.(w_pending) /\
    w'.(w_unhandled) = w.(w_unhandled).
Proof.
  intros Hw Hrc Hbag Hdata. unfold login.
  rewrite settle_issued, settle_ok by (ids_below Hw). simpl.
  rewrite settle_issued by (ids_below Hw).
  simpl. rewrite (validation_errors_bag data bag) by done. by eexists.
Qed.

(** C2: a login whose three requests succeed (the CSRF cookie, the post,
    then the session fetch that the post's [mutate()] starts) ends with the
    new user in the session and no error, the caller's errors and status
    cleared, no navigation; from then on no settlement of an older request
    in flight can replace that user. *)
Theorem login_success_flow (props : jsval) (rc rp ru : response) w :
  wf_world w -> (200 <= rc.(res_status) < 300)%Z -> (200 <= rp.(res_status) < 300)%Z ->
  (200 <= ru.(res_status) < 300)%Z ->
  exists w',
    ((settle_request u cfg query w.(w_next) (Some rc) (login backend props w)
       ≫= settle_request u cfg query (S w.(w_next)) (Some rp))
       ≫= settle_request u cfg query (S (S w.(w_next))) (Some ru)) = Some w' /\
    cache_data w'.(w_cache) = ru.(res_data) /\ cache_error w'.(w_cache) = None /\
    w'.(w_errors) = [] /\ w'.(w_status) = JNull /\ w'.(w_nav) = w.(w_nav) /\
    w'.(w_pending) = w.(w_pending) /\
    (forall id r w'', settle_request u cfg query id r w' = Some w'' ->
       cache_data w''.(w_cache) = ru.(res_data)).
Proof.
  intros Hw Hc Hp Hu. unfold login.
  rewrite settle_issued, settle_ok by (ids_below Hw). simpl.
  rewrite settle_issued, settle_ok by (ids_below Hw). simpl. unfold revalidate.
  rewrite settle_issued, settle_ok by (ids_below Hw). simpl.
  unfold settle_user_fetch; simpl.
  set (W := set_cache (cache_start (S (S (w_next w))) (w_cache w))
              (bump (set_status JNull (set_errors [] (bump w))))).
  destruct (cache_settle_ok (S (S (w_next w))) (res_data ru) W.(w_cache))
    as [Hd He]; [apply cache_start_latest|].
  eexists. split; [reflexivity|]. simpl. split_and!; try done.
  intros id r w'' Hs.
  unshelve erewrite (settled_session_is_stable _ id r w'' (S (S (w_next w))) _ _ _ Hs).
  - apply (wf_settle_cache (S (S (w_next w))) (FetchOk (res_data ru)) (bump W)).
    apply (wf_revalidate_settled (bump (set_status JNull (set_errors [] (bump w))))).
    by apply wf_bump, wf_set_status, wf_set_errors, wf_bump.
  - simpl. rewrite cache_settle_latest. apply cache_start_latest.
  - destruct Hw as (Hids & _). simpl. eapply Forall_impl; [exact Hids|]. simpl. lia.
  - exact Hd.
Qed.

(** C23: when the CSRF request of a login fails, the async function rejects
    before [setErrors([])] runs: the errors of the previous attempt stay on
    screen, the status is not cleared, and the rejection is unhandled. *)
Theorem csrf_failure_keeps_errors (props : jsval) (r : option response) (e : axios_error) w :
  wf_world w -> settle r = Rejected e ->
  exists w', settle_request u cfg query w.(w_next) r (login backend props w) = Some w' /\
    w'.(w_errors) = w.(w_errors) /\ w'.(w_status) = w.(w_status) /\
    w'.(w_nav) = w.(w_nav) /\ w'.(w_pending) = w.(w_pending) /\
    w'.(w_unhandled) = w.(w_unhandled) ++ [RAxios e].
Proof.
  intros Hw Hr. unfold login. rewrite settle_issued by (ids_below Hw).
  rewrite Hr. by eexists.
Qed.

(** ** Renders *)

Lemma auth_effect_cache w : (auth_effect u cfg pathname query w).(w_cache) = w.(w_cache).
Proof. unfold auth_effect, logout. by repeat case_match. Qed.

(** The effect does not change its own dependencies, so a second render
    with no event in between runs no effect. *)
Lemma render_idempotent (s : rstate) :
  (render s).(rs_deps) = Some (deps_of (render s).(rs_world)).
Proof.
  unfold render, deps_of. cbn [rs_deps rs_world]. rewrite auth_effect_cache.
  by destruct (rs_deps s).
Qed.

(** ** Quiescence: the environment alone cannot run forever *)

Lemma env_step_step s s' : env_step s s' -> step s s'.
Proof. destruct 1; [by eapply step_settle|by apply step_render]. Qed.

(** What a continuation adds to the pending work is less than its own
    weight. *)
Lemma weight_resume k o w :
  pending_weight (resume u cfg query k o w) < pending_weight w + cont_weight k.
Proof.
  unfold pending_weight. destruct k as [n|a|h|nu nq]; simpl.
  - unfold settle_user_fetch. destruct (fetcher_result u cfg o). rewrite foldl_navigate. simpl. lia.
  - destruct o; [destruct a|]; simpl; rewrite ?sum_list_with_app; simpl; lia.
  - unfold on_post, catch_validation, revalidate.
    destruct h, o as [r|[r|]]; repeat case_match; simpl; rewrite ?sum_list_with_app; simpl; lia.
  - destruct o; simpl; rewrite ?sum_list_with_app; simpl; lia.
Qed.

Lemma weight_settle id r w w' :
  settle_request u cfg query id r w = Some w' -> pending_weight w' < pending_weight w.
Proof.
  unfold settle_request. destruct (list_find _ _) as [[i p]|] eqn:Hf; intros Hs; simplify_eq.
  apply list_find_Some in Hf as (Hp & _ & _).
  pose proof (sum_list_with_Permutation_proper (λ p, cont_weight p.(p_cont)) _ _
                (delete_Permutation _ _ _ Hp)) as Hsum.
  eapply Nat.lt_le_trans; [apply weight_resume|]. unfold pending_weight in *. simpl in *. lia.
Qed.

Lemma auth_effect_pending w :
  (auth_effect u cfg pathname query w).(w_pending) = w.(w_pending).
Proof.
  unfold auth_effect, logout.
  destruct (bool_decide (cfg_middleware cfg = MwGuest) && truthy (cache_data (w_cache w))); simpl;
    destruct (cache_error (w_cache w)); simpl; rewrite ?andb_false_r; by repeat case_match.
Qed.

Lemma render_pending s : (render s).(rs_world).(w_pending) = s.(rs_world).(w_pending).
Proof. unfold render. cbn [rs_world]. rewrite auth_effect_pending. by destruct (rs_deps s). Qed.

(** A state whose effect has just run can only move by a settlement. *)
Lemma acc_after_render s :
  s.(rs_deps) = Some (deps_of s.(rs_world)) ->
  (forall s', pending_weight s'.(rs_world) < pending_weight s.(rs_world) ->
     Acc (λ s2 s1, env_step s1 s2) s') ->
  Acc (λ s2 s1, env_step s1 s2) s.
Proof.
  intros Hd IH. constructor. intros s' Hst. destruct Hst as [id r s w' Hs|s Hne]; [|done].
  apply IH. simpl. by eapply weight_settle.
Qed.

(** C10: without a new call from a page, the hook settles down: from any
    state, every sequence of backend answers and renders is finite.  Each
    answer lowers the pending work (a CSRF request leads to one post, a
    post to at most one session fetch), and a render neither sends a
    request nor changes its own dependencies, so it cannot repeat. *)
Theorem env_steps_terminate (s : rstate) : Acc (λ s2 s1, env_step s1 s2) s.
Proof.
  remember (pending_weight s.(rs_world)) as n eqn:Hn.
  revert s Hn. induction n as [n IH] using lt_wf_ind. intros s Hn.
  constructor. intros s' Hst. destruct Hst as [id r s w' Hs|s Hne].
  - eapply IH; [|reflexivity]. subst n. by eapply weight_settle.
  - apply acc_after_render; [apply render_idempotent|].
    intros s'' Hlt. eapply IH; [|reflexivity].
    unfold pending_weight in *. rewrite render_pending in Hlt. lia.
Qed.

End Run.

(** ** Witnesses: default URLs, the SWR cache, the world of the mount *)

Lemma settled_session_is_stable_witness :
  exists w', settle_request (use_auth_urls ∅) (Build_use_auth_config MwAuth None) JNull 1
    (Some (mk_response 204 JNull))
    (mk_world [] JNull false (mk_swr (JObj [("name", JStr "Ada")]) None (Some 0)) []
       [mk_pending 1 (Get (csrf_url None)) (KCsrf (ALogin JNull))] [] 2 0) = Some w' /\
    cache_data w'.(w_cache) = JObj [("name", JStr "Ada")].
Proof.
  set (W := mk_world [] JNull false (mk_swr (JObj [("name", JStr "Ada")]) None (Some 0)) []
              [mk_pending 1 (Get (csrf_url None)) (KCsrf (ALogin JNull))] [] 2 0).
  destruct (settle_request (use_auth_urls ∅) (Build_use_auth_config MwAuth None) JNull 1
              (Some (mk_response 204 JNull)) W) as [w'|] eqn:Hs; [|discriminate Hs].
  exists w'. split; [done|].
  rewrite (settled_session_is_stable (use_auth_urls ∅) (Build_use_auth_config MwAuth None) JNull
             W 1 (Some (mk_response 204 JNull)) w' 0); [reflexivity| |reflexivity| |exact Hs].
  - unfold wf_world; simpl. split_and!; [by apply Forall_singleton; simpl; lia
      | apply NoDup_singleton | by apply Forall_singleton | intros n [= <-]; lia].
  - apply Forall_singleton. simpl. lia.
Defined.

Lemma login_validation_flow_witness :
  exists w',
    (settle_request (use_auth_urls ∅) (Build_use_auth_config MwGuest None) JNull 1
       (Some (mk_response 204 JNull)) (login None JNull (init_world (C:=swr) (use_auth_urls ∅)))
     ≫= settle_request (use_auth_urls ∅) (Build_use_auth_config MwGuest None) JNull 2
       (Some (mk_response 422 (JObj [("errors", JObj [("email",
          JArr [JStr "These credentials do not match our records."])])])))) = Some w' /\
    w'.(w_errors) = [JStr "These credentials do not match our records."].
Proof.
  destruct (login_validation_flow (use_auth_urls ∅) (Build_use_auth_config MwGuest None) None JNull
              JNull (JObj [("errors", JObj [("email",
                 JArr [JStr "These credentials do not match our records."])])])
              [("email", JArr [JStr "These credentials do not match our records."])]
              (mk_response 204 JNull) (init_world (use_auth_urls ∅)))
    as (w' & Hs & He & _).
  - apply wf_init.
  - simpl. lia.
  - by repeat constructor.
  - reflexivity.
  - exists w'. split; [exact Hs|]. rewrite He. reflexivity.
Defined.

Lemma login_success_flow_witness :
  exists w',
    ((settle_request (use_auth_urls ∅) (Build_use_auth_config MwGuest None) JNull 1
       (Some (mk_response 204 JNull)) (login None JNull (init_world (C:=swr) (use_auth_urls ∅)))
     ≫= settle_request (use_auth_urls ∅) (Build_use_auth_config MwGuest None) JNull 2
       (Some (mk_response 204 JNull)))
     ≫= settle_request (use_auth_urls ∅) (Build_use_auth_config MwGuest None) JNull 3
       (Some (mk_response 200 (JObj [("name", JStr "Ada")])))) = Some w' /\
    cache_data w'.(w_cache) = JObj [("name", JStr "Ada")].
Proof.
  destruct (login_success_flow (use_auth_urls ∅) (Build_use_auth_config MwGuest None) None JNull
              JNull (mk_response 204 JNull) (mk_response 204 JNull)
              (mk_response 200 (JObj [("name", JStr "Ada")])) (init_world (use_auth_urls ∅)))
    as (w' & Hs & Hd & _).
  - apply wf_init.
  - simpl. lia.
  - simpl. lia.
  - simpl. lia.
  - exists w'. split; [exact Hs|exact Hd].
Defined.

Lemma csrf_failure_keeps_errors_witness :
  exists w',
    settle_request (use_auth_urls ∅) (Build_use_auth_config MwGuest None) JNull 1
      (Some (mk_response 419 JNull)) (login None JNull (init_world (C:=swr) (use_auth_urls ∅))) =
      Some w' /\
    w'.(w_unhandled) = [RAxios (HttpError (mk_response 419 JNull))].
Proof.
  destruct (csrf_failure_keeps_errors (use_auth_urls ∅) (Build_use_auth_config MwGuest None) None
              JNull JNull (Some (mk_response 419 JNull)) (HttpError (mk_response 419 JNull))
              (init_world (use_auth_urls ∅)))
    as (w' & Hs & _ & _ & _ & _ & Hu).
  - apply wf_init.
  - reflexivity.
  - exists w'. split; [exact Hs|]. rewrite Hu. reflexivity.
Defined.




End Runtime.
