(* ===== verification/Pages.v ===== *)
(** * The form pages that use the hook

    - [LoginPage] (src/pages/example/login.tsx) models the hook
      configuration taken from [query.next_to], the status read from the
      [reset] query parameter, the loader, the submit handler, the inputs'
      handlers ([event], [handle]) and the view.
    - [ForgotPage] (src/pages/example/forgot-password.tsx) models the
      submit handler, the input's handler, the disabled state of the
      button and the view.
    - [VerifyPage] (src/pages/example/verify-email.tsx) models the redirect
      of a verified user, the loader, the resend and logout buttons and the
      view.

    A view is a record of what the page shows; [None] stands for the
    loader.  The pages keep their form fields and flags in React state.
    The [errors] and [status] they pass to the hook are the [w_errors] and
    [w_status] of the hook's world.  The theorems follow a value through
    hook and page together:
    - the reset status goes through [btoa], the URL and [atob];
    - [next_to] goes from logout back to the page the user left;
    - a submitted form is enabled again before its requests settle;
    - a forgot-password success disables the button;
    - the verify-email page reacts to the session fetch. *)

From S2P Require Import Prelude JsValue Config UriCodec Base64 Redirect Http Swr AuthHook Runtime.
From Stdlib Require Import ZArith String Ascii.

Module Pages.

Import Config UriCodec Base64 Redirect Http Swr AuthHook Runtime.
Local Open Scope js_scope.

(** [errors.length && !submitting ? errors[0] : ''] *)
Definition shown_error (errors : list jsval) (submitting : bool) : option jsval :=
  match errors with
  | e :: _ => if submitting then None else Some e
  | [] => None
  end.

(** [x.length] of a query value ([string] or [string[]]). *)
Definition js_length (v : jsval) : nat :=
  match v with
  | JStr s => String.length s
  | JArr l => List.length l
  | _ => 0
  end.

(** [status && <div>{status}</div>]: the status line, when [status] is
    truthy. *)
Definition shown_status (status : jsval) : option jsval :=
  if truthy status then Some status else None.

(** The picture of a form page for the colour mode:
    [mode === 'dark' ? dark : light]. *)
Definition image_for (mode dark light : string) : string :=
  if String.eqb mode "dark" then dark else light.

Module LoginPage.

Record state := mk_state {
  showLoader : bool;
  submitting : bool;
  email : string;
  password : string
}.

(** Lines 15 and 23-25. *)
Definition init : state := mk_state true false "" "".

(** Lines 17-21: the page's configuration of the hook,
    [{ middleware: 'guest', redirectIfAuthenticated: query.next_to as string }].
    A repeated [next_to] is an array, which the hook would then search and
    concatenate with array methods; that case is outside the model
    ([None]). *)
Definition auth_config (query : jsval) : option use_auth_config :=
  match get_prop query "next_to" with
  | Some (JStr s) => Some {| cfg_middleware := MwGuest; cfg_redirectIfAuthenticated := Some s |}
  | Some JUndefined => Some {| cfg_middleware := MwGuest; cfg_redirectIfAuthenticated := None |}
  | _ => None
  end.

(** Lines 29-36: the status the page sets from its query; [None] is the
    exception [atob] throws on a malformed parameter. *)
Definition status_effect (query : jsval) (errors : list jsval) : option jsval :=
  let reset :=
    if truthy query then
      match get_prop query "reset" with
      | Some v => if truthy v then v else JStr ""
      | None => JStr ""
      end
    else JStr "" in
  if bool_decide (0 < js_length reset)%nat && bool_decide (errors = [])
  then JStr <$> atob (js_to_string reset)
  else Some JNull.

(** Lines 38-46: the loader disappears once the session is known to be
    absent. *)
Definition loader_effect (loading : bool) (user : jsval) : bool :=
  negb (negb loading && negb (truthy user)).

(** Lines 48-54: [setSubmittingState(true)], [login(...)] not awaited,
    [setSubmittingState(false)]; React applies both updates of the handler
    together, so the next render sees [false]. *)
Definition submit {C} `{SessionCache C} (backend : option string) (p : state) (w : world C)
  : state * world C :=
  (mk_state p.(showLoader) false p.(email) p.(password),
   login backend (JObj [("email", JStr p.(email)); ("password", JStr p.(password))]) w).

(** Line 114: the button is disabled while [submitting]. *)
Definition button_disabled (p : state) : bool := p.(submitting).

(** Lines 97 and 109: the inputs' [onChange] handlers. *)
Inductive event := EmailChanged (v : string) | PasswordChanged (v : string).

Definition handle (p : state) (e : event) : state :=
  match e with
  | EmailChanged v => mk_state p.(showLoader) p.(submitting) v p.(password)
  | PasswordChanged v => mk_state p.(showLoader) p.(submitting) p.(email) v
  end.

(** What the form shows. *)
Record form_view := mk_form_view {
  fv_image : string;
  fv_error : option jsval;
  fv_status : option jsval;
  fv_email : string;
  fv_password : string;
  fv_disabled : bool;
  fv_links : list string
}.

(** Lines 56-140: the loader while [showLoader] ([None]), otherwise the
    form: the picture, the error line, the status line, the two inputs,
    the button, and the links of lines 120-133. *)
Definition view (p : state) (errors : list jsval) (status : jsval) (mode : string)
  : option form_view :=
  if p.(showLoader) then None
  else Some (mk_form_view
    (image_for mode "/assets/img/login-office-dark.jpeg" "/assets/img/login-office.jpeg")
    (shown_error errors p.(submitting)) (shown_status status)
    p.(email) p.(password) (button_disabled p)
    ["/example/forgot-password"; "/example/create-account"]).

End LoginPage.

Module ForgotPage.

Record state := mk_state { submitting : bool; email : string }.

(** Lines 14-15. *)
Definition init : state := mk_state false "".

(** Lines 19-25: [setSubmittingState(true)], [forgotPassword(...)] not
    awaited, [setSubmittingState(false)]. *)
Definition submit {C} `{SessionCache C} (backend : option string) (p : state) (w : world C)
  : state * world C :=
  (mk_state false p.(email), forgotPassword backend (JStr p.(email)) w).

(** Line 64: [submitting || (status !== null && errors.length === 0)]. *)
Definition button_disabled (p : state) (status : jsval) (errors : list jsval) : bool :=
  p.(submitting) || (bool_decide (status <> JNull) && bool_decide (errors = [])).

(** Line 61: the input's [onChange]. *)
Definition email_changed (p : state) (v : string) : state := mk_state p.(submitting) v.

Record form_view := mk_form_view {
  fv_image : string;
  fv_error : option jsval;
  fv_status : option jsval;
  fv_email : string;
  fv_disabled : bool
}.

(** Lines 27-66: the picture, the error line, the status line, the input
    and the button. *)
Definition view (p : state) (errors : list jsval) (status : jsval) (mode : string) : form_view :=
  mk_form_view
    (image_for mode "/assets/img/forgot-password-office-dark.jpeg"
       "/assets/img/forgot-password-office.jpeg")
    (shown_error errors p.(submitting)) (shown_status status) p.(email)
    (button_disabled p status errors).

End ForgotPage.

Module VerifyPage.

Record state := mk_state { submitting : bool }.

(** Lines 23-27: after every render, a verified user goes to the
    dashboard. *)
Definition redirect_effect (u : auth_urls) (errors : list jsval) (user : jsval) : option nav :=
  if bool_decide (errors = []) && truthy user &&
     truthy (default JUndefined (get_prop user "email_verified_at"))
  then Some (RouterPush u.(redirectedUrl) None)
  else None.

(** Line 29: the loader while loading or logged in. *)
Definition shows_loader (loading : bool) (user : jsval) : bool := loading || truthy user.

(** Lines 70-74. *)
Definition resend {C} `{SessionCache C} (u : auth_urls) (p : state) (w : world C)
  : state * world C :=
  (mk_state false, resendEmailVerification u w).

(** Line 75. *)
Definition resend_disabled (p : state) (status : jsval) : bool :=
  p.(submitting) || bool_decide (status = JStr "verification-link-sent").

(** Line 83: the [Logout] button calls [logout()] with no arguments;
    [error] is the fetch error of the render the button belongs to. *)
Definition click_logout {C} `{SessionCache C} (u : auth_urls) (error : option reason) (w : world C)
  : world C :=
  logout u error None JUndefined w.

Record page_view := mk_page_view {
  pv_image : string;
  pv_error : option jsval;
  pv_link_sent : bool;
  pv_resend_disabled : bool
}.

(** Lines 20-86: the loader while loading or logged in ([None]),
    otherwise the picture, the error line, the "link sent" message when
    [status === 'verification-link-sent'], and the resend button. *)
Definition view (p : state) (loading : bool) (user : jsval) (errors : list jsval)
    (status : jsval) (mode : string) : option page_view :=
  if shows_loader loading user then None
  else Some (mk_page_view
    (image_for mode "/assets/img/mailbox-dark.jpg" "/assets/img/mailbox.jpg")
    (shown_error errors p.(submitting))
    (bool_decide (status = JStr "verification-link-sent"))
    (resend_disabled p status)).

End VerifyPage.

(** ** The status message of a password reset *)

(** The query of the login page the reset handler opens: the query
    parser reads every ['+'] of the base64 text as a space. *)
Lemma reset_query_plus (login : string) (s : string) :
  char_in "?"%char login = false -> char_in "#"%char login = false ->
  router_query (login +:+ "?reset=" +:+ btoa s) =
  Some (JObj [("reset", JStr (plus_to_space (btoa s)))]).
Proof.
  intros Hq Hh. unfold router_query.
  change ("?reset=" +:+ btoa s) with (String "?" ("reset=" +:+ btoa s)).
  rewrite search_of_login_url; [|done|done|].
  2:{ rewrite char_in_app. by rewrite btoa_no_char. }
  change ("reset=" +:+ btoa s) with ("reset" +:+ String "=" (btoa s)).
  rewrite form_parse_one; [|done|by apply btoa_no_char|done].
  rewrite (form_decode_no_pct (btoa s)); [|by apply btoa_no_char]. reflexivity.
Qed.

(** The same query when the base64 text has no ['+']. *)
Lemma reset_query (login : string) (s : string) :
  char_in "?"%char login = false -> char_in "#"%char login = false -> char_in "+"%char (btoa s) = false ->
  router_query (login +:+ "?reset=" +:+ btoa s) = Some (JObj [("reset", JStr (btoa s))]).
Proof. intros Hq Hh Hp. rewrite reset_query_plus by done. by rewrite plus_to_space_absent. Qed.

(** The login page's status effect on a query whose [reset] is a non-empty string,
    before any error: [atob] of that string. *)
Lemma status_effect_reset q r :
  get_prop q "reset" = Some (JStr r) -> r <> "" ->
  LoginPage.status_effect q [] = JStr <$> atob r.
Proof.
  intros Hg Hne. unfold LoginPage.status_effect.
  destruct q as [| | | | | |ps]; try (simpl in Hg; discriminate). rewrite Hg.
  destruct r as [|c r]; [done|]. cbn -[atob]. done.
Qed.

Section Reset.

Context {C : Type} `{SessionCacheLaws C}.

(** C4: when the reset-password post succeeds with a status message [s],
    the handler opens the login page with [?reset=btoa(s)], and that page
    shows [s] again, provided the base64 text has no ['+'] (which the query
    parser reads as a space) and the login URL has no query or fragment of
    its own. *)
Theorem reset_status_shown (u : auth_urls) (data : jsval) (s : string) (w : world C) :
  char_in "?"%char u.(loginUrl) = false -> char_in "#"%char u.(loginUrl) = false ->
  get_prop data "status" = Some (JStr s) -> s <> "" -> char_in "+"%char (btoa s) = false ->
  exists t,
    (on_post u HReset (Fulfilled (mk_response 200 data)) w).(w_nav) =
      w.(w_nav) ++ [RouterPush t None] /\
    (router_query t ≫= λ q, LoginPage.status_effect q []) = Some (JStr s).
Proof.
  intros Hq Hh Hs Hne Hp. exists (u.(loginUrl) +:+ "?reset=" +:+ btoa s).
  split; [simpl; by rewrite Hs|].
  rewrite reset_query by done.
  pose proof (atob_btoa s) as Ha. apply btoa_nonempty in Hne. revert Ha Hne.
  generalize (btoa s). intros [|c b] Ha Hne; [done|].
  unfold LoginPage.status_effect. cbn -[atob]. rewrite !decide_True by done. cbn -[atob].
  rewrite bool_decide_eq_true_2 by lia. by rewrite Ha.
Qed.

(** C5: a message whose base64 text contains a ['+'] never comes back:
    the reset handler opens the login page with [?reset=btoa(s)], the
    query parser reads the ['+'] as a space, and [atob], which drops
    whitespace, either throws or decodes fewer characters than [s] had,
    so the login page never shows [s]. *)
Theorem reset_status_plus_lost (u : auth_urls) (data : jsval) (s : string) (w : world C) :
  char_in "?"%char u.(loginUrl) = false -> char_in "#"%char u.(loginUrl) = false ->
  get_prop data "status" = Some (JStr s) -> char_in "+"%char (btoa s) = true ->
  exists t,
    (on_post u HReset (Fulfilled (mk_response 200 data)) w).(w_nav) =
      w.(w_nav) ++ [RouterPush t None] /\
    router_query t = Some (JObj [("reset", JStr (plus_to_space (btoa s)))]) /\
    (router_query t ≫= λ q, LoginPage.status_effect q []) <> Some (JStr s).
Proof.
  intros Hq Hh Hs Hp. exists (u.(loginUrl) +:+ "?reset=" +:+ btoa s).
  split; [simpl; by rewrite Hs|]. rewrite reset_query_plus by done. split; [done|].
  simpl. rewrite (status_effect_reset _ (plus_to_space (btoa s))) by
    (done || (destruct (btoa s); [done|discriminate])).
  destruct (atob (plus_to_space (btoa s))) as [m|] eqn:Ha; [|done]. simpl. intros [= ->].
  by apply (atob_plus_to_space_btoa s).
Qed.

End Reset.

(** ** Submitting the forms *)

Section Submit.

Context {C : Type} `{SessionCacheLaws C}.
Variable u : auth_urls.
Variable cfg : use_auth_config.
Variable backend : option string.
Variable query : jsval.

Implicit Types w : world C.

Lemma fresh_ids w m :
  wf_world w -> w.(w_next) <= m -> Forall (λ q, q.(p_id) <> m) w.(w_pending).
Proof. intros (Hids & _) Hm. eapply Forall_impl; [exact Hids|]. simpl. lia. Qed.

(** C26: the login form is enabled again as soon as it is submitted, while
    its requests are in flight; a second click sends a second login: once
    both CSRF requests succeed, two login posts are in flight. *)
Theorem login_double_submit (p : LoginPage.state) (rc1 rc2 : response) w :
  wf_world w -> (200 <= rc1.(res_status) < 300)%Z -> (200 <= rc2.(res_status) < 300)%Z ->
  let props := JObj [("email", JStr p.(LoginPage.email)); ("password", JStr p.(LoginPage.password))] in
  let s1 := LoginPage.submit backend p w in
  let s2 := LoginPage.submit backend s1.1 s1.2 in
  LoginPage.button_disabled s1.1 = false /\ LoginPage.button_disabled s2.1 = false /\
  exists w',
    (settle_request u cfg query w.(w_next) (Some rc1) s2.2
       ≫= settle_request u cfg query (S w.(w_next)) (Some rc2)) = Some w' /\
    w'.(w_pending) = w.(w_pending) ++
      [mk_pending (S (S w.(w_next))) (Post u.(apiPathLogin) props) (KPost HMutate);
       mk_pending (S (S (S w.(w_next)))) (Post u.(apiPathLogin) props) (KPost HMutate)].
Proof.
  intros Hw H1 H2. simpl. split_and!; [done|done|].
  unfold login. erewrite (settle_at u cfg query _ _ w.(w_pending) _ [_]);
    [|simpl; rewrite <- app_assoc; reflexivity|apply fresh_ids; [done|lia]|done].
  rewrite settle_ok by done. simpl.
  erewrite (settle_at u cfg query _ _ w.(w_pending) _ [_]);
    [|simpl; rewrite <- app_assoc; reflexivity
     |apply fresh_ids; [done|lia]|done].
  rewrite settle_ok by done. simpl. eexists. split; [done|]. simpl. by rewrite <- app_assoc.
Qed.

(** C30: when the forgot-password flow succeeds (the CSRF request, then
    the post answered with a [status]), the page shows the backend's status
    with no errors, and its button stays disabled: the link cannot be sent
    again without reloading the page. *)
Theorem forgot_success_disables_button (p : ForgotPage.state) (rc rp : response) (st : jsval) w :
  wf_world w -> (200 <= rc.(res_status) < 300)%Z -> (200 <= rp.(res_status) < 300)%Z ->
  get_prop rp.(res_data) "status" = Some st -> st <> JNull ->
  let s1 := ForgotPage.submit backend p w in
  exists w',
    (settle_request u cfg query w.(w_next) (Some rc) s1.2
       ≫= settle_request u cfg query (S w.(w_next)) (Some rp)) = Some w' /\
    w'.(w_status) = st /\ w'.(w_errors) = [] /\
    ForgotPage.button_disabled s1.1 w'.(w_status) w'.(w_errors) = true.
Proof.
  intros Hw Hc Hp Hs Hne. simpl. unfold forgotPassword.
  rewrite settle_issued, settle_ok by (done || by destruct Hw). simpl.
  rewrite settle_issued, settle_ok by (done || (destruct Hw as (Hids & _); simpl;
    eapply Forall_impl; [exact Hids|]; simpl; lia)). simpl.
  rewrite Hs. eexists. split; [done|]. simpl. split_and!; [done|done|].
  unfold ForgotPage.button_disabled. simpl. by rewrite !bool_decide_eq_true_2.
Qed.

(** C28: on the verify-email page, a successful session fetch sends the
    user to the dashboard exactly when it returns a user whose
    [email_verified_at] is set; when it is answered 409 (unverified), the
    session is empty, the page stays, and once loading is over it shows
    its content. *)
Theorem verify_page_after_fetch (n : nat) (data : jsval) (st : Z) w :
  cache_latest w.(w_cache) = Some n -> (200 <= st < 300)%Z ->
  (VerifyPage.redirect_effect u []
     (cache_data (settle_user_fetch u cfg n (settle (Some (mk_response st data))) w).(w_cache)) =
     Some (RouterPush u.(redirectedUrl) None) <->
   truthy data = true /\ truthy (default JUndefined (get_prop data "email_verified_at")) = true) /\
  let w' := settle_user_fetch u cfg n (settle (Some (mk_response 409 data))) w in
  VerifyPage.redirect_effect u [] (cache_data w'.(w_cache)) = None /\
  VerifyPage.shows_loader false (cache_data w'.(w_cache)) = false.
Proof.
  intros Hn Hst. rewrite settle_ok by done. split.
  - unfold settle_user_fetch. simpl. destruct (cache_settle_ok n data w.(w_cache) Hn) as [-> _].
    unfold VerifyPage.redirect_effect. simpl.
    destruct (truthy data), (truthy (default _ _)); simpl; intuition congruence.
  - simpl. unfold settle_user_fetch. simpl.
    destruct (cache_settle_ok n JUndefined w.(w_cache) Hn) as [-> _]. done.
Qed.

(** C18: when a login is answered 422, the login page shows the first
    message of the first field of the Laravel error bag, since the form is
    no longer submitting. *)
Theorem login_422_shows_first_message (p : LoginPage.state) (rc : response)
    (field m : string) (ms : list jsval) (rest : list (string * jsval)) w :
  wf_world w -> (200 <= rc.(res_status) < 300)%Z ->
  laravel_bag ((field, JArr (JStr m :: ms)) :: rest) ->
  let s1 := LoginPage.submit backend p w in
  exists w',
    (settle_request u cfg query w.(w_next) (Some rc) s1.2
       ≫= settle_request u cfg query (S w.(w_next))
            (Some (mk_response 422
               (JObj [("errors", JObj ((field, JArr (JStr m :: ms)) :: rest))])))) = Some w' /\
    shown_error w'.(w_errors) s1.1.(LoginPage.submitting) = Some (JStr m).
Proof.
  intros Hw Hc Hbag. simpl. unfold login.
  rewrite settle_issued, settle_ok by (done || by destruct Hw). simpl.
  rewrite settle_issued by (done || (destruct Hw as (Hids & _); simpl;
    eapply Forall_impl; [exact Hids|]; simpl; lia)). simpl.
  rewrite own_property_order_bag by done. by eexists.
Qed.

(** C27: the resend button of the verify-email page posts at once, with no
    CSRF request before it; when the backend answers with the status
    [verification-link-sent], the page disables the button. *)
Theorem resend_flow (p : VerifyPage.state) (r : response) w :
  wf_world w -> (200 <= r.(res_status) < 300)%Z ->
  get_prop r.(res_data) "status" = Some (JStr "verification-link-sent") ->
  let s1 := VerifyPage.resend u p w in
  s1.2.(w_pending) =
    w.(w_pending) ++ [mk_pending w.(w_next) (Post u.(apiPathVerifyEmail) JUndefined) (KPost HResend)] /\
  exists w', settle_request u cfg query w.(w_next) (Some r) s1.2 = Some w' /\
    VerifyPage.resend_disabled s1.1 w'.(w_status) = true.
Proof.
  intros Hw Hr Hs. split; [done|]. simpl. unfold resendEmailVerification.
  rewrite settle_issued, settle_ok by (done || by destruct Hw). simpl.
  rewrite Hs. eexists. split; [done|]. done.
Qed.

End Submit.

(** ** Returning after a forced logout *)

Lemma return_path_nonempty n q : n <> "" -> return_path n q <> "".
Proof. unfold return_path. destruct n; done. Qed.

Section Return.

Context {C : Type} `{SessionCacheLaws C}.

(** C7: after a forced logout from a page other than the login and
    verify-email pages, the login page opens with exactly one query
    parameter [next_to], equal to the path and query the user left; the
    page hands it to the hook as [redirectIfAuthenticated], so once a user
    is logged in, the effect sends the browser back to that path and
    query, with the [logged=1] marker. *)
Theorem logout_then_login_returns (u : auth_urls) (n : string) (q : jsval) (lp : string)
    (w : world C) :
  char_in "?"%char u.(loginUrl) = false -> char_in "#"%char u.(loginUrl) = false ->
  n <> "" -> (n @@ u.(loginUrl) < 0)%Z -> (n @@ u.(verifyEmailUrl) < 0)%Z ->
  truthy (cache_data w.(w_cache)) = true ->
  let q' := JObj [("next_to", JStr (return_path n q))] in
  router_query (logout_target u (Some n) q) = Some q' /\
  exists cfg, LoginPage.auth_config q' = Some cfg /\
    (auth_effect u cfg lp q' w).(w_nav) =
      w.(w_nav) ++ [RouterPush (guest_redirect_target (return_path n q))
                      (Some (return_path n q))].
Proof.
  intros Hq Hh Hn Hl Hv Hu q'. split; [by apply logout_target_query|].
  eexists. split; [reflexivity|].
  unfold auth_effect, redirect_url, redirect_if_authenticated_url. simpl.
  rewrite bool_decide_eq_false_2 by (by apply return_path_nonempty). rewrite Hu. done.
Qed.

(** C9: the login page follows any [next_to] it is given (an open
    redirect): for every non-empty target [t], a logged-in user who opens
    the login page with [?next_to=] and [t] encoded gets [t] back from the
    router, the page hands it to the hook as [redirectIfAuthenticated],
    and the effect pushes a URL that starts with [t], whatever the origin
    [t] names. *)
Theorem login_next_to_open_redirect (u : auth_urls) (lp t : string) (w : world C) :
  char_in "?"%char lp = false -> char_in "#"%char lp = false -> t <> "" ->
  truthy (cache_data w.(w_cache)) = true ->
  let q := JObj [("next_to", JStr t)] in
  router_query (lp +:+ "?next_to=" +:+ encodeURIComponent t) = Some q /\
  LoginPage.auth_config q = Some (Build_use_auth_config MwGuest (Some t)) /\
  (auth_effect u (Build_use_auth_config MwGuest (Some t)) lp q w).(w_nav) =
    w.(w_nav) ++ [RouterPush (guest_redirect_target t) (Some t)] /\
  starts_with t (guest_redirect_target t) = true.
Proof.
  intros Hq Hh Ht Hu q. split_and!; [by apply next_to_query|done| |].
  - unfold auth_effect, redirect_url, redirect_if_authenticated_url. simpl.
    rewrite bool_decide_eq_false_2 by done. rewrite Hu. done.
  - unfold guest_redirect_target. apply starts_with_app_l.
Qed.

Lemma auth_config_guest q cfg : LoginPage.auth_config q = Some cfg -> cfg.(cfg_middleware) = MwGuest.
Proof. unfold LoginPage.auth_config. intros Hq. repeat case_match; by simplify_eq. Qed.

(** C19: on the login page, a logged-in visitor never sees the form: the
    effect of a render with a user keeps the loader and pushes the redirect
    target, whatever [next_to] the page was given. *)
Theorem login_page_keeps_loader_for_user (u : auth_urls) (q : jsval) (lp : string)
    (cfg : use_auth_config) (w : world C) :
  LoginPage.auth_config q = Some cfg -> truthy (cache_data w.(w_cache)) = true ->
  let w' := auth_effect u cfg lp q w in
  LoginPage.loader_effect w'.(w_loading) (cache_data w'.(w_cache)) = true /\
  w'.(w_nav) = w.(w_nav) ++ [RouterPush (guest_redirect_target (redirect_url u cfg))
                               (Some (redirect_url u cfg))].
Proof.
  intros Hq Hu. apply auth_config_guest in Hq.
  unfold auth_effect, LoginPage.loader_effect. rewrite Hq, Hu. simpl. by rewrite Hu.
Qed.

End Return.

(** ** Witnesses: default URLs, the SWR cache, the world of the mount *)

Lemma reset_status_shown_witness :
  exists t,
    (on_post (use_auth_urls ∅) HReset
       (Fulfilled (mk_response 200 (JObj [("status", JStr "Your password has been reset!")])))
       (init_world (C:=swr) (use_auth_urls ∅))).(w_nav) = [RouterPush t None] /\
    (router_query t ≫= λ q, LoginPage.status_effect q []) =
      Some (JStr "Your password has been reset!").
Proof.
  destruct (reset_status_shown (use_auth_urls ∅)
              (JObj [("status", JStr "Your password has been reset!")])
              "Your password has been reset!" (init_world (C:=swr) (use_auth_urls ∅)))
    as (t & Hn & Hq).
  - reflexivity.
  - reflexivity.
  - reflexivity.
  - discriminate.
  - vm_compute. reflexivity.
  - exists t. rewrite Hn. split; [reflexivity|exact Hq].
Defined.

Lemma login_double_submit_witness :
  exists w',
    (settle_request (use_auth_urls ∅) (Build_use_auth_config MwGuest None) JNull 1
       (Some (mk_response 204 JNull))
       (LoginPage.submit None
          (LoginPage.submit None (LoginPage.mk_state false false "ada@example.com" "secret")
             (init_world (C:=swr) (use_auth_urls ∅))).1
          (LoginPage.submit None (LoginPage.mk_state false false "ada@example.com" "secret")
             (init_world (C:=swr) (use_auth_urls ∅))).2).2
     ≫= settle_request (use_auth_urls ∅) (Build_use_auth_config MwGuest None) JNull 2
       (Some (mk_response 204 JNull))) = Some w' /\
    List.length w'.(w_pending) = 3.
Proof.
  pose proof (login_double_submit (use_auth_urls ∅) (Build_use_auth_config MwGuest None) None JNull
                (LoginPage.mk_state false false "ada@example.com" "secret")
                (mk_response 204 JNull) (mk_response 204 JNull)
                (init_world (use_auth_urls ∅)) (wf_init _) ltac:(simpl; lia) ltac:(simpl; lia)) as Hc.
  cbv zeta in Hc. destruct Hc as (_ & _ & w' & Hs & Hp).
  exists w'. split; [exact Hs|]. rewrite Hp. reflexivity.
Defined.

Lemma forgot_success_disables_button_witness :
  exists w',
    (settle_request (use_auth_urls ∅) (Build_use_auth_config MwGuest None) JNull 1
       (Some (mk_response 204 JNull))
       (ForgotPage.submit None (ForgotPage.mk_state false "ada@example.com")
          (init_world (C:=swr) (use_auth_urls ∅))).2
     ≫= settle_request (use_auth_urls ∅) (Build_use_auth_config MwGuest None) JNull 2
       (Some (mk_response 200 (JObj [("status", JStr "We have emailed your password reset link.")]))))
      = Some w' /\
    w'.(w_status) = JStr "We have emailed your password reset link.".
Proof.
  pose proof (forgot_success_disables_button (use_auth_urls ∅) (Build_use_auth_config MwGuest None)
                None JNull (ForgotPage.mk_state false "ada@example.com")
                (mk_response 204 JNull)
                (mk_response 200 (JObj [("status", JStr "We have emailed your password reset link.")]))
                (JStr "We have emailed your password reset link.")
                (init_world (use_auth_urls ∅)) (wf_init _) ltac:(simpl; lia) ltac:(simpl; lia)
                ltac:(reflexivity) ltac:(discriminate)) as Hc.
  cbv zeta in Hc. destruct Hc as (w' & Hs & Hst & _).
  exists w'. split; [exact Hs|exact Hst].
Defined.

Lemma verify_page_after_fetch_witness :
  VerifyPage.redirect_effect (use_auth_urls ∅) []
    (cache_data (settle_user_fetch (use_auth_urls ∅) (Build_use_auth_config MwAuth None) 0
       (settle (Some (mk_response 200
          (JObj [("name", JStr "Ada"); ("email_verified_at", JStr "2024-01-01")]))))
       (init_world (C:=swr) (use_auth_urls ∅))).(w_cache)) =
  Some (RouterPush "/example" None).
Proof.
  destruct (verify_page_after_fetch (use_auth_urls ∅) (Build_use_auth_config MwAuth None) 0
              (JObj [("name", JStr "Ada"); ("email_verified_at", JStr "2024-01-01")])
              200 (init_world (C:=swr) (use_auth_urls ∅)))
    as [H _]; [reflexivity|lia|].
  apply H. split; reflexivity.
Defined.

Lemma logout_then_login_returns_witness :
  exists cfg,
    LoginPage.auth_config (JObj [("next_to", JStr "/example/profile?tab=a%20b")]) = Some cfg /\
    (auth_effect (use_auth_urls ∅) cfg "/example/login"
       (JObj [("next_to", JStr "/example/profile?tab=a%20b")])
       (set_cache (mk_swr (JObj [("name", JStr "Ada")]) None (Some 0))
          (init_world (use_auth_urls ∅)))).(w_nav) =
    [RouterPush "/example/profile?tab=a%20b&logged=1" (Some "/example/profile?tab=a%20b")].
Proof.
  set (U := use_auth_urls ∅).
  pose proof (logout_then_login_returns U "/example/profile"
                (JObj [("tab", JStr "a b")]) "/example/login"
                (set_cache (mk_swr (JObj [("name", JStr "Ada")]) None (Some 0)) (init_world U))
                ltac:(reflexivity) ltac:(reflexivity) ltac:(discriminate)
                ltac:(vm_compute; reflexivity) ltac:(vm_compute; reflexivity) ltac:(reflexivity))
    as Hc.
  cbv zeta in Hc. destruct Hc as [_ (cfg & Hc & Hn)].
  exists cfg. split; [exact Hc|]. etransitivity; [exact Hn|reflexivity].
Defined.

Lemma login_next_to_open_redirect_witness :
  router_query ("/example/login?next_to=" +:+ encodeURIComponent "https://evil.example/") =
    Some (JObj [("next_to", JStr "https://evil.example/")]) /\
  (auth_effect (use_auth_urls ∅) (Build_use_auth_config MwGuest (Some "https://evil.example/"))
     "/example/login" (JObj [("next_to", JStr "https://evil.example/")])
     (set_cache (C:=swr) (mk_swr (JObj [("name", JStr "Ada")]) None (Some 0))
        (init_world (use_auth_urls ∅)))).(w_nav) =
    [RouterPush "https://evil.example/?logged=1" (Some "https://evil.example/")].
Proof.
  set (W := set_cache (C:=swr) (mk_swr (JObj [("name", JStr "Ada")]) None (Some 0))
              (init_world (use_auth_urls ∅))).
  pose proof (login_next_to_open_redirect (use_auth_urls ∅) "/example/login"
                "https://evil.example/" W) as Hc.
  specialize (Hc eq_refl eq_refl ltac:(discriminate) eq_refl). cbv zeta in Hc.
  destruct Hc as (Hr & _ & Hn & _). split; [exact Hr|].
  etransitivity; [exact Hn|vm_compute; reflexivity].
Defined.

Lemma login_422_shows_first_message_witness :
  exists w',
    (settle_request (use_auth_urls ∅) (Build_use_auth_config MwGuest None) JNull 1
       (Some (mk_response 204 JNull))
       (LoginPage.submit None (LoginPage.mk_state false true "ada@example.com" "")
          (init_world (C:=swr) (use_auth_urls ∅))).2
     ≫= settle_request (use_auth_urls ∅) (Build_use_auth_config MwGuest None) JNull 2
       (Some (mk_response 422 (JObj [("errors", JObj
          [("password", JArr [JStr "The password field is required."])])])))) = Some w' /\
    shown_error w'.(w_errors) false = Some (JStr "The password field is required.").
Proof.
  pose proof (login_422_shows_first_message (use_auth_urls ∅) (Build_use_auth_config MwGuest None)
                None JNull (LoginPage.mk_state false true "ada@example.com" "")
                (mk_response 204 JNull) "password" "The password field is required." [] []
                (init_world (use_auth_urls ∅)) (wf_init _)) as Hc.
  specialize (Hc ltac:(simpl; lia) ltac:(by repeat constructor)).
  cbv zeta in Hc. destruct Hc as (w' & Hs & He).
  exists w'. split; [exact Hs|exact He].
Defined.

Lemma resend_flow_witness :
  exists w',
    settle_request (use_auth_urls ∅) (Build_use_auth_config MwAuth None) JNull 1
      (Some (mk_response 200 (JObj [("status", JStr "verification-link-sent")])))
      (VerifyPage.resend (use_auth_urls ∅) (VerifyPage.mk_state false)
         (init_world (C:=swr) (use_auth_urls ∅))).2 = Some w' /\
    VerifyPage.resend_disabled (VerifyPage.mk_state false) w'.(w_status) = true.
Proof.
  pose proof (resend_flow (use_auth_urls ∅) (Build_use_auth_config MwAuth None) JNull
                (VerifyPage.mk_state false)
                (mk_response 200 (JObj [("status", JStr "verification-link-sent")]))
                (init_world (use_auth_urls ∅)) (wf_init _)) as Hc.
  specialize (Hc ltac:(simpl; lia) eq_refl).
  cbv zeta in Hc. destruct Hc as (_ & w' & Hs & Hd).
  exists w'. split; [exact Hs|exact Hd].
Defined.

Lemma login_page_keeps_loader_for_user_witness :
  LoginPage.loader_effect
    (auth_effect (use_auth_urls ∅) (Build_use_auth_config MwGuest None) "/example/login" (JObj [])
       (set_cache (C:=swr) (mk_swr (JObj [("name", JStr "Ada")]) None (Some 0))
          (init_world (use_auth_urls ∅)))).(w_loading)
    (cache_data (auth_effect (use_auth_urls ∅) (Build_use_auth_config MwGuest None) "/example/login"
       (JObj []) (set_cache (C:=swr) (mk_swr (JObj [("name", JStr "Ada")]) None (Some 0))
          (init_world (use_auth_urls ∅)))).(w_cache)) = true.
Proof.
  set (W := set_cache (C:=swr) (mk_swr (JObj [("name", JStr "Ada")]) None (Some 0))
              (init_world (use_auth_urls ∅))).
  pose proof (login_page_keeps_loader_for_user (use_auth_urls ∅) (JObj []) "/example/login"
                (Build_use_auth_config MwGuest None) W) as Hc.
  specialize (Hc eq_refl eq_refl). cbv zeta in Hc. destruct Hc as [Hl _]. exact Hl.
Defined.

Lemma reset_status_plus_lost_witness :
  exists t,
    (on_post (C:=swr) (use_auth_urls ∅) HReset
       (Fulfilled (mk_response 200 (JObj [("status", JStr "~~~")]))) (init_world (use_auth_urls ∅))).(w_nav) =
      [RouterPush t None] /\
    router_query t = Some (JObj [("reset", JStr "fn5 ")]) /\
    (router_query t ≫= λ q, LoginPage.status_effect q []) <> Some (JStr "~~~").
Proof.
  destruct (reset_status_plus_lost (use_auth_urls ∅) (JObj [("status", JStr "~~~")]) "~~~"
              (init_world (C:=swr) (use_auth_urls ∅))) as (t & Hn & Hr & Hs);
    [reflexivity|reflexivity|reflexivity|vm_compute; reflexivity|].
  exists t. split; [exact Hn|]. split; [rewrite Hr; vm_compute; reflexivity|exact Hs].
Defined.

End Pages.
