(* ===== verification/Dashboard.v ===== *)
(** * The authenticated pages: layout, cards, modals and the CTA banner

    The dashboard pages [src/pages/example/cards.tsx] and
    [src/pages/example/modals.tsx] render their content inside [Layout]
    ([src/example/containers/Layout.tsx]).  [Layout] calls
    [useAuth({ middleware: 'auth' })]: the hook of [AuthHook] with the
    configuration [Layout.auth_config].  Layout keeps a [showLoader] flag
    that its effect clears once the session holds a user, and shows the
    loader until then.  Both pages open with the call-to-action banner of
    [src/example/components/CTA.tsx].

    - [Cta] is what the banner renders from its props.
    - [Layout] holds the loader effect, the class of the shell and the view:
      the loader, or the shell with the header's user and the page.
    - [Cards] is the static content of the cards page.  The card titles and
      values are kept; the paragraph text and the CSS classes are not.
    - [Modals] holds the modal's open state, the events of its buttons,
      and the view.

    The theorems compose these with the hook.  [Layout.page] is the view
    once the loader effect has run on the world's [loading] and [user]: it
    shows the content exactly when the session holds a user and loading is
    over.  [LayoutRuntime] runs the effect commit by commit.  The modal's
    state equals a reference definition: the last open or close event
    decides it. *)

From S2P Require Import Prelude JsValue Config UriCodec Redirect Http Swr AuthHook Runtime Pages.
From Stdlib Require Import ZArith String Ascii.

Module Dashboard.

Import Config UriCodec Redirect Http Swr AuthHook Runtime.

Module Cta.

(** Lines 10-33 of CTA.tsx: the anchor's [href], the icon when one is
    given, the message, and, when [url] is truthy, the link text
    [text || 'View more']. *)
Record view := mk_view {
  v_href : option string;
  v_icon : bool;
  v_message : string;
  v_more : option string
}.

Definition render (url : option string) (icon : bool) (message : string)
    (text : option string) : view :=
  mk_view url icon message
    (match url with
     | Some s => if truthy (JStr s) then
                   Some (match text with
                         | Some t => if truthy (JStr t) then t else "View more"
                         | None => "View more"
                         end)
                 else None
     | None => None
     end).

End Cta.

Module Layout.

(** Line 16: [useAuth({ middleware: 'auth' })]. *)
Definition auth_config : use_auth_config :=
  {| cfg_middleware := MwAuth; cfg_redirectIfAuthenticated := None |}.

(** Line 14: [useState(true)]. *)
Definition init : bool := true.

(** Lines 19-27: the cleanup sets [showLoader] back to [true], then the
    effect clears it when loading is over and a user is present. *)
Definition shows_loader (loading : bool) (user : jsval) : bool :=
  negb (negb loading && truthy user).

(** Line 33: [`flex h-screen ... ${isSidebarOpen && 'overflow-hidden'}`].
    A template literal turns [false] into the text ["false"]. *)
Definition shell_class (isSidebarOpen : bool) : string :=
  "flex h-screen bg-gray-50 dark:bg-gray-900 " +:+
    (if isSidebarOpen then "overflow-hidden" else "false").

(** Lines 29-43: the loader, or the shell with the header (which gets the
    hook's [user]) and the page as [Main]'s child. *)
Inductive view (A : Type) :=
| LoaderView
| ShellView (cls : string) (header_user : jsval) (main : A).
Arguments LoaderView {A}.
Arguments ShellView {A} _ _ _.

Definition render {A} (showLoader isSidebarOpen : bool) (user : jsval) (children : A) : view A :=
  if showLoader then LoaderView else ShellView (shell_class isSidebarOpen) user children.

(** The layout after the effect of the render at world [w]. *)
Definition page {C A} `{SessionCache C} (w : world C) (isSidebarOpen : bool) (children : A) : view A :=
  let user := cache_data w.(w_cache) in
  render (shows_loader w.(w_loading) user) isSidebarOpen user children.

End Layout.

Module Cards.

(** [InfoCard title value] with the name of its icon. *)
Record info_card := mk_info_card { ic_title : string; ic_value : string; ic_icon : string }.

Inductive block :=
| PageTitle (t : string)
| Banner (v : Cta.view)
| SectionTitle (t : string)
| TextCard (title : option string) (colored : bool)
| InfoCards (cards : list info_card).

(** Line 17. *)
Definition cta : Cta.view :=
  Cta.render (Some "https://github.com/roketid/windmill-nextjs-laravel-breeze") true
    "Star this project on GitHub" None.

(** Lines 12-100: the blocks of the page, in order. *)
Definition content : list block := [
  PageTitle "Cards";
  Banner cta;
  SectionTitle "Big section cards";
  TextCard None false;
  SectionTitle "Responsive cards";
  InfoCards [mk_info_card "Total clients" "6389" "PeopleIcon";
             mk_info_card "Account balance" "$ 46,760.89" "MoneyIcon";
             mk_info_card "New sales" "376" "CartIcon";
             mk_info_card "Pending contacts" "35" "ChatIcon"];
  SectionTitle "Cards with title";
  TextCard (Some "Revenue") false;
  TextCard (Some "Colored card") true
].

End Cards.

Module Modals.

(** Lines 12-18 and the buttons: [Open modal] (line 26) opens, [Cancel]
    (lines 42 and 50) and the modal's [onClose] (line 29) close, and
    [Accept] (lines 47 and 55) has no [onClick]. *)
Inductive event := OpenModal | CloseModal | AcceptModal.

(** Line 10. *)
Definition init : bool := false.

Definition step (open : bool) (e : event) : bool :=
  match e with
  | OpenModal => true
  | CloseModal => false
  | AcceptModal => open
  end.

(** The reference behaviour: the modal is open when the last event that
    opens or closes it ([Accept] does neither) opened it. *)
Definition is_toggle (e : event) : bool :=
  match e with AcceptModal => false | _ => true end.

Definition open_spec (evs : list event) : bool :=
  match list_find (λ e, is_toggle e = true) (reverse evs) with
  | Some (_, OpenModal) => true
  | _ => false
  end.

(** Line 23. *)
Definition cta : Cta.view :=
  Cta.render (Some "https://github.com/roketid/windmill-nextjs-laravel-breeze") true
    "Star this project on GitHub" None.

(** Lines 20-62: the banner, and the modal when it is open. *)
Record view := mk_view { m_cta : Cta.view; m_modal_shown : bool }.

Definition render (open : bool) : view := mk_view cta open.

End Modals.

(** ** Theorems *)

Section LayoutHook.

Context {C : Type} `{SessionCache C}.

(** A dashboard page shows its content, with the header given the
    session's user, exactly when loading is over and the session holds a
    user; otherwise it shows the loader. *)
Theorem layout_shows_content_iff {A} (w : world C) (isSidebarOpen : bool) (children : A) :
  (exists cls user, Layout.page w isSidebarOpen children = Layout.ShellView cls user children) <->
  w.(w_loading) = false /\ truthy (cache_data w.(w_cache)) = true.
Proof.
  unfold Layout.page, Layout.render, Layout.shows_loader.
  destruct (w_loading w), (truthy (cache_data (w_cache w))); simpl; split; intros Hc;
    first [done | by destruct Hc as (? & ? & ?) | by destruct Hc | by eexists _, _].
Qed.

End LayoutHook.

(** C14: the modal's state after any sequence of events equals the
    reference [open_spec]: open exactly when the last event that opens or
    closes it opened it.  [Accept] never closes it. *)
Theorem modal_state_equiv (evs : list Modals.event) :
  foldl Modals.step Modals.init evs = Modals.open_spec evs.
Proof.
  induction evs as [|e evs IH] using rev_ind; [done|].
  rewrite foldl_app. simpl. rewrite IH. unfold Modals.open_spec.
  rewrite reverse_snoc. destruct e; simpl; [done|done|].
  by destruct (list_find _ (reverse evs)) as [[i []]|].
Qed.

End Dashboard.
