(* ===== verification/LoginRuntime.v ===== *)
(** * The mounted login page: the page and the hook as one machine

    [Runtime] lets any page call any action.  This file composes the login
    page of [src/pages/example/login.tsx] with the hook it calls.  The
    page's own state ([showLoader], [submitting], [email], [password]) and
    the dependencies of its two effects sit next to the hook's state.  The
    page's [errors] and [status] are the [w_errors] and [w_status] of the
    hook's world.

    A step is a user event, a backend answer, or a React commit:
    - an input event ([LoginPage.handle]) or a submit ([LoginPage.submit])
      needs the form on screen, and a submit needs an enabled button;
    - a backend answer is [settle_request];
    - a commit takes the render's snapshot of the state.  It runs the
      cleanups of the effects whose dependencies changed, then the effects
      in declaration order: the hook's effect (auth.ts lines 140-153), the
      status effect (login.tsx lines 29-36) and the loader effect (lines
      38-46, [flag_effect] of [Effects]).  Dependencies are compared by
      identity, so the status effect sees a change of [errors] after every
      [setErrors] ([w_errors_ref]).
      When [atob] throws inside the status effect, React unmounts the page:
      the commit fails ([None]).

    The theorems:
    - once React has nothing left to commit, the form is on screen exactly
      when the session holds no user and loading is over;
    - after any commit, one more commit leaves nothing to commit;
    - a reset message survives the [setStatus(null)] of a login attempt:
      in any state where React has nothing left to commit, a successful
      CSRF answer clears the status, and the next commit shows the message
      again, because the new [errors] array reruns the status effect;
    - a [reset] parameter that [atob] rejects crashes the page at its first
      commit. *)

From S2P Require Import Prelude Effects JsValue Config UriCodec Base64 Redirect Http Swr AuthHook Runtime Pages.
From Stdlib Require Import ZArith String.

Module LoginRuntime.

Import Effects Config Base64 Http Swr AuthHook Runtime Pages.

Section LoginMachine.

Context {C : Type} `{SessionCacheLaws C}.

(** The hook's URLs, the backend URL, the router's [pathname] and
    [query], and the configuration the page passes to [useAuth] (lines
    18-21, [LoginPage.auth_config query]).  The theorems hold for every
    configuration, the page's included, so [cfg] stays a variable. *)
Variable u : auth_urls.
Variable backend : option string.
Variable pathname : string.
Variable query : jsval.
Variable cfg : use_auth_config.

Implicit Types w : world C.

(** The state of the mounted page. *)
Record lstate := mk_lstate {
  ls_hook : rstate (C:=C);
  ls_page : LoginPage.state;
  (** the identity of [errors] at the status effect's last run *)
  ls_status_deps : option nat;
  (** [(loading, user)] at the loader effect's last run *)
  ls_loader_deps : option (bool * jsval)
}.

Definition ls_world (s : lstate) : world C := s.(ls_hook).(rs_world).

(** The mount: the hook's first render and the page's [useState]s. *)
Definition linit : lstate := mk_lstate (init_state u) LoginPage.init None None.

(** [setShowLoaderState(b)]. *)
Definition set_show_loader (b : bool) (p : LoginPage.state) : LoginPage.state :=
  LoginPage.mk_state b p.(LoginPage.submitting) p.(LoginPage.email) p.(LoginPage.password).

(** Which effects have dependencies that changed since their last run. *)
Definition hook_changed (s : lstate) : bool :=
  deps_changed s.(ls_hook).(rs_deps) (deps_of s.(ls_hook).(rs_world)).
Definition status_changed (s : lstate) : bool :=
  deps_changed s.(ls_status_deps) (ls_world s).(w_errors_ref).
Definition loader_changed (s : lstate) : bool :=
  deps_changed s.(ls_loader_deps) (loading_user (ls_world s)).

Definition render_pending (s : lstate) : bool :=
  hook_changed s || status_changed s || loader_changed s.

(** Lines 29-36 on the render's [errors]: [Some None] when the effect does
    not run, [None] when [atob] throws. *)
Definition status_run (s : lstate) : option (option jsval) :=
  if status_changed s
  then Some <$> LoginPage.status_effect query (ls_world s).(w_errors)
  else Some None.

(** Line 39: [!loading && !user]. *)
Definition loader_cond (d : bool * jsval) : bool := negb d.1 && negb (truthy d.2).

(** Lines 38-46 on the render's [loading] and [user]: the cleanup of the
    previous run shows the loader, the effect hides it once the session is
    known to be absent. *)
Definition loader_run (s : lstate) : LoginPage.state :=
  set_show_loader
    (flag_effect loader_cond s.(ls_loader_deps) (loading_user (ls_world s))
       s.(ls_page).(LoginPage.showLoader))
    s.(ls_page).

(** A commit of the page with the render's snapshot [ls_world s]. *)
Definition commit (s : lstate) : option lstate :=
  let h := render_if_changed u cfg pathname query s.(ls_hook) in
  match status_run s with
  | None => None
  | Some st =>
      let h' := match st with
                | Some v => mk_rstate (set_status v h.(rs_world)) h.(rs_deps)
                | None => h
                end in
      Some (mk_lstate h' (loader_run s) (Some (ls_world s).(w_errors_ref))
              (Some (loading_user (ls_world s))))
  end.

Definition with_page (s : lstate) (p : LoginPage.state) : lstate :=
  mk_lstate s.(ls_hook) p s.(ls_status_deps) s.(ls_loader_deps).

Definition with_world (s : lstate) w : lstate :=
  mk_lstate (mk_rstate w s.(ls_hook).(rs_deps)) s.(ls_page) s.(ls_status_deps) s.(ls_loader_deps).

Inductive lstep : lstate -> lstate -> Prop :=
(** Lines 97 and 109: typing in an input of the form. *)
| lstep_input (e : LoginPage.event) s :
    s.(ls_page).(LoginPage.showLoader) = false ->
    lstep s (with_page s (LoginPage.handle s.(ls_page) e))
(** Lines 48-54 and 114: submitting the form with its button enabled. *)
| lstep_submit s p' w' :
    s.(ls_page).(LoginPage.showLoader) = false ->
    LoginPage.button_disabled s.(ls_page) = false ->
    LoginPage.submit backend s.(ls_page) (ls_world s) = (p', w') ->
    lstep s (with_page (with_world s w') p')
| lstep_settle id r s w' :
    settle_request u cfg query id r (ls_world s) = Some w' ->
    lstep s (with_world s w')
| lstep_commit s s' :
    render_pending s = true -> commit s = Some s' -> lstep s s'.

Definition lreachable (s : lstate) : Prop := rtc lstep linit s.

(** The page crashes: a commit is due and its status effect throws. *)
Definition crashes (s : lstate) : Prop := render_pending s = true /\ commit s = None.

(** ** The loader of the page *)

(** The loader flag is what the loader effect's last run left. *)
Definition form_inv (s : lstate) : Prop :=
  flag_inv loader_cond s.(ls_loader_deps) s.(ls_page).(LoginPage.showLoader).

Lemma handle_showLoader p e :
  (LoginPage.handle p e).(LoginPage.showLoader) = p.(LoginPage.showLoader).
Proof. by destruct e. Qed.

Lemma lstep_form_inv s s' : lstep s s' -> form_inv s -> form_inv s'.
Proof.
  unfold form_inv.
  destruct 1 as [e s _|s p' w' _ _ Hsub|id r s w' _|s s' _ Hc]; simpl; intros Hi.
  - by rewrite handle_showLoader.
  - unfold LoginPage.submit in Hsub. by simplify_eq/=.
  - exact Hi.
  - unfold commit in Hc. destruct (status_run s); simplify_eq/=. by apply flag_effect_inv.
Qed.

Lemma lreachable_form_inv s : lreachable s -> form_inv s.
Proof.
  unfold lreachable. revert s. apply (@rtc_ind_r _ lstep form_inv linit); [done|].
  intros y z _ Hyz. by apply lstep_form_inv.
Qed.

(** ** Theorems *)

(** C11: once React has nothing left to commit, the login form is on
    screen exactly when loading is over and the session holds no user: a
    logged-in visitor never sees the form, and a visitor without a session
    is not left on the loader. *)
Theorem login_form_hidden_from_user (s : lstate) (mode : string) :
  lreachable s -> render_pending s = false ->
  (exists v, LoginPage.view s.(ls_page) (ls_world s).(w_errors) (ls_world s).(w_status) mode = Some v)
  <-> truthy (cache_data (ls_world s).(w_cache)) = false /\ (ls_world s).(w_loading) = false.
Proof.
  intros Hr Hq. pose proof (lreachable_form_inv s Hr) as Hi.
  unfold render_pending in Hq. apply orb_false_iff in Hq as [_ Hq].
  apply deps_unchanged in Hq. unfold form_inv, flag_inv in Hi. rewrite Hq in Hi.
  unfold LoginPage.view. rewrite Hi. unfold loader_cond, loading_user. simpl.
  destruct (w_loading _), (truthy _); simpl; split; intros Hv;
    first [by destruct Hv as [? ?] | by destruct Hv | by eexists | done].
Qed.

(** C12: React's work after any commit ends at the next one: the commit
    records the dependencies the effects read, and neither the hook's
    effect nor the status it writes changes a dependency, so one more
    commit, which cannot throw, leaves nothing to commit. *)
Theorem login_commits_settle (s s1 : lstate) :
  commit s = Some s1 -> exists s2, commit s1 = Some s2 /\ render_pending s2 = false.
Proof.
  intros Hc. unfold commit in Hc. destruct (status_run s) as [st|]; [|done]. injection Hc as <-.
  destruct (render_if_changed_settled u cfg pathname query (ls_hook s)) as (Hd & Hdeps & Href).
  set (h := render_if_changed u cfg pathname query (ls_hook s)) in *.
  set (h' := match st with Some v => mk_rstate (set_status v (rs_world h)) (rs_deps h) | None => h end).
  assert (rs_deps h' = Some (deps_of (rs_world h')) /\
          (rs_world h').(w_errors_ref) = (ls_world s).(w_errors_ref)) as [Hd' Hr'].
  { subst h'. destruct st; simpl; rewrite Hd; (split; [|done]); unfold deps_of in *; simpl; congruence. }
  assert (render_if_changed u cfg pathname query h' = h') as Hh.
  { unfold render_if_changed. by rewrite Hd', bool_decide_eq_false_2 by (intros []; done). }
  eexists. split.
  - unfold commit, status_run, status_changed, ls_world. simpl. rewrite Hr', deps_changed_after.
    reflexivity.
  - unfold render_pending, hook_changed, status_changed, loader_changed, ls_world. simpl.
    unfold ls_world in Hr'. rewrite Hh, Hd', Hr'. by rewrite !deps_changed_after.
Qed.

(** C16: a [reset] parameter that is a non-empty string [atob] rejects
    crashes the login page at its first commit: the status effect throws
    and React unmounts the page. *)
Theorem login_bad_reset_crashes (r : string) :
  get_prop query "reset" = Some (JStr r) -> r <> "" -> atob r = None -> crashes linit.
Proof.
  intros Hg Hne Ha. split; [done|].
  unfold commit, status_run, status_changed, deps_changed. rewrite bool_decide_eq_true_2 by done.
  replace (w_errors (ls_world linit)) with (@nil jsval) by reflexivity.
  by rewrite (status_effect_reset query r), Ha.
Qed.

(** C15: on a login page opened with a reset message, the message survives
    a login attempt.  In any state where React has nothing left to commit,
    a successful answer to the CSRF request of a login clears the status
    ([setStatus(null)] of auth.ts line 72) and, with [setErrors([])],
    hands the page a new [errors] array; the next commit reruns the status
    effect, which decodes the [reset] parameter again and shows the
    message. *)
Theorem login_reset_message_outlives_csrf (s : lstate) (id : nat) (props : jsval)
    (rc : response) (r m : string) w1 :
  get_prop query "reset" = Some (JStr r) -> r <> "" -> atob r = Some m ->
  render_pending s = false ->
  (exists i p, list_find (λ p, p.(p_id) = id) (ls_world s).(w_pending) = Some (i, p) /\
               p.(p_cont) = KCsrf (ALogin props)) ->
  (200 <= rc.(res_status) < 300)%Z ->
  settle_request u cfg query id (Some rc) (ls_world s) = Some w1 ->
  w1.(w_status) = JNull /\
  exists s2, commit (with_world s w1) = Some s2 /\ (ls_world s2).(w_status) = JStr m.
Proof.
  intros Hg Hne Ha Hq (i & p & Hf & Hk) Hrc Hs.
  unfold render_pending, status_changed in Hq. apply orb_false_iff in Hq as [Hq _].
  apply orb_false_iff in Hq as [_ Hq]. apply deps_unchanged in Hq.
  unfold settle_request in Hs. rewrite Hf, Hk, (settle_ok rc Hrc) in Hs. injection Hs as <-.
  split; [done|].
  unfold commit, status_run, status_changed, with_world, ls_world. simpl. rewrite Hq.
  unfold deps_changed, ls_world. rewrite bool_decide_eq_true_2 by (intros [=]; lia).
  rewrite (status_effect_reset query r), Ha by done. by eexists.
Qed.

End LoginMachine.

(** ** Running the page on concrete answers *)

(** One step of a run: each premise is computed. *)
Ltac lrun_commit := eapply rtc_l; [eapply lstep_commit; vm_compute; reflexivity|].
Ltac lrun_settle id r :=
  eapply rtc_l; [apply (lstep_settle _ _ _ _ _ id r); vm_compute; reflexivity|].
Ltac lrun_input e := eapply rtc_l; [apply (lstep_input _ _ _ _ _ e); vm_compute; reflexivity|].
Ltac lrun_submit := eapply rtc_l; [eapply lstep_submit; vm_compute; reflexivity|].

(** The mount of the login page against SWR: two commits (the hook's
    effect ends the loading, then the loader effect hides the loader), a
    401 on the session fetch, and the commit it triggers. *)
Ltac lrun_mount :=
  lrun_commit; lrun_commit; lrun_settle 0 (Some (mk_response 401 JNull)); lrun_commit.

Lemma login_form_hidden_from_user_witness :
  exists s : lstate (C:=swr),
    lreachable (use_auth_urls ∅) None "/example/login" (JObj []) (Build_use_auth_config MwGuest None) s /\
    render_pending s = false /\
    exists v, LoginPage.view s.(ls_page) (ls_world s).(w_errors) (ls_world s).(w_status) "light" = Some v.
Proof.
  eexists. match goal with |- ?A /\ ?B /\ _ => assert (A /\ B) as (Hr & Hq) end.
  { split; [unfold lreachable; lrun_mount; apply rtc_refl|vm_compute; reflexivity]. }
  split; [exact Hr|]. split; [exact Hq|].
  apply (proj2 (login_form_hidden_from_user _ _ _ _ _ _ "light" Hr Hq)).
  vm_compute. split; reflexivity.
Defined.

Lemma login_commits_settle_witness :
  exists s1 s2 : lstate (C:=swr),
    commit (use_auth_urls ∅) "/example/login" (JObj []) (Build_use_auth_config MwGuest None)
      (linit (use_auth_urls ∅)) = Some s1 /\
    commit (use_auth_urls ∅) "/example/login" (JObj []) (Build_use_auth_config MwGuest None) s1 = Some s2 /\
    render_pending s2 = false.
Proof.
  eexists. match goal with |- exists _, ?A /\ _ => assert A as Hc end.
  { vm_compute. reflexivity. }
  destruct (login_commits_settle _ _ _ _ _ _ Hc) as (s2 & H2 & Hq).
  exists s2. split; [exact Hc|]. split; [exact H2|exact Hq].
Defined.

Lemma login_bad_reset_crashes_witness :
  crashes (C:=swr) (use_auth_urls ∅) "/example/login" (JObj [("reset", JStr "a")]) (Build_use_auth_config MwGuest None) (linit (use_auth_urls ∅)).
Proof.
  apply (login_bad_reset_crashes (use_auth_urls ∅) "/example/login" (JObj [("reset", JStr "a")]) (Build_use_auth_config MwGuest None) "a");
    [reflexivity|discriminate|vm_compute; reflexivity].
Defined.

Lemma login_reset_message_outlives_csrf_witness :
  let q := JObj [("reset", JStr (btoa "passwords.reset"))] in
  let cfg := Build_use_auth_config MwGuest None in
  exists (s : lstate (C:=swr)) w1,
    lreachable (use_auth_urls ∅) None "/example/login" q cfg s /\
    render_pending s = false /\
    settle_request (use_auth_urls ∅) cfg q 1 (Some (mk_response 204 JNull)) (ls_world s) = Some w1 /\
    w1.(w_status) = JNull /\
    exists s2, commit (use_auth_urls ∅) "/example/login" q cfg (with_world s w1) = Some s2 /\
      (ls_world s2).(w_status) = JStr "passwords.reset".
Proof.
  intros q cfg. eexists. eexists.
  match goal with |- ?A /\ ?B /\ ?E /\ _ => assert (A /\ B /\ E) as (Hr & Hq & Hs) end.
  { split; [|split].
    - unfold lreachable. lrun_mount.
      lrun_input (LoginPage.EmailChanged "ada@example.com").
      lrun_input (LoginPage.PasswordChanged "secret").
      lrun_submit. apply rtc_refl.
    - vm_compute. reflexivity.
    - vm_compute. reflexivity. }
  split; [exact Hr|]. split; [exact Hq|]. split; [exact Hs|].
  apply (login_reset_message_outlives_csrf (use_auth_urls ∅) "/example/login" q cfg _ 1
           (JObj [("email", JStr "ada@example.com"); ("password", JStr "secret")])
           (mk_response 204 JNull) (btoa "passwords.reset") "passwords.reset" _);
    [reflexivity|discriminate|vm_compute; reflexivity|exact Hq| |simpl; lia|exact Hs].
  do 2 eexists. split; vm_compute; reflexivity.
Defined.

End LoginRuntime.
