(* ===== verification/LayoutRuntime.v ===== *)
(** * The mounted dashboard layout: [Layout] and the hook as one machine

    Every dashboard page renders inside [Layout]
    ([src/example/containers/Layout.tsx]), which calls
    [useAuth({ middleware: 'auth' })] and keeps a [showLoader] flag,
    [useState(true)], with the effect of lines 19-27: clear the flag when
    loading is over and a user is present, set it back in the cleanup.  The
    state of this machine is the hook's [rstate], the flag and the
    dependencies [(loading, user)] of the effect's last run.

    A step is a backend answer or a React commit.  A commit reads the
    render's snapshot; the hook's effect runs when [user] or [error]
    changed ([render_if_changed]), and the layout's effect when [loading] or
    [user] changed ([flag_effect] of [Effects]).  The [logout] the layout
    hands to [Header] is not called here: [Header] is not part of [src/].

    The theorems: the flag keeps [flag_inv] in every reachable state; once
    React has nothing left to commit, the shell (header and page) is on
    screen exactly when loading is over and the session holds a user; and
    one commit after any other leaves nothing to commit. *)

From S2P Require Import Prelude Effects JsValue Config Redirect Http Swr AuthHook Runtime Dashboard.
From Stdlib Require Import ZArith String.

Module LayoutRuntime.

Import Effects Config Http Swr AuthHook Runtime Dashboard.Dashboard.

Section LayoutMachine.

Context {C : Type} `{SessionCacheLaws C}.

(** The hook's URLs and the router's [pathname] and [query] of the
    dashboard page. *)
Variable u : auth_urls.
Variable pathname : string.
Variable query : jsval.

Record ystate := mk_ystate {
  ys_hook : rstate (C:=C);
  ys_showLoader : bool;
  (** [(loading, user)] at the effect's last run *)
  ys_loader_deps : option (bool * jsval)
}.

Definition ys_world (s : ystate) : world C := s.(ys_hook).(rs_world).

(** The mount: the hook's first render and [useState(true)] (line 14). *)
Definition yinit : ystate := mk_ystate (init_state u) Layout.init None.

(** Line 20: [!loading && user]. *)
Definition layout_cond (d : bool * jsval) : bool := negb d.1 && truthy d.2.

Definition yrender_pending (s : ystate) : bool :=
  deps_changed s.(ys_hook).(rs_deps) (deps_of (ys_world s)) ||
  deps_changed s.(ys_loader_deps) (loading_user (ys_world s)).

(** A commit with the render's snapshot [ys_world s]: the hook's effect,
    then the layout's (lines 19-27). *)
Definition ycommit (s : ystate) : ystate :=
  mk_ystate (render_if_changed u Layout.auth_config pathname query s.(ys_hook))
    (flag_effect layout_cond s.(ys_loader_deps) (loading_user (ys_world s)) s.(ys_showLoader))
    (Some (loading_user (ys_world s))).

Inductive ystep : ystate -> ystate -> Prop :=
| ystep_settle id r s w' :
    settle_request u Layout.auth_config query id r (ys_world s) = Some w' ->
    ystep s (mk_ystate (mk_rstate w' s.(ys_hook).(rs_deps)) s.(ys_showLoader) s.(ys_loader_deps))
| ystep_commit s :
    yrender_pending s = true -> ystep s (ycommit s).

Definition yreachable (s : ystate) : Prop := rtc ystep yinit s.

(** ** Lemmas *)

Lemma yreachable_flag_inv s :
  yreachable s -> flag_inv layout_cond s.(ys_loader_deps) s.(ys_showLoader).
Proof.
  unfold yreachable. revert s.
  apply (@rtc_ind_r _ ystep (λ s, flag_inv layout_cond s.(ys_loader_deps) s.(ys_showLoader)) yinit);
    [done|].
  intros y z _ Hyz Hi. destruct Hyz; simpl; [done|]. by apply flag_effect_inv.
Qed.

(** One commit after any other leaves nothing to commit. *)
Lemma layout_commits_settle s : yrender_pending (ycommit (ycommit s)) = false.
Proof.
  destruct (render_if_changed_settled u Layout.auth_config pathname query (ys_hook s))
    as (Hd & Hdeps & _).
  assert (render_if_changed u Layout.auth_config pathname query
            (render_if_changed u Layout.auth_config pathname query (ys_hook s)) =
          render_if_changed u Layout.auth_config pathname query (ys_hook s)) as Hh.
  { unfold render_if_changed at 1. rewrite Hd, Hdeps.
    by rewrite bool_decide_eq_false_2 by (intros []; done). }
  unfold yrender_pending, ycommit, ys_world. simpl. rewrite Hh, Hd, Hdeps.
  by rewrite !deps_changed_after.
Qed.

(** C13: once React has nothing left to commit, a dashboard page shows
    its shell (the header, given the session's user, and the page) exactly
    when loading is over and the session holds a user; otherwise the
    loader. *)
Theorem layout_shell_iff_idle {A} (s : ystate) (isSidebarOpen : bool) (children : A) :
  yreachable s -> yrender_pending s = false ->
  (exists cls usr, Layout.render s.(ys_showLoader) isSidebarOpen
                     (cache_data (ys_world s).(w_cache)) children = Layout.ShellView cls usr children)
  <-> (ys_world s).(w_loading) = false /\ truthy (cache_data (ys_world s).(w_cache)) = true.
Proof.
  intros Hr Hq. pose proof (yreachable_flag_inv s Hr) as Hi.
  unfold yrender_pending in Hq. apply orb_false_iff in Hq as [_ Hq].
  apply deps_unchanged in Hq. unfold flag_inv in Hi. rewrite Hq in Hi. rewrite Hi.
  unfold Layout.render, layout_cond, loading_user. simpl.
  destruct (w_loading _), (truthy _); simpl; split; intros Hc;
    first [done | by destruct Hc as (? & ? & ?) | by destruct Hc | by eexists _, _].
Qed.

End LayoutMachine.

(** ** Running the layout on concrete answers *)

Ltac yrun_commit := eapply rtc_l; [apply ystep_commit; vm_compute; reflexivity|].
Ltac yrun_settle id r :=
  eapply rtc_l; [apply (ystep_settle _ _ _ id r); vm_compute; reflexivity|].

Lemma layout_shell_iff_idle_witness :
  exists s : ystate (C:=swr),
    yreachable (use_auth_urls ∅) "/example/cards" (JObj []) s /\
    yrender_pending s = false /\
    exists cls usr, Layout.render s.(ys_showLoader) false (cache_data (ys_world s).(w_cache))
                      Cards.content = Layout.ShellView cls usr Cards.content.
Proof.
  eexists. match goal with |- ?A /\ ?B /\ _ => assert (A /\ B) as (Hr & Hq) end.
  { split; [unfold yreachable; yrun_commit; yrun_commit;
            yrun_settle 0 (Some (mk_response 200 (JObj [("name", JStr "Ada")])));
            yrun_commit; apply rtc_refl|].
    vm_compute. reflexivity. }
  split; [exact Hr|]. split; [exact Hq|].
  apply (proj2 (layout_shell_iff_idle _ _ _ _ false Cards.content Hr Hq)).
  vm_compute. split; reflexivity.
Defined.

End LayoutRuntime.
